(** * Tank-level computation engine of kiran-backend

    Shallow embedding of the level/volume/status computations found in
    [src/routes/tankCurrent.js], [src/routes/updateData.js] and
    [routes/tankHistoryByTank.js], together with the properties the
    specification states about them.

    Numbers.  A JavaScript number is modelled as an extended real: a finite
    real, [+Infinity], [-Infinity] or [NaN].  Arithmetic on finite values is
    exact (no binary64 rounding, no overflow) and zero carries no sign; the
    special values follow IEEE-754 as JavaScript does.  [Math.acos],
    [Math.sqrt] and [Math.PI] are the real [acos], [sqrt] and [PI], and
    [toFixed] rounds the exact value.  A value computed here is therefore
    the value of the formula, which the engine's result matches up to
    rounding; [Binary64] evaluates the cylinder volume as the engine does,
    rounding included, where the rounding decides the sign of the result.

    Strings.  A string holds the UTF-8 bytes of the text. *)

From Stdlib Require Import Reals Lra Lia ZArith String List Bool Psatz.
From Stdlib Require SpecFloat.
Import ListNotations.

Open Scope R_scope.

(* ================================================================= *)
(** ** JavaScript numbers *)

Module JsNumber.

Inductive num : Type :=
| NaN
| PInf
| NInf
| Fin (r : R).

Coercion Fin : R >-> num.

Definition Rleb (x y : R) : bool := if Rle_dec x y then true else false.
Definition Rltb (x y : R) : bool := if Rlt_dec x y then true else false.
Definition Reqb (x y : R) : bool := if Req_dec_T x y then true else false.

(** [Number.isFinite] and [Number.isNaN]. *)
Definition isFinite (x : num) : bool :=
  match x with Fin _ => true | _ => false end.

Definition isNaN (x : num) : bool :=
  match x with NaN => true | _ => false end.

(** Relational operators; every comparison with [NaN] is false. *)
Definition le (x y : num) : bool :=
  match x, y with
  | NaN, _ | _, NaN => false
  | NInf, _ => true
  | _, PInf => true
  | Fin a, Fin b => Rleb a b
  | PInf, _ => false
  | Fin _, NInf => false
  end.

Definition lt (x y : num) : bool :=
  match x, y with
  | NaN, _ | _, NaN => false
  | PInf, _ => false
  | _, NInf => false
  | NInf, _ => true
  | Fin _, PInf => true
  | Fin a, Fin b => Rltb a b
  end.

Definition ge (x y : num) : bool := le y x.
Definition gt (x y : num) : bool := lt y x.

(** Subtraction. *)
Definition sub (x y : num) : num :=
  match x, y with
  | NaN, _ | _, NaN => NaN
  | PInf, PInf | NInf, NInf => NaN
  | PInf, _ => PInf
  | NInf, _ => NInf
  | Fin _, PInf => NInf
  | Fin _, NInf => PInf
  | Fin a, Fin b => Fin (a - b)
  end.

(** An infinity of the given sign times (or a zero-divided) finite [r]. *)
Definition scaleInf (positive : bool) (r : R) : num :=
  if Rltb 0 r then (if positive then PInf else NInf)
  else if Rltb r 0 then (if positive then NInf else PInf)
  else NaN.

Definition mul (x y : num) : num :=
  match x, y with
  | NaN, _ | _, NaN => NaN
  | Fin a, Fin b => Fin (a * b)
  | PInf, PInf | NInf, NInf => PInf
  | PInf, NInf | NInf, PInf => NInf
  | PInf, Fin b | Fin b, PInf => scaleInf true b
  | NInf, Fin b | Fin b, NInf => scaleInf false b
  end.

Definition div (x y : num) : num :=
  match x, y with
  | NaN, _ | _, NaN => NaN
  | Fin a, Fin b => if Reqb b 0 then scaleInf true a else Fin (a / b)
  | Fin _, _ => Fin 0
  | PInf, Fin b => if Rleb 0 b then PInf else NInf
  | NInf, Fin b => if Rleb 0 b then NInf else PInf
  | _, _ => NaN
  end.

(** [Math.acos], [Math.sqrt], [Math.max], [Math.PI]. *)
Definition acos (x : num) : num :=
  match x with
  | Fin a => if Rleb (-1) a && Rleb a 1 then Fin (Ratan.acos a) else NaN
  | _ => NaN
  end.

Definition sqrt (x : num) : num :=
  match x with
  | Fin a => if Rleb 0 a then Fin (R_sqrt.sqrt a) else NaN
  | PInf => PInf
  | _ => NaN
  end.

Definition max (x y : num) : num :=
  match x, y with
  | NaN, _ | _, NaN => NaN
  | _, _ => if lt x y then y else x
  end.

Definition min (x y : num) : num :=
  match x, y with
  | NaN, _ | _, NaN => NaN
  | _, _ => if lt y x then y else x
  end.

Definition PI : num := Fin Rtrigo1.PI.

(** Truthiness of a number, and [x || 0]. *)
Definition truthy (x : num) : bool :=
  match x with
  | NaN => false
  | Fin a => negb (Reqb a 0)
  | _ => true
  end.

Definition orZero (x : num) : num := if truthy x then x else Fin 0.

(** [Number(x.toFixed(1))]: the nearest multiple of one tenth, ties away
    from zero; magnitudes from 1e21 on and the special values are printed
    in full and read back unchanged. *)
Definition roundTenth (a : R) : R := IZR (Int_part (10 * a + / 2)) / 10.

Definition toFixed1 (x : num) : num :=
  match x with
  | Fin a =>
      if Rleb (10 ^ 21) (Rabs a) then Fin a
      else if Rltb a 0 then Fin (- roundTenth (- a))
      else Fin (roundTenth a)
  | _ => x
  end.

Declare Scope js_scope.
Delimit Scope js_scope with js.
Bind Scope js_scope with num.

Notation "x - y" := (sub x y) : js_scope.
Notation "x * y" := (mul x y) : js_scope.
Notation "x / y" := (div x y) : js_scope.
Notation "x <=? y" := (le x y) (at level 70) : js_scope.
Notation "x <? y" := (lt x y) (at level 70) : js_scope.
Notation "x >=? y" := (ge x y) (at level 70) : js_scope.
Notation "x >? y" := (gt x y) (at level 70) : js_scope.

End JsNumber.

Import JsNumber.

(* ================================================================= *)
(** ** Completions *)

Open Scope string_scope.

(** A call either returns a value or throws; a thrown error is
    identified by its [name]. *)
Inductive completion (A : Type) : Type :=
| Normal (a : A)
| Throw (name : string).

Arguments Normal {A} a.
Arguments Throw {A} name.

Definition bind {A B : Type} (c : completion A) (k : A -> completion B)
  : completion B :=
  match c with
  | Normal a => k a
  | Throw e => Throw e
  end.

Notation "x <- c ;; k" := (bind c (fun x => k))
  (at level 61, c at next level, right associativity).

Definition returns {A : Type} (c : completion A) : Prop :=
  exists a, c = Normal a.

Definition raises {A : Type} (c : completion A) : Prop :=
  exists e, c = Throw e.

(** Calling a three-argument function whose body holds no [throw] and
    applies only operators that are total on numbers. *)
Definition call3 {A : Type} (f : A -> A -> A -> num) (a b c : A)
  : completion num :=
  Normal (f a b c).

(** A volume function that throws exactly on a non-finite argument, and
    then throws [GeometryError]. *)
Definition raisesExactlyOnNonFinite (f : num -> num -> num -> completion num)
  : Prop :=
  forall a b c : num,
    (raises (f a b c) <-> (isFinite a && isFinite b && isFinite c) = false) /\
    (forall e, f a b c = Throw e -> e = "GeometryError").

(** A [Date]: a valid instant in milliseconds since the epoch, or the
    invalid date, whose [getTime()] is [NaN]. *)
Inductive date : Type :=
| ValidDate (ms : Z)
| InvalidDate.

Definition getTime (d : date) : num :=
  match d with
  | ValidDate ms => Fin (IZR ms)
  | InvalidDate => NaN
  end.

(** [toISOString()] throws on the invalid date; the string it returns is
    represented by the instant it denotes. *)
Definition toISOString (d : date) : completion Z :=
  match d with
  | ValidDate ms => Normal ms
  | InvalidDate => Throw "RangeError"
  end.

Module JsValue.

(** A value met where a number is expected: [undefined], [null], or
    anything else, held as the number [Number(...)] reads from it. *)
Inductive jsvalue : Type :=
| Undefined
| Null
| Num (n : num).

Coercion Num : num >-> jsvalue.

Definition Number (v : jsvalue) : num :=
  match v with
  | Undefined => NaN
  | Null => 0
  | Num n => n
  end.

(** [v != null]. *)
Definition notNullish (v : jsvalue) : bool :=
  match v with
  | Num _ => true
  | _ => false
  end.

End JsValue.

Import JsValue.

(** The tank that is computed as a rectangular prism. *)
Definition FIRE_TANK : string := "FIRE-TANK".

(* ================================================================= *)
(** ** The circular segment, over the reals *)

Module Segment.

(** Area of the circular segment of height [h] in a disc of radius [r]:
    [r^2 * acos((r - h)/r) - (r - h) * sqrt(2 r h - h^2)]. *)
Definition segmentArea (r h : R) : R :=
  r * r * Ratan.acos ((r - h) / r) - (r - h) * R_sqrt.sqrt (2 * r * h - h * h).

(** The same area in terms of the half-angle [t] of the wetted arc. *)
Definition angleArea (t : R) : R := t - sin t * cos t.

(** [clamp x lo hi]: [x] brought into [[lo, hi]]. *)
Definition clamp (x lo hi : R) : R := Rmax lo (Rmin x hi).

End Segment.

(* ================================================================= *)
(** ** routes/tankCurrent.js *)

Module TankCurrent.

Local Open Scope string_scope.
Local Open Scope js_scope.

(** [horizontalCylinderVolume(D, L, h)], in cubic metres. *)
Definition horizontalCylinderVolume (D L h : num) : num :=
  let R' := D / 2 in
  if h <=? 0 then 0
  else if h >=? D then PI * R' * R' * L
  else
    let term1 := R' * R' * acos ((R' - h) / R') in
    let term2 := (R' - h) * sqrt (2 * R' * h - h * h) in
    let area := term1 - term2 in
    L * area.

(** [statusFromLimits(actualL, minL, maxL)]: the pair
    [(tank_status, tank_alert_message)]; [None] is [null]. *)
Definition statusFromLimits (actualL minL maxL : option num)
  : string * string :=
  match actualL with
  | None => ("Unknown", "No reading")
  | Some actual =>
      match minL, maxL with
      | None, None => ("OK", "Normal")
      | _, _ =>
          if match maxL with Some m => actual >=? m | None => false end
          then ("Warning", "High level")
          else if match minL with Some m => actual <=? m | None => false end
          then ("Warning", "Low level")
          else ("OK", "Normal")
      end
  end.

(** A row of the query: a column is [None] when SQL [NULL], and a numeric
    column holds the number that [Number(...)] reads from it. *)
Record Row : Type := {
  device_id : option string;
  tank_no : option string;
  location : option string;
  diameter_breadth : option num;
  length : option num;
  tank_volume : option num;
  upper_safe_limit_pct : option num;
  lower_safe_limit_pct : option num;
  ultra_height : option num;
  date_time : option date
}.

(** The object built for one tank; nested objects are flattened, a field
    [a.b] of the source being [a_b] here. *)
Record TankResponse : Type := {
  r_device_id : option string;
  r_tank_no : option string;
  r_location : option string;
  last_updated : option Z;
  minutes_since_last : option num;
  stale : bool;
  geometry_diameter_m : num;
  geometry_length_m : num;
  geometry_capacity_l : option num;
  raw_reading_ultra_height_m : option num;
  raw_reading_water_depth_m : option num;
  raw_reading_volume_l : option num;
  effective_volume_l : option num;
  effective_fill_percentage : option num;
  limits_l_min_l : option num;
  limits_l_max_l : option num;
  tank_status : string;
  tank_alert_message : string
}.

Definition isFireTank (tankNo : option string) : bool :=
  match tankNo with
  | Some s => String.eqb s FIRE_TANK
  | None => false
  end.

(** Lines 55-62: [(minutesSinceLast, isStale)]. *)
Definition staleness (now : Z) (lastTime : option date) : option num * bool :=
  match lastTime with
  | Some d =>
      if negb (isNaN (getTime d)) then
        let minutesSinceLast := (Fin (IZR now) - getTime d) / (1000 * 60) in
        (Some minutesSinceLast, minutesSinceLast >? 30)
      else (None, true)
  | None => (None, true)
  end.

(** Lines 71-86: water depth from the bottom. *)
Definition resolveDepth (tankNo : option string) (D : num)
    (sensor : option num) : option num :=
  match sensor with
  | None => None
  | Some sensor =>
      if isFireTank tankNo then
        let MAX_HEIGHT_M : num := 17.9 in
        let depth := MAX_HEIGHT_M - sensor in
        let depth := if depth <? 0 then 0 : num else depth in
        let depth := if depth >? MAX_HEIGHT_M then MAX_HEIGHT_M else depth in
        Some depth
      else if D >? 0 then
        let depth := D - sensor in
        let depth := if depth <? 0 then 0 : num else depth in
        let depth := if depth >? D then D else depth in
        Some depth
      else None
  end.

(** Lines 88-102: raw volume in litres from the last reading. *)
Definition rawVolume (tankNo : option string) (D L : num)
    (depth : option num) : option num :=
  match depth with
  | None => None
  | Some depth =>
      if isFireTank tankNo then
        let WIDTH_M : num := 8.9 in
        let LENGTH_M : num := 5.15 in
        let volM3 := WIDTH_M * LENGTH_M * depth in
        Some (volM3 * 1000)
      else if (D >? 0) && (L >? 0) then
        let volM3 := horizontalCylinderVolume D L depth in
        Some (volM3 * 1000)
      else None
  end.

(** Lines 128-131: fill percentage of the effective volume. *)
Definition fillPercentage (capacityL effectiveVolumeL : option num)
  : option num :=
  match capacityL, effectiveVolumeL with
  | Some capacity, Some volume =>
      if capacity >? 0 then Some (toFixed1 ((volume / capacity) * 100))
      else None
  | _, _ => None
  end.

(** [buildTankResponseRow(row)], with the clock read at [now]. *)
Definition buildTankResponseRow (now : Z) (row : Row)
  : completion TankResponse :=
  let lastTime := date_time row in
  let '(minutesSinceLast, isStale) := staleness now lastTime in
  let tankNo := tank_no row in
  let D := match diameter_breadth row with Some d => d | None => Fin 0 end in
  let L := match length row with Some l => l | None => Fin 0 end in
  let capacityL := tank_volume row in
  let sensor := ultra_height row in
  let depth := resolveDepth tankNo D sensor in
  let rawVolumeL := rawVolume tankNo D L depth in
  let maxL := upper_safe_limit_pct row in
  let minL := lower_safe_limit_pct row in
  let effectiveVolumeL := if isStale then Some (Fin 0) else rawVolumeL in
  let s :=
    if isStale then ("Inactive", "No reading in last 30 minutes")
    else statusFromLimits rawVolumeL minL maxL in
  let fillPct := fillPercentage capacityL effectiveVolumeL in
  iso <- match lastTime with
         | Some d => t <- toISOString d ;; Normal (Some t)
         | None => Normal None
         end ;;
  Normal {|
    r_device_id := device_id row;
    r_tank_no := tank_no row;
    r_location := location row;
    last_updated := iso;
    minutes_since_last := option_map toFixed1 minutesSinceLast;
    stale := isStale;
    geometry_diameter_m := D;
    geometry_length_m := L;
    geometry_capacity_l := capacityL;
    raw_reading_ultra_height_m := sensor;
    raw_reading_water_depth_m := depth;
    raw_reading_volume_l := option_map toFixed1 rawVolumeL;
    effective_volume_l := option_map toFixed1 effectiveVolumeL;
    effective_fill_percentage := fillPct;
    limits_l_min_l := minL;
    limits_l_max_l := maxL;
    tank_status := fst s;
    tank_alert_message := snd s
  |}.

(** Vocabulary of the staleness rule: the reading carries no timestamp,
    or one more than thirty minutes before [now]. *)
Definition absent (row : Row) : Prop := date_time row = None.

Definition olderThan30Min (now : Z) (row : Row) : Prop :=
  exists t, date_time row = Some (ValidDate t) /\ (now - t > 30 * 60 * 1000)%Z.

(** The raw volume and depth that [buildTankResponseRow] computes for a
    row, before any rounding. *)
Definition diameterOf (row : Row) : num :=
  match diameter_breadth row with Some d => d | None => Fin 0 end.

Definition lengthOf (row : Row) : num :=
  match length row with Some l => l | None => Fin 0 end.

Definition depthOf (row : Row) : option num :=
  resolveDepth (tank_no row) (diameterOf row) (ultra_height row).

Definition rawVolumeOf (row : Row) : option num :=
  rawVolume (tank_no row) (diameterOf row) (lengthOf row) (depthOf row).

(** A cylindrical tank read 45 minutes before [scenarioD_now]. *)
Definition scenarioD_row : Row := {|
  device_id := Some "DEV-1";
  tank_no := Some "TANK-1";
  location := Some "Yard";
  diameter_breadth := Some (Fin 2);
  length := Some (Fin 5);
  tank_volume := Some (Fin 15708);
  upper_safe_limit_pct := Some (Fin 14000);
  lower_safe_limit_pct := Some (Fin 1500);
  ultra_height := Some (Fin 0.8);
  date_time := Some (ValidDate 0)
|}.

Definition scenarioD_now : Z := 45 * 60 * 1000.

(** The same tank, read just now, with no sensor distance. *)
Definition scenarioE_row : Row := {|
  device_id := Some "DEV-1";
  tank_no := Some "TANK-1";
  location := Some "Yard";
  diameter_breadth := Some (Fin 2);
  length := Some (Fin 5);
  tank_volume := Some (Fin 15708);
  upper_safe_limit_pct := Some (Fin 14000);
  lower_safe_limit_pct := Some (Fin 1500);
  ultra_height := None;
  date_time := Some (ValidDate 0)
|}.

(** The rectangular tank with the sensor reading 0 m. *)
Definition scenarioB_row : Row := {|
  device_id := Some "DEV-9";
  tank_no := Some FIRE_TANK;
  location := Some "Pump house";
  diameter_breadth := None;
  length := None;
  tank_volume := Some (Fin 820446.5);
  upper_safe_limit_pct := None;
  lower_safe_limit_pct := None;
  ultra_height := Some (Fin 0);
  date_time := Some (ValidDate 0)
|}.

End TankCurrent.

(* ================================================================= *)
(** ** routes/updateData.js *)

Module UpdateData.

Local Open Scope string_scope.
Local Open Scope js_scope.

(** [horizontalCylinderVolumeLitres(D, L, h)], in litres. *)
Definition horizontalCylinderVolumeLitres (D L h : jsvalue) : num :=
  let Dnum := Number D in
  let Lnum := Number L in
  let hnum := Number h in
  if negb (isFinite Dnum) || negb (isFinite Lnum) || negb (isFinite hnum)
  then 0
  else if (Dnum <=? 0) || (Lnum <=? 0) then 0
  else if hnum <=? 0 then 0
  else
    let r := Dnum / 2 in
    let hnum := if hnum <? 0 then 0 : num else hnum in
    let hnum := if hnum >? 2 * r then 2 * r else hnum in
    let areaSegment :=
      r * r * acos ((r - hnum) / r)
      - (r - hnum) * sqrt (2 * r * hnum - hnum * hnum) in
    let volumeM3 := areaSegment * Lnum in
    volumeM3 * 1000.

(** [String.prototype.trim].  A string holds the UTF-8 bytes of the
    text.  The characters stripped from both ends are the WhiteSpace and
    LineTerminator code points of ECMAScript: U+0009 to U+000D, U+0020,
    U+00A0, U+1680, U+2000 to U+200A, U+2028, U+2029, U+202F, U+205F,
    U+3000 and U+FEFF. *)
Definition utf8 (bytes : list nat) : string :=
  fold_right (fun b s => String (Ascii.ascii_of_nat b) s) EmptyString bytes.

Definition whiteSpace : list string :=
  map utf8
    [ [9]; [10]; [11]; [12]; [13]; [32]; [194; 160]; [225; 154; 128];
      [226; 128; 128]; [226; 128; 129]; [226; 128; 130]; [226; 128; 131];
      [226; 128; 132]; [226; 128; 133]; [226; 128; 134]; [226; 128; 135];
      [226; 128; 136]; [226; 128; 137]; [226; 128; 138]; [226; 128; 168];
      [226; 128; 169]; [226; 128; 175]; [226; 129; 159]; [227; 128; 128];
      [239; 187; 191] ]%nat.

(** What is left of [s] after the prefix [p], if [s] starts with it. *)
Fixpoint dropPrefix (p s : string) : option string :=
  match p, s with
  | EmptyString, _ => Some s
  | String a p', String b s' =>
      if Ascii.eqb a b then dropPrefix p' s' else None
  | String _ _, EmptyString => None
  end.

(** What is left of [s] after one leading character out of [ws]. *)
Definition dropOne (ws : list string) (s : string) : option string :=
  fold_right
    (fun w found =>
       match dropPrefix w s with
       | Some rest => Some rest
       | None => found
       end)
    None ws.

(** Strips leading characters out of [ws], at most [fuel] of them. *)
Fixpoint stripWith (ws : list string) (fuel : nat) (s : string) : string :=
  match fuel with
  | O => s
  | S fuel' =>
      match dropOne ws s with
      | Some rest => stripWith ws fuel' rest
      | None => s
      end
  end.

Definition reverse (s : string) : string :=
  string_of_list_ascii (rev (list_ascii_of_string s)).

Definition trimStart (s : string) : string :=
  stripWith whiteSpace (String.length s) s.

Definition trimEnd (s : string) : string :=
  reverse (stripWith (map reverse whiteSpace) (String.length s) (reverse s)).

Definition trim (s : string) : string := trimEnd (trimStart s).

(** A row of [Tank_Parameters]; [{}] stands in when there is none. *)
Record Params : Type := {
  diameter_breadth : jsvalue;
  length : jsvalue;
  tank_volume : jsvalue;
  upper_safe_limit_pct : jsvalue;
  lower_safe_limit_pct : jsvalue
}.

Definition noParams : Params := {|
  diameter_breadth := Undefined;
  length := Undefined;
  tank_volume := Undefined;
  upper_safe_limit_pct := Undefined;
  lower_safe_limit_pct := Undefined
|}.

(** The values inserted into [tank_status]. *)
Record TankStatus : Type := {
  currentLevel : num;
  fillPercentage : num;
  flowStatus : string;
  tank_status : string;
  tank_alert_message : string
}.

(** Lines 152-192: [(currentLevelLitres, fillPercentage)]. *)
Definition computeLevel (tankNoTrimmed : string) (ultraH : num)
    (D L : jsvalue) (capacityLitres : num) : num * num :=
  if String.eqb tankNoTrimmed FIRE_TANK && isFinite ultraH then
    let WIDTH_M : num := 8.9 in
    let LENGTH_M : num := 5.15 in
    let MAX_HEIGHT_M : num := 17.9 in
    let waterHeightM := MAX_HEIGHT_M - ultraH in
    let waterHeightM := if waterHeightM <? 0 then 0 : num else waterHeightM in
    let waterHeightM :=
      if waterHeightM >? MAX_HEIGHT_M then MAX_HEIGHT_M else waterHeightM in
    let volumeM3 := WIDTH_M * LENGTH_M * waterHeightM in
    let currentLevelLitres := volumeM3 * 1000 in
    (currentLevelLitres,
     if capacityLitres >? 0 then (currentLevelLitres / capacityLitres) * 100
     else 0 : num)
  else if isFinite ultraH && notNullish D && notNullish L then
    let depth := max 0 (Number D - ultraH) in
    let currentLevelLitres := horizontalCylinderVolumeLitres D L depth in
    (currentLevelLitres,
     if capacityLitres >? 0 then (currentLevelLitres / capacityLitres) * 100
     else 0 : num)
  else (0 : num, 0 : num).

(** Lines 197-225: [(flowStatus, tankStatus, tankAlertMessage)]. *)
Definition decideStatus (ultraH capacityLitres upperSafeLitres
    lowerSafeLitres currentLevelLitres : num) : string * string * string :=
  if negb (isFinite ultraH) then ("Inactive", "No Data", "No valid level")
  else if capacityLitres >? 0 then
    if (upperSafeLitres >? 0) && (currentLevelLitres >=? upperSafeLitres)
    then ("Normal", "Warning", "High level")
    else if (lowerSafeLitres >? 0) && (currentLevelLitres <=? lowerSafeLitres)
    then ("Normal", "Warning", "Low level")
    else ("Normal", "OK", "Normal")
  else
    if ultraH <=? 0 then ("Normal", "Warning", "Low level")
    else ("Normal", "OK", "Normal").

(** The handler of [POST /api/update-data], from the request's [tank_no]
    and [ultra_height] and the rows found in [Tank_Parameters] to the row
    it inserts; [None] is the 400 answer to a missing [tank_no].  The
    look-up of the location is left out. *)
Definition postUpdateData (tank_no : option string) (ultra_height : jsvalue)
    (paramRows : list Params) : option TankStatus :=
  match tank_no with
  | None | Some EmptyString => None
  | Some tank_no =>
      let tankNoTrimmed := trim tank_no in
      let params := hd noParams paramRows in
      let D := diameter_breadth params in
      let L := length params in
      let capacityLitres := orZero (Number (tank_volume params)) in
      let upperSafeLitres := orZero (Number (upper_safe_limit_pct params)) in
      let lowerSafeLitres := orZero (Number (lower_safe_limit_pct params)) in
      let ultraH := Number ultra_height in
      let '(currentLevelLitres, fillPct) :=
        computeLevel tankNoTrimmed ultraH D L capacityLitres in
      let '(flow, tankStatus, tankAlertMessage) :=
        decideStatus ultraH capacityLitres upperSafeLitres lowerSafeLitres
          currentLevelLitres in
      Some {|
        currentLevel := currentLevelLitres;
        fillPercentage := if isFinite fillPct then fillPct else 0;
        flowStatus := flow;
        tank_status := tankStatus;
        tank_alert_message := tankAlertMessage
      |}
  end.

End UpdateData.

(* ================================================================= *)
(** ** routes/tankHistoryByTank.js *)

Module TankHistory.

Local Open Scope string_scope.
Local Open Scope js_scope.

(** [horizontalCylinderVolume(D, L, h)], in cubic metres. *)
Definition horizontalCylinderVolume (D L h : num) : num :=
  let R' := D / 2 in
  if h <=? 0 then 0
  else if h >=? D then PI * R' * R' * L
  else
    let term1 := R' * R' * acos ((R' - h) / R') in
    let term2 := (R' - h) * sqrt (2 * R' * h - h * h) in
    let area := term1 - term2 in
    L * area.

Record Row : Type := {
  tank_no : string;
  ultra_height : option num;
  tank_volume : option num;
  diameter_breadth : option num;
  length : option num
}.

Record Point : Type := {
  ultra_height_m : option num;
  water_depth_m : option num;
  tank_volume_l : num;
  water_volume_l : option num;
  volume_percentage : option num
}.

(** The body of [rows.map(...)] in [GET /api/tanks/history]. *)
Definition historyPoint (r : Row) : Point :=
  let isFireTank := String.eqb (tank_no r) FIRE_TANK in
  let sensor := ultra_height r in
  let tankVolumeL := match tank_volume r with Some v => v | None => Fin 0 end in
  let percent (volumeL : num) : option num :=
    if tankVolumeL >? 0 then Some ((volumeL / tankVolumeL) * 100) else None in
  let '(volumeL, volumePct, depth) :=
    match isFireTank, sensor with
    | true, Some sensor =>
        let WIDTH_M : num := 8.9 in
        let LENGTH_M : num := 5.15 in
        let MAX_HEIGHT_M : num := 17.9 in
        let waterHeightM := MAX_HEIGHT_M - sensor in
        let waterHeightM :=
          if waterHeightM <? 0 then 0 : num else waterHeightM in
        let waterHeightM :=
          if waterHeightM >? MAX_HEIGHT_M then MAX_HEIGHT_M
          else waterHeightM in
        let volumeM3 := WIDTH_M * LENGTH_M * waterHeightM in
        let volumeL := volumeM3 * 1000 in
        (Some volumeL, percent volumeL, Some waterHeightM)
    | true, None => (None, None, None)
    | false, _ =>
        let D := match diameter_breadth r with Some d => d | None => Fin 0 end in
        let L := match length r with Some l => l | None => Fin 0 end in
        match sensor with
        | Some sensor =>
            if (D >? 0) && (L >? 0) then
              let rawDepth := D - sensor in
              let depth := max 0 (min rawDepth D) in
              let volM3 := horizontalCylinderVolume D L depth in
              let volumeL := volM3 * 1000 in
              (Some volumeL, percent volumeL, Some depth)
            else (None, None, None)
        | None => (None, None, None)
        end
    end in
  {|
    ultra_height_m := sensor;
    water_depth_m := depth;
    tank_volume_l := tankVolumeL;
    water_volume_l := option_map toFixed1 volumeL;
    volume_percentage := option_map toFixed1 volumePct
  |}.

End TankHistory.

(* ================================================================= *)
(** ** The specification's vocabulary *)

Module Spec.

Local Open Scope string_scope.

(** The status tags and alert messages that the specification lists for
    a metrics record. *)
Definition statusTags : list string :=
  ["OK"; "Warning"; "Inactive"; "Unknown"].

Definition alertMessages : list string :=
  ["Normal"; "High level"; "Low level"; "No reading in last 30 minutes";
   "No Data"; "No valid level"].

End Spec.

(* ================================================================= *)
(** ** More of [Math] and [Number.prototype] *)

Module JsMath.

(** Addition. *)
Definition add (x y : num) : num :=
  match x, y with
  | NaN, _ | _, NaN => NaN
  | PInf, NInf | NInf, PInf => NaN
  | PInf, _ | _, PInf => PInf
  | NInf, _ | _, NInf => NInf
  | Fin a, Fin b => Fin (a + b)
  end.

(** [Math.floor], [Math.ceil] and [Math.round] (ties towards plus
    infinity). *)
Definition floor (x : num) : num :=
  match x with
  | Fin a => Fin (IZR (Int_part a))
  | _ => x
  end.

Definition ceil (x : num) : num :=
  match x with
  | Fin a => Fin (IZR (- Int_part (- a)))
  | _ => x
  end.

Definition round (x : num) : num :=
  match x with
  | Fin a => Fin (IZR (Int_part (a + / 2)))
  | _ => x
  end.

(** [Number(x.toFixed(f))], as [toFixed1] for any number of digits. *)
Definition roundAt (f : nat) (a : R) : R :=
  IZR (Int_part (10 ^ f * a + / 2)) / 10 ^ f.

Definition toFixedR (f : nat) (a : R) : R :=
  if Rleb (10 ^ 21) (Rabs a) then a
  else if Rltb a 0 then - roundAt f (- a)
  else roundAt f a.

Definition toFixed (f : nat) (x : num) : num :=
  match x with
  | Fin a => Fin (toFixedR f a)
  | _ => x
  end.

End JsMath.

(* ================================================================= *)
(** ** routes/tank.js *)

Module TankCards.

Local Open Scope string_scope.
Local Open Scope js_scope.

(** [clamp(n, min, max)]. *)
Definition clamp (n lo hi : num) : num := JsNumber.max lo (JsNumber.min hi n).

(** The parameters and the reading handed to [computeMetrics]; a field
    is [None] when [null] or missing, and a numeric field holds the number
    that [Number(...)] reads from it. *)
Record Params : Type := {
  height : option num;
  tank_volume : option num;
  upper_safe_limit_pct : option num;
  lower_safe_limit_pct : option num
}.

Record Reading : Type := {
  ultra_height : option num;
  lidar_height : option num;
  ul_status : option string
}.

Record Metrics : Type := {
  level_pct : option num;
  working_volume_l : option num;
  free_volume_l : option num;
  capacity_l : num;
  status_tag : option string
}.

(** [!tag] for a tag that is a string or [null]. *)
Definition noTag (tag : option string) : bool :=
  match tag with
  | None | Some EmptyString => true
  | Some _ => false
  end.

(** [computeMetrics(p, r)]. *)
Definition computeMetrics (p : Params) (r : Reading) : Metrics :=
  let capacityL := match tank_volume p with Some v => v | None => Fin 0 end in
  let H := match height p with Some v => v | None => Fin 0 end in
  let ul := ultra_height r in
  let minimal := {|
    level_pct := None;
    working_volume_l := None;
    free_volume_l := None;
    capacity_l := capacityL;
    status_tag := ul_status r
  |} in
  if negb (truthy H) then minimal
  else
    match ul with
    | None => minimal
    | Some ul =>
        let liquidH := H - ul in
        let liquidH := clamp liquidH 0 H in
        let levelPct := (liquidH / H) * 100 in
        let workingL := capacityL * (levelPct / 100) in
        let freeL := JsNumber.max (capacityL - workingL) 0 in
        let lowPct :=
          match lower_safe_limit_pct p with Some v => v | None => NaN end in
        let upPct :=
          match upper_safe_limit_pct p with Some v => v | None => NaN end in
        let tag := ul_status r in
        let tag :=
          if negb (isNaN lowPct) && negb (isNaN upPct) then
            if levelPct >=? upPct then Some "High"
            else if levelPct <=? lowPct then Some "Low"
            else if noTag tag then Some "Normal"
            else tag
          else tag in
        {|
          level_pct := Some (toFixed1 levelPct);
          working_volume_l := Some (toFixed1 workingL);
          free_volume_l := Some (JsMath.round freeL);
          capacity_l := JsMath.round capacityL;
          status_tag := tag
        |}
    end.

(** The level percentage as a real expression of a finite height and
    distance, and the capacity read from the parameters. *)
Definition levelPctOf (H u : R) : R := Rmax 0 (Rmin H (H - u)) / H * 100.

Definition capacityOf (p : Params) : num :=
  match tank_volume p with Some v => v | None => Fin 0 end.

Definition heightOf (p : Params) : num :=
  match height p with Some v => v | None => Fin 0 end.

(** Rows of [GET /api/tanks/analysis/by-device/:device_id]. *)
Record Sample : Type := {
  s_ultra_height : option num;
  s_lidar_height : option num
}.

(** The running minimum, maximum, sum and count of one sensor. *)
Record Running : Type := {
  runMin : num;
  runMax : num;
  runSum : num;
  runCount : nat
}.

Definition runStart : Running := {|
  runMin := PInf;
  runMax := NInf;
  runSum := Fin 0;
  runCount := 0
|}.

(** One turn of [rows.forEach] for one sensor. *)
Definition runStep (acc : Running) (reading : option num) : Running :=
  match reading with
  | None => acc
  | Some v =>
      if negb (isNaN v) then {|
        runMin := JsNumber.min (runMin acc) v;
        runMax := JsNumber.max (runMax acc) v;
        runSum := JsMath.add (runSum acc) v;
        runCount := S (runCount acc)
      |}
      else acc
  end.

Record Summary : Type := {
  sum_min : option num;
  sum_max : option num;
  sum_avg : option num;
  samples : nat
}.

Definition summary (acc : Running) : Summary :=
  match runCount acc with
  | O => {| sum_min := None; sum_max := None; sum_avg := None; samples := 0 |}
  | S _ => {|
      sum_min := Some (JsMath.toFixed 3 (runMin acc));
      sum_max := Some (JsMath.toFixed 3 (runMax acc));
      sum_avg :=
        Some (JsMath.toFixed 3 (runSum acc / Fin (INR (runCount acc))));
      samples := runCount acc
    |}
  end.

(** The [ultra_height] and [lidar_height] parts of [analysis]; [None] is
    the [analysis: null] answered when there are no rows.  The period and
    the status counts are left out. *)
Definition analysis (rows : list Sample) : option (Summary * Summary) :=
  match rows with
  | [] => None
  | _ =>
      let acc :=
        fold_left
          (fun acc r =>
             (runStep (fst acc) (s_ultra_height r),
              runStep (snd acc) (s_lidar_height r)))
          rows (runStart, runStart) in
      Some (summary (fst acc), summary (snd acc))
  end.

(** Vocabulary for the readings of one sensor: the readings that the
    loop counts, those it can average (no infinite value), and the finite
    values among them. *)
Definition counted (reading : option num) : bool :=
  match reading with
  | Some v => negb (isNaN v)
  | None => false
  end.






End TankCards.

(* ================================================================= *)
(** ** routes/transactionHistoryBasic.js *)

Module BasicHistory.

Local Open Scope string_scope.
Local Open Scope js_scope.

(** [horizontalCylinderVolume(D, L, h)], in cubic metres. *)
Definition horizontalCylinderVolume (D L h : num) : num :=
  let R' := D / 2 in
  if h <=? 0 then 0
  else if h >=? D then PI * R' * R' * L
  else
    let term1 := R' * R' * acos ((R' - h) / R') in
    let term2 := (R' - h) * sqrt (2 * R' * h - h * h) in
    let area := term1 - term2 in
    L * area.

(** The body of [rows.map(...)]; rows and points have the fields of
    tankHistoryByTank.js. *)
Definition historyPoint (r : TankHistory.Row) : TankHistory.Point :=
  let D :=
    match TankHistory.diameter_breadth r with Some d => d | None => Fin 0 end in
  let L := match TankHistory.length r with Some l => l | None => Fin 0 end in
  let sensor := TankHistory.ultra_height r in
  let tankVolumeL :=
    match TankHistory.tank_volume r with Some v => v | None => Fin 0 end in
  let depth :=
    match sensor with
    | Some sensor =>
        if D >? 0 then
          let depth := D - sensor in
          let depth := if depth <? 0 then 0 : num else depth in
          let depth := if depth >? D then D else depth in
          Some depth
        else None
    | None => None
    end in
  let '(volumeL, volumePct) :=
    match depth with
    | Some depth =>
        if (D >? 0) && (L >? 0) then
          let volM3 := horizontalCylinderVolume D L depth in
          let volumeL := volM3 * 1000 in
          (Some volumeL,
           if tankVolumeL >? 0 then Some ((volumeL / tankVolumeL) * 100)
           else None)
        else (None, None)
    | None => (None, None)
    end in
  {|
    TankHistory.ultra_height_m := sensor;
    TankHistory.water_depth_m := depth;
    TankHistory.tank_volume_l := tankVolumeL;
    TankHistory.water_volume_l := option_map toFixed1 volumeL;
    TankHistory.volume_percentage := option_map toFixed1 volumePct
  |}.

End BasicHistory.

(** The history row of the tank of [TankCurrent.scenarioD_row]. *)
Definition scenarioD_history : TankHistory.Row := {|
  TankHistory.tank_no := "TANK-1";
  TankHistory.ultra_height := Some (Fin 0.8);
  TankHistory.tank_volume := Some (Fin 15708);
  TankHistory.diameter_breadth := Some (Fin 2);
  TankHistory.length := Some (Fin 5)
|}.

(* ================================================================= *)
(** ** routes/users.js and routes/auth.js *)

(** ["*".repeat(n)]. *)
Fixpoint stars (n : nat) : string :=
  match n with
  | O => EmptyString
  | S k => String (Ascii.ascii_of_nat 42) (stars k)
  end.

Module Users.

Local Open Scope string_scope.

(** [maskPassword(pwOrHash)] of users.js, for a string or [null]; the
    characters of a string are its code units. *)
Definition maskPassword (pwOrHash : option string) : string :=
  match pwOrHash with
  | None | Some EmptyString => "*****"
  | Some s =>
      if Nat.leb (String.length s) 2 then stars (String.length s)
      else substring 0 2 s ++ stars 3
  end.

End Users.

Module Auth.

Local Open Scope string_scope.

(** [maskPassword(pwOrHash)] of auth.js. *)
Definition maskPassword (pwOrHash : option string) : string :=
  match pwOrHash with
  | None | Some EmptyString => "*****"
  | Some s =>
      if Nat.leb (String.length s) 4 then stars (String.length s)
      else substring 0 2 s ++ stars 6
  end.

End Auth.


(** What a mask may show: at most two leading characters of the secret,
    followed by stars only. *)
Definition showsOnlyPrefix (pw : option string) (mask : string) : Prop :=
  exists shown k,
    mask = (shown ++ stars k)%string /\
    (String.length shown <= 2)%nat /\
    (shown = EmptyString \/
     exists s rest, pw = Some s /\ s = (shown ++ rest)%string).

(* ================================================================= *)
(** ** Paging in routes/reports.js and the sms-log route *)

Module Paging.

Local Open Scope js_scope.

(** [x || d] on numbers. *)
Definition orDefault (x d : num) : num := if truthy x then x else d.

(** [(page, limit, offset)] of reports.js, from what [parseInt] read in
    the query: a whole number, [NaN], or an infinity for a digit string
    too long. *)
Definition reportsPaging (parsedPage parsedLimit : num) : num * num * num :=
  let page := max (orDefault parsedPage 1) 1 in
  let limit := max (orDefault parsedLimit 10) 1 in
  let offset := (page - 1) * limit in
  (page, limit, offset).

(** [(page, limit, offset)] of the sms-log route. *)
Definition smsLogPaging (parsedPage parsedLimit : num) : num * num * num :=
  let page := max (orDefault parsedPage 1) 1 in
  let limit := min (orDefault parsedLimit 10) 100 in
  let offset := (page - 1) * limit in
  (page, limit, offset).

(** [Math.ceil(total / limit)]. *)
Definition totalPages (total limit : num) : num := JsMath.ceil (total / limit).

(** [(hrs, mins)] of the duration of an offline period of a whole number
    of minutes: [Math.floor(m / 60)] and [m % 60], the remainder having
    the sign of [m]. *)
Definition duration (offline_minutes : Z) : Z * Z :=
  let hrs := (offline_minutes / 60)%Z in
  let mins := Z.rem offline_minutes 60 in
  (hrs, mins).

End Paging.

(* ================================================================= *)
(** ** routes/tankUpdate.js *)

Module TankUpdate.

Local Open Scope string_scope.

Section Request.

(** The values a request may carry, other than [undefined]. *)
Variable V : Type.

(** [!v] for such a value. *)
Variable falsy : V -> bool.

Inductive field : Type :=
| Undefined
| Given (v : V).

(** An object as the list of its own properties. *)
Definition object : Type := list (string * field).

Definition hasOwnProperty (o : object) (name : string) : bool :=
  existsb (fun kv => String.eqb (fst kv) name) o.

Definition property (o : object) (name : string) : field :=
  match find (fun kv => String.eqb (fst kv) name) o with
  | Some kv => snd kv
  | None => Undefined
  end.

Record Request : Type := {
  body : option object;
  query : option object
}.

(** [readField(req, name)]. *)
Definition readField (req : Request) (name : string) : field :=
  let fromQuery :=
    match query req with
    | Some q => if hasOwnProperty q name then property q name else Undefined
    | None => Undefined
    end in
  match body req with
  | Some b => if hasOwnProperty b name then property b name else fromQuery
  | None => fromQuery
  end.

Definition masterFieldMap : list (string * string) :=
  [("imei", "imei"); ("sim", "sim"); ("ssid", "ssid");
   ("installation_date", "installation_date");
   ("ultrasonic_status", "ultrasonic_status")].

Definition specFieldMap : list (string * string) :=
  [("diameter_mm", "diameter_mm"); ("length_mm", "length_mm");
   ("height_mm", "height_mm"); ("tank_volume_m3", "tank_volume_m3");
   ("free_volume_m3", "free_volume_m3");
   ("upper_safe_limit_pct", "upper_safe_limit_pct");
   ("lower_safe_limit_pct", "lower_safe_limit_pct")].

(** The loop over the entries of a field map: the [column = ?] updates
    and their parameters. *)
Definition collect (fieldMap : list (string * string)) (req : Request)
  : list string * list V :=
  fold_left
    (fun acc entry =>
       match readField req (fst entry) with
       | Given value =>
           ((fst acc ++ [(snd entry ++ " = ?")%string])%list,
            (snd acc ++ [value])%list)
       | Undefined => acc
       end)
    fieldMap ([], []).

(** What [handleTankUpdate] decides before it touches the database: a
    400 answer, or the updates and parameters of the two statements, the
    parameters of a statement that is run ending with [tank_no]. *)
Inductive plan : Type :=
| BadRequest (error : string)
| Statements (masterUpdates : list string) (masterParams : list V)
             (specUpdates : list string) (specParams : list V).

Definition handleTankUpdate (req : Request) : plan :=
  match readField req "tank_no" with
  | Undefined => BadRequest "tank_no is required"
  | Given tank_no =>
      if falsy tank_no then BadRequest "tank_no is required"
      else
        let '(masterUpdates, masterParams) := collect masterFieldMap req in
        let '(specUpdates, specParams) := collect specFieldMap req in
        if Nat.eqb (List.length masterUpdates) 0
           && Nat.eqb (List.length specUpdates) 0
        then BadRequest "NO_FIELDS_TO_UPDATE"
        else
          Statements
            masterUpdates
            (if Nat.ltb 0 (List.length masterUpdates)
             then (masterParams ++ [tank_no])%list else masterParams)
            specUpdates
            (if Nat.ltb 0 (List.length specUpdates)
             then (specParams ++ [tank_no])%list else specParams)
  end.

(** The entries of a field map whose input the request supplies. *)
Definition supplied (fieldMap : list (string * string)) (req : Request)
  : list (string * V) :=
  flat_map
    (fun entry =>
       match readField req (fst entry) with
       | Given value => [(snd entry, value)]
       | Undefined => []
       end)
    fieldMap.

End Request.

Arguments Undefined {V}.
Arguments Given {V} v.
Arguments BadRequest {V} error.
Arguments Statements {V} masterUpdates masterParams specUpdates specParams.
Arguments body {V} r.
Arguments query {V} r.

(** A request that sets the SIM and the upper limit of a tank, the body
    and the query both naming the SIM. *)
Definition sampleRequest : Request string := {|
  body := Some [("tank_no", Given "BS-7A"); ("sim", Given "4274");
                ("upper_safe_limit_pct", Given "80")];
  query := Some [("sim", Given "0000"); ("debug", Given "1")]
|}.

End TankUpdate.

(* ================================================================= *)
(** ** The cylinder volume in binary64 *)

(** The two volume functions once more, evaluated as the engine does:
    every operation rounds to the nearest binary64 number, ties to even.
    The format and its operations are those of [SpecFloat] with a
    precision of 53 bits. *)
Module Binary64.

Definition prec : Z := 53%Z.
Definition emax : Z := 1024%Z.

Definition float : Type := SpecFloat.spec_float.

Definition sub : float -> float -> float := SpecFloat.SFsub prec emax.
Definition mul : float -> float -> float := SpecFloat.SFmul prec emax.
Definition div : float -> float -> float := SpecFloat.SFdiv prec emax.
Definition sqrt : float -> float := SpecFloat.SFsqrt prec emax.

(** [x < y], [x <= y] and [x === y]; false as soon as one side is [NaN]. *)
Definition ltb : float -> float -> bool := SpecFloat.SFltb.
Definition leb : float -> float -> bool := SpecFloat.SFleb.
Definition eqb : float -> float -> bool := SpecFloat.SFeqb.

(** The number a whole literal denotes, and the number the decimal
    literal of the fraction [n / d] denotes: the nearest binary64 number. *)
Definition ofInt (n : Z) : float :=
  SpecFloat.binary_normalize prec emax n 0%Z false.

Definition ofRatio (n d : positive) : float :=
  let '(q, e, l) :=
    SpecFloat.SFdiv_core_binary prec emax (Zpos n) 0%Z (Zpos d) 0%Z in
  SpecFloat.binary_round_aux prec emax false q e l.

(** [Number.isFinite]. *)
Definition isFinite (x : float) : bool :=
  match x with
  | SpecFloat.S754_zero _ | SpecFloat.S754_finite _ _ _ => true
  | _ => false
  end.

(** [Math.PI], 0x1.921fb54442d18p+1. *)
Definition PI : float :=
  SpecFloat.S754_finite false 7074237752028440%positive (-51)%Z.

(** [Math.acos], where ECMAScript fixes its value: [NaN] for [NaN] and
    outside [-1, 1], and [+0] at 1.  Elsewhere the value is an
    approximation left to the engine, and is [None] here. *)
Definition acos (x : float) : option float :=
  match x with
  | SpecFloat.S754_nan => Some SpecFloat.S754_nan
  | _ =>
      if ltb (ofInt 1) x || ltb x (ofInt (-1)) then Some SpecFloat.S754_nan
      else if eqb x (ofInt 1) then Some (SpecFloat.S754_zero false)
      else None
  end.

(** [horizontalCylinderVolumeLitres(D, L, h)] of updateData.js on three
    numbers. *)
Definition horizontalCylinderVolumeLitres (D L h : float) : option float :=
  let Dnum := D in
  let Lnum := L in
  let hnum := h in
  if negb (isFinite Dnum) || negb (isFinite Lnum) || negb (isFinite hnum)
  then Some (ofInt 0)
  else if leb Dnum (ofInt 0) || leb Lnum (ofInt 0) then Some (ofInt 0)
  else if leb hnum (ofInt 0) then Some (ofInt 0)
  else
    let r := div Dnum (ofInt 2) in
    let hnum := if ltb hnum (ofInt 0) then ofInt 0 else hnum in
    let hnum := if ltb (mul (ofInt 2) r) hnum then mul (ofInt 2) r else hnum in
    match acos (div (sub r hnum) r) with
    | None => None
    | Some angle =>
        let areaSegment :=
          sub (mul (mul r r) angle)
              (mul (sub r hnum)
                   (sqrt (sub (mul (mul (ofInt 2) r) hnum) (mul hnum hnum)))) in
        let volumeM3 := mul areaSegment Lnum in
        Some (mul volumeM3 (ofInt 1000))
    end.

(** [horizontalCylinderVolume(D, L, h)] of tankCurrent.js. *)
Definition horizontalCylinderVolume (D L h : float) : option float :=
  let R' := div D (ofInt 2) in
  if leb h (ofInt 0) then Some (ofInt 0)
  else if leb D h then Some (mul (mul (mul PI R') R') L)
  else
    match acos (div (sub R' h) R') with
    | None => None
    | Some angle =>
        let term1 := mul (mul R' R') angle in
        let term2 :=
          mul (sub R' h) (sqrt (sub (mul (mul (ofInt 2) R') h) (mul h h))) in
        let area := sub term1 term2 in
        Some (mul L area)
    end.

End Binary64.

(* ================================================================= *)
(** * Properties *)

Import Segment.
(* ----------------------------------------------------------------- *)
(** ** Evaluating number operations on finite values *)

Lemma Rleb_true (a b : R) : a <= b -> Rleb a b = true.
Proof. intros H. unfold Rleb. destruct (Rle_dec a b); [reflexivity | lra]. Qed.

Lemma Rleb_false (a b : R) : b < a -> Rleb a b = false.
Proof. intros H. unfold Rleb. destruct (Rle_dec a b); [lra | reflexivity]. Qed.

Lemma Rltb_true (a b : R) : a < b -> Rltb a b = true.
Proof. intros H. unfold Rltb. destruct (Rlt_dec a b); [reflexivity | lra]. Qed.

Lemma Rltb_false (a b : R) : b <= a -> Rltb a b = false.
Proof. intros H. unfold Rltb. destruct (Rlt_dec a b); [lra | reflexivity]. Qed.

Lemma Reqb_false (a b : R) : a <> b -> Reqb a b = false.
Proof.
  intros H. unfold Reqb. destruct (Req_dec_T a b); [contradiction | reflexivity].
Qed.

Lemma Rleb_spec (a b : R) : Rleb a b = true <-> a <= b.
Proof. unfold Rleb. destruct (Rle_dec a b); split; intros; try easy. Qed.

Lemma Rltb_spec (a b : R) : Rltb a b = true <-> a < b.
Proof. unfold Rltb. destruct (Rlt_dec a b); split; intros; try easy. Qed.

Lemma div_fin (a b : R) : b <> 0 -> div (Fin a) (Fin b) = Fin (a / b).
Proof. intros H. unfold div. rewrite Reqb_false by exact H. reflexivity. Qed.

Lemma acos_fin (a : R) : -1 <= a <= 1 -> acos (Fin a) = Fin (Ratan.acos a).
Proof.
  intros [H1 H2]. unfold acos. rewrite !Rleb_true by assumption. reflexivity.
Qed.

Lemma sqrt_fin (a : R) : 0 <= a -> sqrt (Fin a) = Fin (R_sqrt.sqrt a).
Proof. intros H. unfold sqrt. rewrite Rleb_true by assumption. reflexivity. Qed.

Lemma pow10_21_pos : 0 < 10 ^ 21.
Proof. apply pow_lt. lra. Qed.

(** A non-negative number of tenths is its own rounding to one decimal. *)
Lemma roundTenth_tenths (z : Z) : roundTenth (IZR z / 10) = IZR z / 10.
Proof.
  unfold roundTenth. f_equal. f_equal. symmetry.
  apply Int_part_spec.
  replace (10 * (IZR z / 10)) with (IZR z) by field. lra.
Qed.

Lemma toFixed1_tenths (z : Z) :
  (0 <= z)%Z -> IZR z / 10 < 10 ^ 21 ->
  toFixed1 (Fin (IZR z / 10)) = Fin (IZR z / 10).
Proof.
  intros Hz Hbig.
  assert (H0 : 0 <= IZR z / 10).
  { apply IZR_le in Hz. lra. }
  unfold toFixed1.
  rewrite Rleb_false by (rewrite Rabs_pos_eq; assumption).
  rewrite Rltb_false by assumption.
  rewrite roundTenth_tenths. reflexivity.
Qed.

Lemma toFixed1_zero : toFixed1 (Fin 0) = Fin 0.
Proof.
  pose proof pow10_21_pos as Hp.
  replace 0 with (IZR 0 / 10) at 1 by lra.
  rewrite toFixed1_tenths; [f_equal; lra | lia | lra].
Qed.

(* ----------------------------------------------------------------- *)
(** ** Tactics *)

(** Settles the comparisons of finite values that linear arithmetic
    decides from the context, and computes on. *)
Ltac js_cond :=
  repeat match goal with
  | |- context [Rleb ?a ?b] =>
      first [rewrite (Rleb_true a b) by lra | rewrite (Rleb_false a b) by lra]
  | |- context [Rltb ?a ?b] =>
      first [rewrite (Rltb_true a b) by lra | rewrite (Rltb_false a b) by lra]
  | |- context [Reqb ?a ?b] => rewrite (Reqb_false a b) by lra
  end.

Ltac js_arith :=
  cbn [Number isFinite isNaN negb orb andb le lt gt ge sub mul div
       max min PI fst snd].

Ltac js_run := repeat (progress (js_arith; js_cond)).

(** Decides the comparisons of a clamping computation case by case. *)
Ltac clamp_split :=
  repeat match goal with
         | |- context [Rlt_dec ?a ?b] => destruct (Rlt_dec a b)
         | |- context [Rle_dec ?a ?b] => destruct (Rle_dec a b)
         | H : context [Rlt_dec ?a ?b] |- _ => destruct (Rlt_dec a b)
         | H : context [Rle_dec ?a ?b] |- _ => destruct (Rle_dec a b)
         end.

Ltac clamp_cases :=
  unfold clamp, Rmax, Rmin, Rltb, Rleb; clamp_split;
  cbn [lt gt le ge]; unfold Rltb, Rleb; clamp_split;
  first [ exfalso; lra | f_equal; f_equal; lra | reflexivity ].


(* ----------------------------------------------------------------- *)
(** ** Sanity checks of the embedding *)

Example trim_fire_tank : UpdateData.trim "  FIRE-TANK "  = FIRE_TANK.
Proof. reflexivity. Qed.

Example trim_inner_space : UpdateData.trim " A B" = "A B".
Proof. reflexivity. Qed.

Example trim_no_break_space :
  UpdateData.trim
    (UpdateData.utf8 [194; 160]%nat ++ "FIRE-TANK"
     ++ UpdateData.utf8 [226; 128; 168; 239; 187; 191]%nat)
  = FIRE_TANK.
Proof. reflexivity. Qed.

Example status_no_limits :
  TankCurrent.statusFromLimits (Some (Fin 10)) None None = ("OK", "Normal").
Proof. reflexivity. Qed.

Example status_no_volume :
  TankCurrent.statusFromLimits None (Some (Fin 1)) (Some (Fin 2))
  = ("Unknown", "No reading").
Proof. reflexivity. Qed.

Example status_between_limits :
  TankCurrent.statusFromLimits (Some (Fin 50)) (Some (Fin 20)) (Some (Fin 80))
  = ("OK", "Normal").
Proof.
  unfold TankCurrent.statusFromLimits. js_run. reflexivity.
Qed.

Example number_of_null : Number Null = Fin 0.
Proof. reflexivity. Qed.

Example number_of_undefined : Number Undefined = NaN.
Proof. reflexivity. Qed.

Example nan_is_never_lower : le NaN (Fin 0) = false /\ ge NaN (Fin 0) = false.
Proof. split; reflexivity. Qed.

Example invalid_date_throws :
  TankCurrent.buildTankResponseRow 0
    {| TankCurrent.device_id := None; TankCurrent.tank_no := None;
       TankCurrent.location := None; TankCurrent.diameter_breadth := None;
       TankCurrent.length := None; TankCurrent.tank_volume := None;
       TankCurrent.upper_safe_limit_pct := None;
       TankCurrent.lower_safe_limit_pct := None;
       TankCurrent.ultra_height := None;
       TankCurrent.date_time := Some InvalidDate |}
  = Throw "RangeError".
Proof. reflexivity. Qed.

(* ----------------------------------------------------------------- *)
(** ** The circular segment *)

Lemma cosine_ratio_bounds (r h : R) :
  0 < r -> 0 <= h <= 2 * r -> -1 <= (r - h) / r <= 1.
Proof.
  intros Hr [H0 H2]. split.
  - apply Rmult_le_reg_r with r; [exact Hr|].
    unfold Rdiv. rewrite Rmult_assoc, Rinv_l by lra. lra.
  - apply Rmult_le_reg_r with r; [exact Hr|].
    unfold Rdiv. rewrite Rmult_assoc, Rinv_l by lra. lra.
Qed.

Lemma chord_sqrt (r h : R) :
  0 < r -> 0 <= h <= 2 * r ->
  R_sqrt.sqrt (2 * r * h - h * h) = r * R_sqrt.sqrt (1 - Rsqr ((r - h) / r)).
Proof.
  intros Hr Hh.
  pose proof (cosine_ratio_bounds r h Hr Hh) as Hx.
  set (x := (r - h) / r) in *.
  assert (Hrx : r - h = r * x) by (unfold x; field; lra).
  replace (2 * r * h - h * h) with ((r * r) * (1 - Rsqr x)).
  - rewrite sqrt_mult; [| nra | unfold Rsqr; nra].
    rewrite sqrt_square by lra. reflexivity.
  - unfold Rsqr. replace h with (r - r * x) by lra. ring.
Qed.

Lemma segmentArea_angle (r h : R) :
  0 < r -> 0 <= h <= 2 * r ->
  segmentArea r h = r * r * angleArea (Ratan.acos ((r - h) / r)).
Proof.
  intros Hr Hh.
  pose proof (cosine_ratio_bounds r h Hr Hh) as Hx.
  unfold segmentArea, angleArea.
  rewrite (chord_sqrt r h Hr Hh).
  rewrite (sin_acos _ Hx), (cos_acos _ Hx).
  set (x := (r - h) / r) in *.
  assert (Hrx : r - h = r * x) by (unfold x; field; lra).
  rewrite Hrx. ring.
Qed.

Lemma sin_cos_difference (a b : R) :
  sin b * cos b - sin a * cos a = sin (b - a) * cos (a + b).
Proof.
  rewrite sin_minus, cos_plus.
  pose proof (sin2_cos2 a) as Ha. pose proof (sin2_cos2 b) as Hb.
  unfold Rsqr in Ha, Hb.
  replace ((sin b * cos a - cos b * sin a) * (cos a * cos b - sin a * sin b))
    with (sin b * cos b * (sin a * sin a + cos a * cos a)
          - sin a * cos a * (sin b * sin b + cos b * cos b)) by ring.
  rewrite Ha, Hb. ring.
Qed.

Lemma angleArea_mono (a b : R) :
  0 <= a -> a <= b -> b <= Rtrigo1.PI -> angleArea a <= angleArea b.
Proof.
  intros Ha Hab Hb. unfold angleArea.
  pose proof (sin_cos_difference a b) as Hd.
  assert (Hs : sin (b - a) * cos (a + b) <= b - a).
  { destruct (Req_dec a b) as [->|Hne].
    - rewrite Rminus_diag, sin_0. lra.
    - assert (Hlt : 0 < b - a) by lra.
      pose proof (sin_lt_x _ Hlt) as H1.
      assert (H0 : 0 <= sin (b - a)) by (apply sin_ge_0; lra).
      pose proof (COS_bound (a + b)) as [_ Hc].
      nra. }
  lra.
Qed.

Lemma acos_antitone (x y : R) :
  -1 <= y -> y <= x -> x <= 1 -> Ratan.acos x <= Ratan.acos y.
Proof.
  intros Hy Hyx Hx.
  destruct (Rle_lt_dec (Ratan.acos x) (Ratan.acos y)) as [H|H]; [exact H|].
  exfalso.
  pose proof (acos_bound x) as Bx. pose proof (acos_bound y) as By.
  assert (Hc : cos (Ratan.acos x) < cos (Ratan.acos y))
    by (apply cos_decreasing_1; lra).
  rewrite !cos_acos in Hc by lra. lra.
Qed.

Lemma segmentArea_mono (r h1 h2 : R) :
  0 < r -> 0 <= h1 -> h1 <= h2 -> h2 <= 2 * r ->
  segmentArea r h1 <= segmentArea r h2.
Proof.
  intros Hr H0 H12 H2.
  rewrite !segmentArea_angle by lra.
  pose proof (cosine_ratio_bounds r h1 Hr ltac:(lra)) as B1.
  pose proof (cosine_ratio_bounds r h2 Hr ltac:(lra)) as B2.
  assert (Hx : (r - h2) / r <= (r - h1) / r).
  { unfold Rdiv. apply Rmult_le_compat_r; [|lra].
    left. apply Rinv_0_lt_compat. exact Hr. }
  pose proof (acos_antitone _ _ (proj1 B2) Hx (proj2 B1)) as Hm.
  pose proof (acos_bound ((r - h1) / r)) as A1.
  pose proof (acos_bound ((r - h2) / r)) as A2.
  apply Rmult_le_compat_l; [nra|].
  apply angleArea_mono; lra.
Qed.

Lemma segmentArea_empty (r : R) : 0 < r -> segmentArea r 0 = 0.
Proof.
  intros Hr. unfold segmentArea.
  replace ((r - 0) / r) with 1 by (field; lra).
  replace (2 * r * 0 - 0 * 0) with 0 by ring.
  rewrite acos_1, sqrt_0. ring.
Qed.

Lemma segmentArea_full (r : R) :
  0 < r -> segmentArea r (2 * r) = Rtrigo1.PI * r * r.
Proof.
  intros Hr. unfold segmentArea.
  replace ((r - 2 * r) / r) with (Ropp 1) by (field; lra).
  replace (2 * r * (2 * r) - 2 * r * (2 * r)) with 0 by ring.
  rewrite acos_opp, acos_1, sqrt_0. ring.
Qed.

Lemma segmentArea_nonneg (r h : R) :
  0 < r -> 0 <= h <= 2 * r -> 0 <= segmentArea r h.
Proof.
  intros Hr [H0 H2].
  rewrite <- (segmentArea_empty r Hr).
  apply segmentArea_mono; lra.
Qed.

Lemma segmentArea_le_full (r h : R) :
  0 < r -> 0 <= h <= 2 * r -> segmentArea r h <= Rtrigo1.PI * r * r.
Proof.
  intros Hr [H0 H2].
  rewrite <- (segmentArea_full r Hr).
  apply segmentArea_mono; lra.
Qed.


(* ----------------------------------------------------------------- *)
(** ** The cylinder volume functions *)

Lemma PI_bounds : 3.14158 < Rtrigo1.PI < 3.14162.
Proof.
  pose proof (PI_2_3_7_ineq 3) as [Hlo Hhi].
  unfold sum_f_R0, tg_alt, PI_2_3_7_tg, Ratan_seq in Hlo, Hhi.
  simpl in Hlo, Hhi.
  split; lra.
Qed.

Section LitresOnReals.

Import UpdateData.

Variables D L : R.

Lemma litres_degenerate (h : R) :
  D <= 0 \/ L <= 0 -> horizontalCylinderVolumeLitres D L h = Fin 0.
Proof.
  intros H. unfold horizontalCylinderVolumeLitres. js_arith.
  destruct H as [H|H].
  - rewrite (Rleb_true D 0) by lra. reflexivity.
  - rewrite (Rleb_true L 0) by lra. rewrite orb_true_r. reflexivity.
Qed.

Lemma litres_empty (h : R) :
  h <= 0 -> horizontalCylinderVolumeLitres D L h = Fin 0.
Proof.
  intros H. unfold horizontalCylinderVolumeLitres. js_arith.
  rewrite (Rleb_true h 0) by lra.
  destruct (Rleb D 0 || Rleb L 0); reflexivity.
Qed.

Hypothesis D_pos : 0 < D.
Hypothesis L_pos : 0 < L.

Lemma litres_partial (h : R) :
  0 < h <= D ->
  horizontalCylinderVolumeLitres D L h
  = Fin (segmentArea (D / 2) h * L * 1000).
Proof.
  intros [H0 H1]. unfold horizontalCylinderVolumeLitres.
  js_run.
  rewrite acos_fin by (apply cosine_ratio_bounds; lra).
  rewrite sqrt_fin by nra.
  js_run. reflexivity.
Qed.

Lemma litres_overfull (h : R) :
  D <= h ->
  horizontalCylinderVolumeLitres D L h
  = Fin (segmentArea (D / 2) (2 * (D / 2)) * L * 1000).
Proof.
  intros H1. unfold horizontalCylinderVolumeLitres.
  js_run.
  destruct (Rlt_dec D h) as [Hlt|Hge].
  - rewrite (Rltb_true (2 * (D / 2)) h) by lra. js_run.
    rewrite acos_fin by (apply cosine_ratio_bounds; lra).
    rewrite sqrt_fin by nra.
    js_run. reflexivity.
  - assert (h = D) by lra. subst h.
    rewrite (Rltb_false (2 * (D / 2)) D) by lra. js_run.
    rewrite acos_fin by (apply cosine_ratio_bounds; lra).
    rewrite sqrt_fin by nra.
    js_run. unfold segmentArea.
    replace (2 * (D / 2)) with D by lra. reflexivity.
Qed.

Lemma litres_full (h : R) :
  D <= h ->
  horizontalCylinderVolumeLitres D L h
  = Fin (Rtrigo1.PI * (D / 2) * (D / 2) * L * 1000).
Proof.
  intros H. rewrite litres_overfull by exact H.
  rewrite segmentArea_full by lra. reflexivity.
Qed.

End LitresOnReals.

Section CylinderOnReals.

Variables D L : R.
Hypothesis D_pos : 0 < D.

Lemma cylinder_empty (h : R) :
  h <= 0 -> TankCurrent.horizontalCylinderVolume D L h = Fin 0.
Proof.
  intros H. unfold TankCurrent.horizontalCylinderVolume. js_run. reflexivity.
Qed.

Lemma cylinder_full (h : R) :
  D <= h ->
  TankCurrent.horizontalCylinderVolume D L h
  = Fin (Rtrigo1.PI * (D / 2) * (D / 2) * L).
Proof.
  intros H. unfold TankCurrent.horizontalCylinderVolume. js_run. reflexivity.
Qed.

Lemma cylinder_partial (h : R) :
  0 < h < D ->
  TankCurrent.horizontalCylinderVolume D L h
  = Fin (L * segmentArea (D / 2) h).
Proof.
  intros [H0 H1]. unfold TankCurrent.horizontalCylinderVolume. js_run.
  rewrite acos_fin by (apply cosine_ratio_bounds; lra).
  rewrite sqrt_fin by nra.
  js_run. reflexivity.
Qed.

Lemma cylinder_finite (h : R) :
  exists v, TankCurrent.horizontalCylinderVolume D L h = Fin v.
Proof.
  destruct (Rle_dec h 0) as [H0|H0].
  - rewrite cylinder_empty by lra. eauto.
  - destruct (Rle_dec D h) as [H1|H1].
    + rewrite cylinder_full by lra. eauto.
    + rewrite cylinder_partial by lra. eauto.
Qed.

(** Both cylinder functions compute the same volume on a tank of positive
    dimensions, one in cubic metres and one in litres. *)
Lemma cylinder_litres_agree (h : R) :
  0 < L ->
  mul (TankCurrent.horizontalCylinderVolume D L h) (Fin 1000)
  = UpdateData.horizontalCylinderVolumeLitres D L h.
Proof.
  intros L_pos.
  destruct (Rle_dec h 0) as [H0|H0].
  - rewrite cylinder_empty, litres_empty by lra. cbn. f_equal. ring.
  - destruct (Rle_dec D h) as [H1|H1].
    + rewrite cylinder_full, litres_full by lra. reflexivity.
    + rewrite cylinder_partial, litres_partial by lra. cbn. f_equal. ring.
Qed.

(** The litres function as one real expression of the clamped depth. *)
Lemma litres_value (h : R) :
  0 < L -> 0 < h ->
  UpdateData.horizontalCylinderVolumeLitres D L h
  = Fin (segmentArea (D / 2) (Rmin h D) * L * 1000).
Proof.
  intros L_pos H0. unfold Rmin. destruct (Rle_dec h D) as [H1|H1].
  - apply litres_partial; lra.
  - rewrite litres_overfull by lra.
    replace (2 * (D / 2)) with D by lra. reflexivity.
Qed.

Lemma litres_monotone (h1 h2 : R) :
  0 < L -> h1 <= h2 ->
  le (UpdateData.horizontalCylinderVolumeLitres D L h1)
     (UpdateData.horizontalCylinderVolumeLitres D L h2) = true.
Proof.
  intros L_pos H12.
  destruct (Rle_dec h2 0) as [H2|H2].
  - rewrite !litres_empty by lra. cbn. apply Rleb_true. lra.
  - assert (B2 : 0 <= Rmin h2 D <= 2 * (D / 2)).
    { unfold Rmin. destruct (Rle_dec h2 D); lra. }
    rewrite (litres_value h2) by lra.
    destruct (Rle_dec h1 0) as [H1|H1].
    + rewrite litres_empty by lra. cbn. apply Rleb_true.
      pose proof (segmentArea_nonneg (D / 2) (Rmin h2 D) ltac:(lra) B2).
      apply Rmult_le_pos; [apply Rmult_le_pos|]; lra.
    + rewrite (litres_value h1) by lra. cbn. apply Rleb_true.
      assert (B1 : 0 <= Rmin h1 D <= Rmin h2 D).
      { unfold Rmin. destruct (Rle_dec h1 D), (Rle_dec h2 D); lra. }
      pose proof (segmentArea_mono (D / 2) (Rmin h1 D) (Rmin h2 D)
                    ltac:(lra) ltac:(lra) ltac:(lra) ltac:(lra)).
      apply Rmult_le_compat_r; [lra|].
      apply Rmult_le_compat_r; lra.
Qed.

End CylinderOnReals.

(** C2.  On finite inputs the cylinder volume in litres is 0 for a depth
    [h <= 0]; 0 whenever [D <= 0] or [L <= 0], whatever the depth; the full
    volume [PI * (D/2)^2 * L * 1000] for [h >= D]; and
    [L * (R^2 * acos((R - h)/R) - (R - h) * sqrt(2 R h - h^2)) * 1000] with
    [R = D/2] for [0 < h < D].  The function of tankCurrent.js, scaled to
    litres, is the same function on a tank of positive dimensions.  The
    half-full tank [D = 2], [L = 5], [h = 1] holds [2500 * PI] litres, which
    is 7854.0 to one decimal. *)
Theorem cylinder_volume_litres_cases (D L h : R) :
  let V := UpdateData.horizontalCylinderVolumeLitres D L h in
  let R' := D / 2 in
  (h <= 0 -> V = Fin 0) /\
  (D <= 0 \/ L <= 0 -> V = Fin 0) /\
  (0 < D -> 0 < L -> D <= h -> V = Fin (Rtrigo1.PI * (R' * R') * L * 1000)) /\
  (0 < D -> 0 < L -> 0 < h < D ->
     V = Fin (L * (R' * R' * Ratan.acos ((R' - h) / R')
                   - (R' - h) * R_sqrt.sqrt (2 * R' * h - h * h)) * 1000)) /\
  (0 < D -> 0 < L ->
     mul (TankCurrent.horizontalCylinderVolume D L h) (Fin 1000) = V) /\
  UpdateData.horizontalCylinderVolumeLitres (Fin 2) (Fin 5) (Fin 1)
    = Fin (2500 * Rtrigo1.PI) /\
  7853.95 <= 2500 * Rtrigo1.PI < 7854.05.
Proof.
  cbv zeta. repeat split.
  - apply litres_empty.
  - apply litres_degenerate.
  - intros HD HL Hh. rewrite litres_full by assumption.
    f_equal. ring.
  - intros HD HL Hh. rewrite litres_partial by lra.
    unfold segmentArea. f_equal. ring.
  - intros HD HL. apply cylinder_litres_agree; assumption.
  - rewrite litres_partial by lra. f_equal. unfold segmentArea.
    replace ((2 / 2 - 1) / (2 / 2)) with 0 by lra.
    rewrite acos_0. lra.
  - pose proof PI_bounds. lra.
  - pose proof PI_bounds. lra.
Qed.

(** In exact arithmetic neither function decreases as the depth grows on
    a tank of positive diameter and length: the formula itself is
    monotone. *)
Lemma cylinder_volume_monotone_exact (D L h1 h2 : R) :
  0 < D -> 0 < L -> h1 < h2 ->
  le (UpdateData.horizontalCylinderVolumeLitres D L h1)
     (UpdateData.horizontalCylinderVolumeLitres D L h2) = true /\
  le (TankCurrent.horizontalCylinderVolume D L h1)
     (TankCurrent.horizontalCylinderVolume D L h2) = true.
Proof.
  intros HD HL H12.
  pose proof (litres_monotone D L HD h1 h2 HL ltac:(lra)) as Hm.
  split; [exact Hm|].
  rewrite <- !(cylinder_litres_agree D L HD) in Hm by exact HL.
  destruct (cylinder_finite D L HD h1) as [v1 E1].
  destruct (cylinder_finite D L HD h2) as [v2 E2].
  rewrite E1, E2 in Hm |- *. cbn in Hm |- *.
  apply Rleb_spec in Hm. apply Rleb_true. lra.
Qed.

(** C8.  The claim is that the volume never decreases as the depth
    grows.  As the engine evaluates them, in binary64, both functions
    break it on the tank [D = 2], [L = 5]: the depth 0 gives 0, and the
    greater depth 1e-20 gives a negative volume, [-6678434726570385 *
    2^-73] litres (about -7.07e-7) and [-6838717160008074 * 2^-83] cubic
    metres (about -7.07e-10).  There [(r - h) / r] rounds to 1, whose
    arc cosine is 0, while the chord term [(r - h) * sqrt(2rh - h^2)]
    stays positive. *)
Theorem cylinder_volume_dips_below_zero :
  let D := Binary64.ofInt 2 in
  let L := Binary64.ofInt 5 in
  let h1 := Binary64.ofInt 0 in
  let h2 := Binary64.ofRatio 1 (10 ^ 20) in
  let litres := SpecFloat.S754_finite true 6678434726570385 (-73) in
  let cubic := SpecFloat.S754_finite true 6838717160008074 (-83) in
  Binary64.ltb (Binary64.ofInt 0) D = true /\
  Binary64.ltb (Binary64.ofInt 0) L = true /\
  Binary64.ltb h1 h2 = true /\
  Binary64.horizontalCylinderVolumeLitres D L h1 = Some (Binary64.ofInt 0) /\
  Binary64.horizontalCylinderVolumeLitres D L h2 = Some litres /\
  Binary64.leb (Binary64.ofInt 0) litres = false /\
  Binary64.horizontalCylinderVolume D L h1 = Some (Binary64.ofInt 0) /\
  Binary64.horizontalCylinderVolume D L h2 = Some cubic /\
  Binary64.leb (Binary64.ofInt 0) cubic = false.
Proof.
  cbv zeta. repeat split; vm_compute; reflexivity.
Qed.

(* ----------------------------------------------------------------- *)
(** ** Errors of the geometry functions *)

Lemma litres_non_finite (a b c : num) :
  (isFinite a && isFinite b && isFinite c) = false ->
  UpdateData.horizontalCylinderVolumeLitres a b c = Fin 0.
Proof.
  intros H. unfold UpdateData.horizontalCylinderVolumeLitres.
  cbn [Number].
  destruct (isFinite a), (isFinite b), (isFinite c);
    try discriminate; reflexivity.
Qed.

Lemma cylinder_depth_NaN (a b : num) :
  TankCurrent.horizontalCylinderVolume a b NaN = NaN.
Proof.
  unfold TankCurrent.horizontalCylinderVolume.
  destruct a as [| | |ra]; destruct b as [| | |rb];
    js_run; try reflexivity;
    match goal with
    | |- context [scaleInf ?s ?x] => destruct (scaleInf s x); reflexivity
    end.
Qed.

(** C5, refuted as stated: a [NaN] diameter does not make the litres
    function throw; the call returns 0. *)
Lemma geometry_error_counterexample :
  isFinite NaN = false /\
  call3 UpdateData.horizontalCylinderVolumeLitres
    (Num NaN) (Num (Fin 5)) (Num (Fin 1)) = Normal (Fin 0) /\
  ~ raisesExactlyOnNonFinite
      (fun a b c =>
         call3 UpdateData.horizontalCylinderVolumeLitres (Num a) (Num b) (Num c)).
Proof.
  split; [reflexivity|]. split; [reflexivity|].
  intros H. destruct (H NaN (Fin 5) (Fin 1)) as [[_ Hraise] _].
  destruct (Hraise eq_refl) as [e He]. discriminate He.
Qed.

(** C5, as the code has it.  The geometry volume functions never throw,
    on finite and non-finite arguments alike: every call returns a number.
    The litres function returns 0 as soon as one argument is not finite,
    and 0 for finite degenerate dimensions ([D <= 0] or [L <= 0]); the
    function of tankCurrent.js returns [NaN] for a [NaN] depth. *)
Theorem geometry_functions_never_raise (a b c : num) :
  returns (call3 UpdateData.horizontalCylinderVolumeLitres
             (Num a) (Num b) (Num c)) /\
  ~ raises (call3 UpdateData.horizontalCylinderVolumeLitres
              (Num a) (Num b) (Num c)) /\
  returns (call3 TankCurrent.horizontalCylinderVolume a b c) /\
  ~ raises (call3 TankCurrent.horizontalCylinderVolume a b c) /\
  ((isFinite a && isFinite b && isFinite c) = false ->
     call3 UpdateData.horizontalCylinderVolumeLitres (Num a) (Num b) (Num c)
     = Normal (Fin 0)) /\
  (forall D L h : R, D <= 0 \/ L <= 0 ->
     call3 UpdateData.horizontalCylinderVolumeLitres
       (Num (Fin D)) (Num (Fin L)) (Num (Fin h)) = Normal (Fin 0)) /\
  call3 TankCurrent.horizontalCylinderVolume a b NaN = Normal NaN.
Proof.
  unfold call3, returns, raises. repeat split.
  - eauto.
  - intros [e He]. discriminate He.
  - eauto.
  - intros [e He]. discriminate He.
  - intros H. f_equal. apply litres_non_finite. exact H.
  - intros D L h H. f_equal. apply litres_degenerate. exact H.
  - f_equal. apply cylinder_depth_NaN.
Qed.

(* ----------------------------------------------------------------- *)
(** ** The staleness guard of buildTankResponseRow *)

Section StalenessGuard.

Import TankCurrent.

Lemma staleness_valid (now t : Z) :
  staleness now (Some (ValidDate t))
  = (Some (Fin ((IZR now - IZR t) / (1000 * 60))),
     (30 * 60 * 1000 <? now - t)%Z).
Proof.
  unfold staleness. cbn [getTime isNaN negb sub mul]. 
  rewrite div_fin by lra. cbn [gt lt]. f_equal.
  assert (Hd : (IZR now - IZR t) / (1000 * 60) = IZR (now - t) / 60000).
  { rewrite minus_IZR. field. }
  destruct (Z.ltb_spec (30 * 60 * 1000) (now - t)) as [H|H].
  - apply Rltb_true. rewrite Hd. apply IZR_lt in H.
    change (30 * 60 * 1000)%Z with 1800000%Z in H. lra.
  - apply Rltb_false. rewrite Hd. apply IZR_le in H.
    change (30 * 60 * 1000)%Z with 1800000%Z in H. lra.
Qed.

Lemma fillPercentage_of_zero (c : num) :
  gt c (Fin 0) = true ->
  fillPercentage (Some c) (Some (Fin 0)) = Some (Fin 0).
Proof.
  intros Hc. unfold fillPercentage. rewrite Hc.
  destruct c as [| | |c]; try discriminate Hc.
  - cbn [div mul]. replace (0 * 100) with 0 by ring.
    rewrite toFixed1_zero. reflexivity.
  - cbn [gt lt] in Hc. apply Rltb_spec in Hc.
    rewrite div_fin by lra. cbn [mul].
    replace (0 / c * 100) with 0 by (field; lra).
    rewrite toFixed1_zero. reflexivity.
Qed.

(** The shape of the object built, for each kind of timestamp. *)
Lemma build_without_timestamp (now : Z) (row : Row) :
  date_time row = None ->
  exists r, buildTankResponseRow now row = Normal r /\
    stale r = true /\
    effective_volume_l r = Some (Fin 0) /\
    effective_fill_percentage r
      = fillPercentage (tank_volume row) (Some (Fin 0)) /\
    tank_status r = "Inactive" /\
    tank_alert_message r = "No reading in last 30 minutes".
Proof.
  intros Hd. unfold buildTankResponseRow. rewrite Hd.
  cbn [staleness bind]. eexists. split; [reflexivity|].
  cbn [stale effective_volume_l effective_fill_percentage tank_status
       tank_alert_message option_map fst snd].
  rewrite toFixed1_zero. repeat split; reflexivity.
Qed.

Lemma build_with_timestamp (now t : Z) (row : Row) :
  date_time row = Some (ValidDate t) ->
  exists r, buildTankResponseRow now row = Normal r /\
    stale r = (30 * 60 * 1000 <? now - t)%Z /\
    effective_volume_l r
      = option_map toFixed1
          (if stale r then Some (Fin 0) else rawVolumeOf row) /\
    raw_reading_volume_l r = option_map toFixed1 (rawVolumeOf row) /\
    effective_fill_percentage r
      = fillPercentage (tank_volume row)
          (if stale r then Some (Fin 0) else rawVolumeOf row) /\
    (tank_status r, tank_alert_message r)
      = if stale r then ("Inactive", "No reading in last 30 minutes")
        else statusFromLimits (rawVolumeOf row)
               (lower_safe_limit_pct row) (upper_safe_limit_pct row).
Proof.
  intros Hd. unfold buildTankResponseRow. rewrite Hd.
  rewrite staleness_valid. cbn [toISOString bind].
  eexists. split; [reflexivity|].
  cbn [stale effective_volume_l raw_reading_volume_l
       effective_fill_percentage tank_status tank_alert_message].
  repeat split; try reflexivity.
  destruct (30 * 60 * 1000 <? now - t)%Z; [reflexivity|].
  symmetry. apply surjective_pairing.
Qed.

End StalenessGuard.

(** C1.  For every row whose timestamp is absent or a valid date,
    [buildTankResponseRow] returns; when the timestamp is absent or lies
    more than 30 minutes before [now], the object has [stale = true],
    effective volume 0, the fill percentage computed from that zero volume
    (0 when a positive capacity is known), status [Inactive] and alert
    "No reading in last 30 minutes", whatever the sensor distance;
    otherwise [stale = false] and the effective volume and the fill
    percentage are those of the raw computed volume. *)
Theorem staleness_override (now : Z) (row : TankCurrent.Row) :
  TankCurrent.date_time row <> Some InvalidDate ->
  exists r, TankCurrent.buildTankResponseRow now row = Normal r /\
    (TankCurrent.absent row \/ TankCurrent.olderThan30Min now row ->
       TankCurrent.stale r = true /\
       TankCurrent.effective_volume_l r = Some (Fin 0) /\
       TankCurrent.effective_fill_percentage r
         = TankCurrent.fillPercentage (TankCurrent.tank_volume row)
             (Some (Fin 0)) /\
       (forall c, TankCurrent.tank_volume row = Some c ->
          gt c (Fin 0) = true ->
          TankCurrent.effective_fill_percentage r = Some (Fin 0)) /\
       TankCurrent.tank_status r = "Inactive" /\
       TankCurrent.tank_alert_message r = "No reading in last 30 minutes") /\
    (~ (TankCurrent.absent row \/ TankCurrent.olderThan30Min now row) ->
       TankCurrent.stale r = false /\
       TankCurrent.effective_volume_l r = TankCurrent.raw_reading_volume_l r /\
       TankCurrent.effective_volume_l r
         = option_map toFixed1 (TankCurrent.rawVolumeOf row) /\
       TankCurrent.effective_fill_percentage r
         = TankCurrent.fillPercentage (TankCurrent.tank_volume row)
             (TankCurrent.rawVolumeOf row)).
Proof.
  intros Hvalid.
  destruct (TankCurrent.date_time row) as [[t|]|] eqn:Hd.
  - destruct (build_with_timestamp now t row Hd)
      as (r & Hr & Hs & Hv & Hraw & Hf & Hst).
    exists r. split; [exact Hr|].
    destruct (Z.ltb_spec (30 * 60 * 1000) (now - t)) as [Hold|Hfresh].
    + rewrite Hs in *. split.
      * intros _. cbn [option_map] in Hv. rewrite toFixed1_zero in Hv.
        repeat split; try assumption; try congruence.
        intros c Hc Hpos. rewrite Hf, Hc.
        apply fillPercentage_of_zero. exact Hpos.
      * intros Hn. exfalso. apply Hn. right. exists t. split; [exact Hd|lia].
    + rewrite Hs in *. split.
      * intros [Ha|(t' & Ht' & Hold)].
        -- unfold TankCurrent.absent in Ha. congruence.
        -- assert (t' = t) by congruence. subst t'. lia.
      * intros _. repeat split; try assumption; congruence.
  - exfalso. apply Hvalid. reflexivity.
  - destruct (build_without_timestamp now row Hd)
      as (r & Hr & Hs & Hv & Hf & Hst & Hal).
    exists r. split; [exact Hr|]. split.
    + intros _. repeat split; try assumption.
      intros c Hc Hpos. rewrite Hf, Hc.
      apply fillPercentage_of_zero. exact Hpos.
    + intros Hn. exfalso. apply Hn. left. exact Hd.
Qed.

Lemma staleness_override_witness :
  TankCurrent.date_time TankCurrent.scenarioD_row <> Some InvalidDate /\
  exists r,
    TankCurrent.buildTankResponseRow TankCurrent.scenarioD_now
      TankCurrent.scenarioD_row = Normal r /\
    TankCurrent.stale r = true /\
    TankCurrent.effective_volume_l r = Some (Fin 0) /\
    TankCurrent.effective_fill_percentage r = Some (Fin 0) /\
    TankCurrent.tank_status r = "Inactive".
Proof.
  assert (Hvalid : TankCurrent.date_time TankCurrent.scenarioD_row
                   <> Some InvalidDate) by discriminate.
  split; [exact Hvalid|].
  destruct (staleness_override TankCurrent.scenarioD_now
              TankCurrent.scenarioD_row Hvalid) as (r & Hr & Hstale & _).
  exists r. split; [exact Hr|].
  destruct Hstale as (Hs & Hv & _ & Hf & Hst & _).
  { right. exists 0%Z. split; [reflexivity|].
    unfold TankCurrent.scenarioD_now. lia. }
  repeat split; try assumption.
  apply (Hf (Fin 15708)); [reflexivity|].
  cbn. apply Rltb_true. lra.
Defined.

(* ----------------------------------------------------------------- *)
(** ** The status classifiers *)

Lemma le_reflexive (x : num) : isNaN x = false -> le x x = true.
Proof.
  destruct x as [| | |a]; intros H; try discriminate; try reflexivity.
  cbn. apply Rleb_true. lra.
Qed.

Section Classifier.

Import TankCurrent.

Lemma statusFromLimits_high (level upper : num) (lower : option num) :
  ge level upper = true ->
  statusFromLimits (Some level) lower (Some upper) = ("Warning", "High level").
Proof.
  intros H. unfold statusFromLimits. rewrite H.
  destruct lower; reflexivity.
Qed.

Lemma statusFromLimits_low (level lower : num) (upper : option num) :
  le level lower = true ->
  match upper with Some u => ge level u = false | None => True end ->
  statusFromLimits (Some level) (Some lower) upper = ("Warning", "Low level").
Proof.
  intros Hlow Hup. unfold statusFromLimits.
  destruct upper as [u|]; [rewrite Hup|]; rewrite Hlow; reflexivity.
Qed.

Lemma statusFromLimits_range (actual lower upper : option num) :
  In (fst (statusFromLimits actual lower upper)) ["OK"; "Warning"; "Unknown"] /\
  In (snd (statusFromLimits actual lower upper))
     ["Normal"; "High level"; "Low level"; "No reading"].
Proof.
  unfold statusFromLimits.
  destruct actual as [a|]; [|cbn; tauto].
  destruct lower as [l|], upper as [u|];
    repeat match goal with
           | |- context [if ?c then _ else _] => destruct c
           end; cbn; tauto.
Qed.

End Classifier.

Section UpdateClassifier.

Import UpdateData.

Variables ultraH capacity : num.
Hypothesis finite_distance : isFinite ultraH = true.
Hypothesis known_capacity : gt capacity (Fin 0) = true.

Lemma decideStatus_high (level lower upper : num) :
  gt upper (Fin 0) = true -> ge level upper = true ->
  decideStatus ultraH capacity upper lower level
  = ("Normal", "Warning", "High level").
Proof.
  intros Hpos Hge. unfold decideStatus.
  rewrite finite_distance, known_capacity, Hpos, Hge. reflexivity.
Qed.

Lemma decideStatus_low (level lower upper : num) :
  gt lower (Fin 0) = true -> le level lower = true ->
  (gt upper (Fin 0) && ge level upper) = false ->
  decideStatus ultraH capacity upper lower level
  = ("Normal", "Warning", "Low level").
Proof.
  intros Hpos Hle Hup. unfold decideStatus.
  rewrite finite_distance, known_capacity, Hup, Hpos, Hle. reflexivity.
Qed.

End UpdateClassifier.

(** C4, refuted as stated: with both limits at 50, the level 50 equals the
    lower limit and the alert is "High level", not "Low level". *)
Lemma lower_boundary_counterexample :
  TankCurrent.statusFromLimits (Some (Fin 50)) (Some (Fin 50)) (Some (Fin 50))
    = ("Warning", "High level") /\
  snd (TankCurrent.statusFromLimits
         (Some (Fin 50)) (Some (Fin 50)) (Some (Fin 50))) <> "Low level".
Proof.
  assert (E : TankCurrent.statusFromLimits
                (Some (Fin 50)) (Some (Fin 50)) (Some (Fin 50))
              = ("Warning", "High level")).
  { apply statusFromLimits_high. cbn. apply Rleb_true. lra. }
  split; [exact E|]. rewrite E. discriminate.
Qed.

(** C4, as the code has it.  The comparisons are inclusive: a level equal
    to the upper limit gives [Warning] with "High level"; a level equal to
    the lower limit gives [Warning], never [OK], with "Low level" when the
    level is below the upper limit or there is none, and with "High level"
    when it reaches the upper limit too.  The classifier of updateData.js
    does the same for limits above 0, once the distance is finite and a
    capacity above 0 is known. *)
Theorem limits_are_inclusive (level : num) :
  isNaN level = false ->
  (forall lower,
     TankCurrent.statusFromLimits (Some level) lower (Some level)
     = ("Warning", "High level")) /\
  (forall upper,
     match upper with Some u => ge level u = false | None => True end ->
     TankCurrent.statusFromLimits (Some level) (Some level) upper
     = ("Warning", "Low level")) /\
  (forall upper,
     fst (TankCurrent.statusFromLimits (Some level) (Some level) upper)
     = "Warning") /\
  (forall ultraH capacity lower,
     isFinite ultraH = true -> gt capacity (Fin 0) = true ->
     gt level (Fin 0) = true ->
     UpdateData.decideStatus ultraH capacity level lower level
     = ("Normal", "Warning", "High level")) /\
  (forall ultraH capacity upper,
     isFinite ultraH = true -> gt capacity (Fin 0) = true ->
     gt level (Fin 0) = true ->
     (gt upper (Fin 0) && ge level upper) = false ->
     UpdateData.decideStatus ultraH capacity upper level level
     = ("Normal", "Warning", "Low level")).
Proof.
  intros Hnan. pose proof (le_reflexive level Hnan) as Hrefl.
  repeat split.
  - intros lower. apply statusFromLimits_high. exact Hrefl.
  - intros upper Hup. apply statusFromLimits_low; assumption.
  - intros upper. destruct upper as [u|].
    + destruct (ge level u) eqn:Hge.
      * rewrite statusFromLimits_high by exact Hge. reflexivity.
      * rewrite statusFromLimits_low; [reflexivity|exact Hrefl|exact Hge].
    + rewrite statusFromLimits_low; [reflexivity|exact Hrefl|exact I].
  - intros ultraH capacity lower Hfin Hcap Hpos.
    apply decideStatus_high; assumption.
  - intros ultraH capacity upper Hfin Hcap Hpos Hup.
    apply decideStatus_low; assumption.
Qed.

Lemma limits_are_inclusive_witness :
  isNaN (Fin 80) = false /\
  TankCurrent.statusFromLimits (Some (Fin 80)) (Some (Fin 20)) (Some (Fin 80))
    = ("Warning", "High level") /\
  TankCurrent.statusFromLimits (Some (Fin 80)) (Some (Fin 80)) (Some (Fin 90))
    = ("Warning", "Low level").
Proof.
  split; [reflexivity|].
  destruct (limits_are_inclusive (Fin 80) eq_refl) as (Hhigh & Hlow & _).
  split.
  - apply Hhigh.
  - apply (Hlow (Some (Fin 90))). cbn. apply Rleb_false. lra.
Defined.

(** C10.  When the level meets both alert conditions at once, being at or
    above the upper limit and at or below the lower limit, the classifier
    answers [Warning] with "High level": the high-level check comes first.
    The classifier of updateData.js does the same for limits above 0, once
    the distance is finite and a capacity above 0 is known. *)
Theorem high_level_has_priority (level lower upper : num) :
  ge level upper = true -> le level lower = true ->
  TankCurrent.statusFromLimits (Some level) (Some lower) (Some upper)
    = ("Warning", "High level") /\
  (forall ultraH capacity,
     isFinite ultraH = true -> gt capacity (Fin 0) = true ->
     gt upper (Fin 0) = true -> gt lower (Fin 0) = true ->
     UpdateData.decideStatus ultraH capacity upper lower level
     = ("Normal", "Warning", "High level")).
Proof.
  intros Hge Hle. split.
  - apply statusFromLimits_high. exact Hge.
  - intros ultraH capacity Hfin Hcap Hup Hlow.
    apply decideStatus_high; assumption.
Qed.

Lemma high_level_has_priority_witness :
  ge (Fin 50) (Fin 40) = true /\ le (Fin 50) (Fin 60) = true /\
  TankCurrent.statusFromLimits (Some (Fin 50)) (Some (Fin 60)) (Some (Fin 40))
    = ("Warning", "High level").
Proof.
  assert (H1 : ge (Fin 50) (Fin 40) = true) by (cbn; apply Rleb_true; lra).
  assert (H2 : le (Fin 50) (Fin 60) = true) by (cbn; apply Rleb_true; lra).
  split; [exact H1|]. split; [exact H2|].
  apply (high_level_has_priority (Fin 50) (Fin 60) (Fin 40) H1 H2).
Defined.

(* ----------------------------------------------------------------- *)
(** ** Depth resolution *)

Lemma clamp_bounds (x hi : R) : 0 <= hi -> 0 <= clamp x 0 hi <= hi.
Proof.
  intros H. unfold clamp, Rmax, Rmin.
  destruct (Rle_dec x hi); destruct (Rle_dec 0 _); lra.
Qed.

Lemma isFireTank_FIRE_TANK : TankCurrent.isFireTank (Some FIRE_TANK) = true.
Proof. reflexivity. Qed.

Lemma resolveDepth_rectangular (D : num) (sensor : R) :
  TankCurrent.resolveDepth (Some FIRE_TANK) D (Some (Fin sensor))
  = Some (Fin (clamp (17.9 - sensor) 0 17.9)).
Proof.
  unfold TankCurrent.resolveDepth. rewrite isFireTank_FIRE_TANK.
  cbn [sub lt gt]. clamp_cases.
Qed.

Lemma resolveDepth_cylinder (tankNo : option string) (D sensor : R) :
  TankCurrent.isFireTank tankNo = false -> 0 < D ->
  TankCurrent.resolveDepth tankNo (Fin D) (Some (Fin sensor))
  = Some (Fin (clamp (D - sensor) 0 D)).
Proof.
  intros Hno HD. unfold TankCurrent.resolveDepth. rewrite Hno.
  cbn [sub lt gt]. rewrite (Rltb_true 0 D) by exact HD.
  clamp_cases.
Qed.

Lemma litres_of_unclamped_depth (D L sensor : R) :
  0 < D -> 0 < L ->
  UpdateData.horizontalCylinderVolumeLitres (Fin D) (Fin L)
    (max (Fin 0) (sub (Fin D) (Fin sensor)))
  = UpdateData.horizontalCylinderVolumeLitres (Fin D) (Fin L)
      (Fin (clamp (D - sensor) 0 D)).
Proof.
  intros HD HL. cbn [sub max lt].
  destruct (Rlt_dec 0 (D - sensor)) as [Hpos|Hneg].
  - rewrite (Rltb_true 0 (D - sensor)) by exact Hpos.
    destruct (Rle_dec (D - sensor) D) as [Hin|Hout].
    + assert (Hc : clamp (D - sensor) 0 D = D - sensor)
        by (unfold clamp, Rmax, Rmin; clamp_split; lra).
      rewrite Hc. reflexivity.
    + assert (Hc : clamp (D - sensor) 0 D = D)
        by (unfold clamp, Rmax, Rmin; clamp_split; lra).
      rewrite Hc. rewrite !litres_overfull by lra. reflexivity.
  - rewrite (Rltb_false 0 (D - sensor)) by lra.
    assert (Hc : clamp (D - sensor) 0 D = 0)
      by (unfold clamp, Rmax, Rmin; clamp_split; lra).
    rewrite Hc. reflexivity.
Qed.

(** C3.  A present, finite sensor distance resolves to a depth clamped to
    the shape: [clamp(D - distance, 0, D)] for a cylindrical tank of
    diameter [D > 0], [clamp(17.9 - distance, 0, 17.9)] for the rectangular
    tank, whose height is 17.9 m; the depth lies between 0 and that
    maximum.  In updateData.js the lower clamp is applied by the caller and
    the upper one inside the volume function, with the same volume. *)
Theorem depth_is_clamped (tankNo : option string) (D sensor : R) :
  0 < D ->
  (TankCurrent.isFireTank tankNo = false ->
     TankCurrent.resolveDepth tankNo (Fin D) (Some (Fin sensor))
     = Some (Fin (clamp (D - sensor) 0 D))) /\
  0 <= clamp (D - sensor) 0 D <= D /\
  (forall D' : num,
     TankCurrent.resolveDepth (Some FIRE_TANK) D' (Some (Fin sensor))
     = Some (Fin (clamp (17.9 - sensor) 0 17.9))) /\
  0 <= clamp (17.9 - sensor) 0 17.9 <= 17.9 /\
  (forall L : R, 0 < L ->
     UpdateData.horizontalCylinderVolumeLitres (Fin D) (Fin L)
       (max (Fin 0) (sub (Fin D) (Fin sensor)))
     = UpdateData.horizontalCylinderVolumeLitres (Fin D) (Fin L)
         (Fin (clamp (D - sensor) 0 D))).
Proof.
  intros HD. split; [|split; [|split; [|split]]].
  - intros Hno. apply resolveDepth_cylinder; assumption.
  - apply clamp_bounds. lra.
  - intros D'. apply resolveDepth_rectangular.
  - apply clamp_bounds. lra.
  - intros L HL. apply litres_of_unclamped_depth; assumption.
Qed.

Lemma depth_is_clamped_witness :
  0 < 2 /\
  TankCurrent.resolveDepth (Some "TANK-1") (Fin 2) (Some (Fin 0.8))
    = Some (Fin (clamp (2 - 0.8) 0 2)) /\
  0 <= clamp (2 - 0.8) 0 2 <= 2.
Proof.
  assert (H : 0 < 2) by lra.
  split; [exact H|].
  destruct (depth_is_clamped (Some "TANK-1") 2 0.8 H) as (Hc & Hb & _).
  split; [apply Hc; reflexivity | exact Hb].
Defined.

(* ----------------------------------------------------------------- *)
(** ** What buildTankResponseRow returns *)

Section ResponseShape.

Import TankCurrent.

Lemma build_shape (now : Z) (row : Row) :
  date_time row <> Some InvalidDate ->
  exists r, buildTankResponseRow now row = Normal r /\
    stale r = snd (staleness now (date_time row)) /\
    raw_reading_water_depth_m r = depthOf row /\
    raw_reading_volume_l r = option_map toFixed1 (rawVolumeOf row) /\
    (tank_status r, tank_alert_message r)
      = if stale r then ("Inactive", "No reading in last 30 minutes")
        else statusFromLimits (rawVolumeOf row)
               (lower_safe_limit_pct row) (upper_safe_limit_pct row).
Proof.
  intros Hvalid. unfold buildTankResponseRow.
  destruct (staleness now (date_time row)) as [m st] eqn:Est.
  destruct (date_time row) as [[t|]|]; [| contradiction Hvalid; reflexivity |];
    cbn [bind toISOString]; eexists; (split; [reflexivity|]);
    cbn [stale raw_reading_water_depth_m raw_reading_volume_l tank_status
         tank_alert_message snd];
    (repeat split; try reflexivity);
    destruct st; try reflexivity; symmetry; apply surjective_pairing.
Qed.

Lemma build_throws_on_invalid_date (now : Z) (row : Row) :
  date_time row = Some InvalidDate ->
  buildTankResponseRow now row = Throw "RangeError".
Proof.
  intros Hd. unfold buildTankResponseRow. rewrite Hd. reflexivity.
Qed.

Lemma rawVolume_rectangular (D L : num) (d : R) :
  rawVolume (Some FIRE_TANK) D L (Some (Fin d))
  = Some (Fin (8.9 * 5.15 * d * 1000)).
Proof.
  unfold rawVolume. rewrite isFireTank_FIRE_TANK. reflexivity.
Qed.

End ResponseShape.

Lemma toFixed1_full_fire_tank : toFixed1 (Fin 820446.5) = Fin 820446.5.
Proof.
  replace 820446.5 with (IZR 8204465 / 10) by lra.
  apply toFixed1_tenths; [lia|]. simpl pow. lra.
Qed.

Lemma clamp_fire_tank_full : clamp (17.9 - 0) 0 17.9 = 17.9.
Proof. unfold clamp, Rmax, Rmin. clamp_split; lra. Qed.

Lemma clamp_fire_tank_empty : clamp (17.9 - 17.9) 0 17.9 = 0.
Proof. unfold clamp, Rmax, Rmin. clamp_split; lra. Qed.

Lemma history_fire_tank (h : TankHistory.Row) (sensor : R) :
  TankHistory.tank_no h = FIRE_TANK ->
  TankHistory.ultra_height h = Some (Fin sensor) ->
  TankHistory.water_depth_m (TankHistory.historyPoint h)
    = Some (Fin (clamp (17.9 - sensor) 0 17.9)) /\
  TankHistory.water_volume_l (TankHistory.historyPoint h)
    = Some (toFixed1 (Fin (8.9 * 5.15 * clamp (17.9 - sensor) 0 17.9 * 1000))).
Proof.
  intros Ht Hs. unfold TankHistory.historyPoint. rewrite Ht, Hs.
  change (String.eqb FIRE_TANK FIRE_TANK) with true.
  cbn [sub lt gt mul TankHistory.water_depth_m TankHistory.water_volume_l
       option_map].
  unfold clamp, Rmax, Rmin, Rltb. clamp_split;
    cbn [lt gt mul]; unfold Rltb; clamp_split;
    cbn [TankHistory.water_depth_m TankHistory.water_volume_l option_map mul];
    first [ exfalso; lra | split; reflexivity ].
Qed.

(** C9.  For the rectangular tank, 8.9 m wide, 5.15 m long and 17.9 m
    high, a sensor distance of 0 m resolves to depth 17.9 m and volume
    820446.5 litres, and a sensor distance of 17.9 m to depth 0 m and
    volume 0 litres; so in the object of tankCurrent.js and in the history
    point of tankHistoryByTank.js. *)
Theorem fire_tank_scenarios (now : Z) (row : TankCurrent.Row) :
  TankCurrent.tank_no row = Some FIRE_TANK ->
  TankCurrent.date_time row <> Some InvalidDate ->
  (TankCurrent.ultra_height row = Some (Fin 0) ->
     exists r, TankCurrent.buildTankResponseRow now row = Normal r /\
       TankCurrent.raw_reading_water_depth_m r = Some (Fin 17.9) /\
       TankCurrent.raw_reading_volume_l r = Some (Fin 820446.5)) /\
  (TankCurrent.ultra_height row = Some (Fin 17.9) ->
     exists r, TankCurrent.buildTankResponseRow now row = Normal r /\
       TankCurrent.raw_reading_water_depth_m r = Some (Fin 0) /\
       TankCurrent.raw_reading_volume_l r = Some (Fin 0)) /\
  (forall h : TankHistory.Row,
     TankHistory.tank_no h = FIRE_TANK ->
     (TankHistory.ultra_height h = Some (Fin 0) ->
        TankHistory.water_depth_m (TankHistory.historyPoint h)
          = Some (Fin 17.9) /\
        TankHistory.water_volume_l (TankHistory.historyPoint h)
          = Some (Fin 820446.5)) /\
     (TankHistory.ultra_height h = Some (Fin 17.9) ->
        TankHistory.water_depth_m (TankHistory.historyPoint h)
          = Some (Fin 0) /\
        TankHistory.water_volume_l (TankHistory.historyPoint h)
          = Some (Fin 0))).
Proof.
  intros Htank Hvalid.
  destruct (build_shape now row Hvalid) as (r & Hr & _ & Hdepth & Hvol & _).
  unfold TankCurrent.rawVolumeOf, TankCurrent.depthOf in Hdepth, Hvol.
  rewrite Htank in Hdepth, Hvol.
  split; [|split].
  - intros Hs. rewrite Hs, resolveDepth_rectangular in Hdepth, Hvol.
    rewrite rawVolume_rectangular in Hvol.
    rewrite clamp_fire_tank_full in Hdepth, Hvol.
    exists r. split; [exact Hr|]. split; [exact Hdepth|].
    rewrite Hvol. cbn [option_map].
    replace (8.9 * 5.15 * 17.9 * 1000) with 820446.5 by lra.
    rewrite toFixed1_full_fire_tank. reflexivity.
  - intros Hs. rewrite Hs, resolveDepth_rectangular in Hdepth, Hvol.
    rewrite rawVolume_rectangular in Hvol.
    rewrite clamp_fire_tank_empty in Hdepth, Hvol.
    exists r. split; [exact Hr|]. split; [exact Hdepth|].
    rewrite Hvol. cbn [option_map].
    replace (8.9 * 5.15 * 0 * 1000) with 0 by lra.
    rewrite toFixed1_zero. reflexivity.
  - intros h Hh. split; intros Hs;
      destruct (history_fire_tank h _ Hh Hs) as [Hd Hv];
      rewrite Hd, Hv.
    + rewrite clamp_fire_tank_full.
      replace (8.9 * 5.15 * 17.9 * 1000) with 820446.5 by lra.
      rewrite toFixed1_full_fire_tank. split; reflexivity.
    + rewrite clamp_fire_tank_empty.
      replace (8.9 * 5.15 * 0 * 1000) with 0 by lra.
      rewrite toFixed1_zero. split; reflexivity.
Qed.

Lemma fire_tank_scenarios_witness :
  TankCurrent.tank_no TankCurrent.scenarioB_row = Some FIRE_TANK /\
  TankCurrent.date_time TankCurrent.scenarioB_row <> Some InvalidDate /\
  exists r,
    TankCurrent.buildTankResponseRow 0 TankCurrent.scenarioB_row = Normal r /\
    TankCurrent.raw_reading_water_depth_m r = Some (Fin 17.9) /\
    TankCurrent.raw_reading_volume_l r = Some (Fin 820446.5).
Proof.
  assert (Hvalid : TankCurrent.date_time TankCurrent.scenarioB_row
                   <> Some InvalidDate) by discriminate.
  split; [reflexivity|]. split; [exact Hvalid|].
  destruct (fire_tank_scenarios 0 TankCurrent.scenarioB_row eq_refl Hvalid)
    as (Hfull & _).
  apply Hfull. reflexivity.
Defined.

(* ----------------------------------------------------------------- *)
(** ** Missing sensor distance, and the range of status and alert *)

Lemma build_missing_distance (now t : Z) (row : TankCurrent.Row) :
  TankCurrent.date_time row = Some (ValidDate t) ->
  (now - t <= 30 * 60 * 1000)%Z ->
  TankCurrent.ultra_height row = None ->
  exists r, TankCurrent.buildTankResponseRow now row = Normal r /\
    TankCurrent.stale r = false /\
    TankCurrent.raw_reading_water_depth_m r = None /\
    TankCurrent.raw_reading_volume_l r = None /\
    TankCurrent.effective_volume_l r = None /\
    TankCurrent.tank_status r = "Unknown" /\
    TankCurrent.tank_alert_message r = "No reading".
Proof.
  intros Hd Hfresh Hs.
  assert (Hvalid : TankCurrent.date_time row <> Some InvalidDate)
    by (rewrite Hd; discriminate).
  destruct (build_shape now row Hvalid)
    as (r & Hr & Hstale & Hdepth & Hvol & Hst).
  destruct (build_with_timestamp now t row Hd)
    as (r' & Hr' & _ & Heff & _).
  assert (r' = r) by congruence. subst r'.
  assert (Hf : TankCurrent.stale r = false).
  { rewrite Hstale, Hd, staleness_valid. cbn [snd].
    apply Z.ltb_ge. exact Hfresh. }
  assert (Hraw : TankCurrent.rawVolumeOf row = None).
  { unfold TankCurrent.rawVolumeOf, TankCurrent.depthOf.
    rewrite Hs. reflexivity. }
  rewrite Hf, Hraw in *.
  unfold TankCurrent.depthOf in Hdepth. rewrite Hs in Hdepth.
  cbn in Hdepth, Hvol, Heff, Hst.
  exists r. repeat split; try assumption; congruence.
Qed.

Lemma update_without_distance (tank_no : string) (ultra_height : jsvalue)
    (paramRows : list UpdateData.Params) :
  tank_no <> EmptyString ->
  isFinite (Number ultra_height) = false ->
  exists s,
    UpdateData.postUpdateData (Some tank_no) ultra_height paramRows = Some s /\
    UpdateData.currentLevel s = Fin 0 /\
    UpdateData.flowStatus s = "Inactive" /\
    UpdateData.tank_status s = "No Data" /\
    UpdateData.tank_alert_message s = "No valid level".
Proof.
  intros Hne Hnf.
  destruct tank_no as [|c rest]; [contradiction Hne; reflexivity|].
  unfold UpdateData.postUpdateData, UpdateData.computeLevel,
    UpdateData.decideStatus.
  rewrite Hnf. rewrite andb_false_r. cbn [andb negb].
  eexists. split; [reflexivity|]. repeat split; reflexivity.
Qed.

Lemma decideStatus_range (ultraH capacity upper lower level : num) :
  let s := UpdateData.decideStatus ultraH capacity upper lower level in
  In (snd (fst s)) ["OK"; "Warning"; "No Data"] /\
  In (snd s) ["Normal"; "High level"; "Low level"; "No valid level"].
Proof.
  unfold UpdateData.decideStatus.
  repeat match goal with
         | |- context [if ?c then _ else _] => destruct c
         end; cbn; tauto.
Qed.

Lemma update_range (tank_no : option string) (ultra_height : jsvalue)
    (paramRows : list UpdateData.Params) (s : UpdateData.TankStatus) :
  UpdateData.postUpdateData tank_no ultra_height paramRows = Some s ->
  In (UpdateData.tank_status s) ["OK"; "Warning"; "No Data"] /\
  In (UpdateData.tank_alert_message s)
     ["Normal"; "High level"; "Low level"; "No valid level"].
Proof.
  unfold UpdateData.postUpdateData.
  destruct tank_no as [[|c rest]|]; try discriminate.
  destruct (UpdateData.computeLevel _ _ _ _ _) as [cur pct].
  match goal with
  | |- context [UpdateData.decideStatus ?a ?b ?c ?d ?e] =>
      pose proof (decideStatus_range a b c d e) as Hrange;
      destruct (UpdateData.decideStatus a b c d e) as [[flow st] al]
  end.
  intros H. injection H as <-. exact Hrange.
Qed.

Lemma build_range (now : Z) (row : TankCurrent.Row) (r : TankCurrent.TankResponse) :
  TankCurrent.buildTankResponseRow now row = Normal r ->
  In (TankCurrent.tank_status r) ["OK"; "Warning"; "Inactive"; "Unknown"] /\
  In (TankCurrent.tank_alert_message r)
     ["Normal"; "High level"; "Low level"; "No reading in last 30 minutes";
      "No reading"].
Proof.
  intros Hr.
  assert (Hvalid : TankCurrent.date_time row <> Some InvalidDate).
  { intros Hd. rewrite (build_throws_on_invalid_date now row Hd) in Hr.
    discriminate Hr. }
  destruct (build_shape now row Hvalid) as (r' & Hr' & _ & _ & _ & Hst).
  assert (r' = r) by congruence. subst r'.
  destruct (TankCurrent.stale r).
  - injection Hst as -> ->. cbn. tauto.
  - pose proof (statusFromLimits_range (TankCurrent.rawVolumeOf row)
                  (TankCurrent.lower_safe_limit_pct row)
                  (TankCurrent.upper_safe_limit_pct row)) as [H1 H2].
    rewrite <- Hst in H1, H2. cbn [fst snd] in H1, H2.
    cbn in H1, H2 |- *. tauto.
Qed.

Lemma statusFromLimits_NaN (lower upper : option num) :
  TankCurrent.statusFromLimits (Some NaN) lower upper = ("OK", "Normal").
Proof.
  unfold TankCurrent.statusFromLimits.
  destruct lower as [[| | |l]|], upper as [[| | |u]|]; reflexivity.
Qed.

(** On the tank-current path a distance that reads as [NaN] is not told
    apart from a valid one: on a fresh reading of a cylindrical tank the
    depth and the volume are [NaN] and the status is [OK]. *)
Lemma build_NaN_distance (now t : Z) (row : TankCurrent.Row) (D L : R) :
  TankCurrent.date_time row = Some (ValidDate t) ->
  (now - t <= 30 * 60 * 1000)%Z ->
  TankCurrent.isFireTank (TankCurrent.tank_no row) = false ->
  TankCurrent.diameter_breadth row = Some (Fin D) -> 0 < D ->
  TankCurrent.length row = Some (Fin L) -> 0 < L ->
  TankCurrent.ultra_height row = Some NaN ->
  exists r, TankCurrent.buildTankResponseRow now row = Normal r /\
    TankCurrent.stale r = false /\
    TankCurrent.raw_reading_water_depth_m r = Some NaN /\
    TankCurrent.tank_status r = "OK" /\
    TankCurrent.tank_alert_message r = "Normal".
Proof.
  intros Hd Hfresh Hno HD Dpos HL Lpos Hs.
  assert (Hvalid : TankCurrent.date_time row <> Some InvalidDate)
    by (rewrite Hd; discriminate).
  destruct (build_shape now row Hvalid)
    as (r & Hr & Hstale & Hdepth & _ & Hst).
  assert (Hf : TankCurrent.stale r = false).
  { rewrite Hstale, Hd, staleness_valid. cbn [snd].
    apply Z.ltb_ge. exact Hfresh. }
  assert (Hdep : TankCurrent.depthOf row = Some NaN).
  { unfold TankCurrent.depthOf, TankCurrent.diameterOf,
      TankCurrent.resolveDepth.
    rewrite Hs, Hno, HD. cbn [gt lt]. rewrite (Rltb_true 0 D) by exact Dpos.
    reflexivity. }
  assert (Hraw : TankCurrent.rawVolumeOf row = Some NaN).
  { unfold TankCurrent.rawVolumeOf. rewrite Hdep.
    unfold TankCurrent.rawVolume, TankCurrent.diameterOf,
      TankCurrent.lengthOf.
    rewrite Hno, HD, HL. cbn [gt lt].
    rewrite (Rltb_true 0 D), (Rltb_true 0 L) by assumption.
    cbn [andb]. rewrite cylinder_depth_NaN. reflexivity. }
  rewrite Hf, Hraw, statusFromLimits_NaN in Hst.
  exists r. repeat split; try assumption; congruence.
Qed.

(** C6, refuted as stated: a fresh reading without a sensor distance has
    depth [null] and status [Unknown], but its alert is "No reading", not
    "No valid level". *)
Lemma missing_distance_counterexample :
  TankCurrent.ultra_height TankCurrent.scenarioE_row = None /\
  exists r,
    TankCurrent.buildTankResponseRow 0 TankCurrent.scenarioE_row = Normal r /\
    TankCurrent.stale r = false /\
    TankCurrent.raw_reading_water_depth_m r = None /\
    TankCurrent.tank_status r = "Unknown" /\
    TankCurrent.tank_alert_message r = "No reading" /\
    TankCurrent.tank_alert_message r <> "No valid level".
Proof.
  split; [reflexivity|].
  destruct (build_missing_distance 0 0 TankCurrent.scenarioE_row
              eq_refl ltac:(lia) eq_refl)
    as (r & Hr & Hs & Hd & _ & _ & Hst & Hal).
  exists r. repeat split; try assumption.
  rewrite Hal. discriminate.
Qed.

(** C6, as the code has it.  A fresh reading whose sensor distance is
    absent gives depth [null], not 0, no volume, status [Unknown] and alert
    "No reading".  In updateData.js a distance that is missing or not
    finite gives level 0, status "No Data" and alert "No valid level". *)
Theorem missing_distance_is_reported (now t : Z) (row : TankCurrent.Row) :
  TankCurrent.date_time row = Some (ValidDate t) ->
  (now - t <= 30 * 60 * 1000)%Z ->
  TankCurrent.ultra_height row = None ->
  (exists r, TankCurrent.buildTankResponseRow now row = Normal r /\
     TankCurrent.stale r = false /\
     TankCurrent.raw_reading_water_depth_m r = None /\
     TankCurrent.raw_reading_volume_l r = None /\
     TankCurrent.effective_volume_l r = None /\
     TankCurrent.tank_status r = "Unknown" /\
     TankCurrent.tank_alert_message r = "No reading") /\
  (forall (tank_no : string) (ultra_height : jsvalue)
          (paramRows : list UpdateData.Params),
     tank_no <> EmptyString ->
     isFinite (Number ultra_height) = false ->
     exists s,
       UpdateData.postUpdateData (Some tank_no) ultra_height paramRows
         = Some s /\
       UpdateData.currentLevel s = Fin 0 /\
       UpdateData.flowStatus s = "Inactive" /\
       UpdateData.tank_status s = "No Data" /\
       UpdateData.tank_alert_message s = "No valid level").
Proof.
  intros Hd Hfresh Hs. split.
  - apply (build_missing_distance now t row Hd Hfresh Hs).
  - intros tank_no ultra_height paramRows Hne Hnf.
    apply update_without_distance; assumption.
Qed.

Lemma missing_distance_is_reported_witness :
  TankCurrent.date_time TankCurrent.scenarioE_row = Some (ValidDate 0) /\
  (600000 - 0 <= 30 * 60 * 1000)%Z /\
  TankCurrent.ultra_height TankCurrent.scenarioE_row = None /\
  exists r,
    TankCurrent.buildTankResponseRow 600000 TankCurrent.scenarioE_row
      = Normal r /\
    TankCurrent.stale r = false /\
    TankCurrent.raw_reading_water_depth_m r = None /\
    TankCurrent.raw_reading_volume_l r = None /\
    TankCurrent.effective_volume_l r = None /\
    TankCurrent.tank_status r = "Unknown" /\
    TankCurrent.tank_alert_message r = "No reading".
Proof.
  assert (Hfresh : (600000 - 0 <= 30 * 60 * 1000)%Z) by lia.
  split; [reflexivity|]. split; [exact Hfresh|]. split; [reflexivity|].
  apply (missing_distance_is_reported 600000 0 TankCurrent.scenarioE_row
           eq_refl Hfresh eq_refl).
Defined.

(** C7, refuted as stated: without a sensor distance updateData.js stores
    the status "No Data", which is not one of OK, Warning, Inactive,
    Unknown. *)
Lemma status_range_counterexample :
  exists s,
    UpdateData.postUpdateData (Some "TANK-1") Undefined [] = Some s /\
    UpdateData.tank_status s = "No Data" /\
    ~ In (UpdateData.tank_status s) Spec.statusTags.
Proof.
  destruct (update_without_distance "TANK-1" Undefined []
              ltac:(discriminate) eq_refl) as (s & Hs & _ & _ & Hst & _).
  exists s. split; [exact Hs|]. split; [exact Hst|].
  rewrite Hst. unfold Spec.statusTags. cbn.
  intros [H|[H|[H|[H|[]]]]]; discriminate H.
Qed.

(** C7, as the code has it.  The status of a computed record is one of
    OK, Warning, Inactive, Unknown and "No Data", and its alert one of
    Normal, "High level", "Low level", "No reading in last 30 minutes",
    "No Data", "No valid level" and "No reading".  More precisely
    tankCurrent.js answers a status among OK, Warning, Inactive, Unknown
    with an alert among Normal, "High level", "Low level", "No reading in
    last 30 minutes", "No reading"; updateData.js stores a status among
    OK, Warning, "No Data" with an alert among Normal, "High level",
    "Low level", "No valid level". *)
Theorem status_and_alert_ranges :
  (forall now row r,
     TankCurrent.buildTankResponseRow now row = Normal r ->
     (In (TankCurrent.tank_status r) ["OK"; "Warning"; "Inactive"; "Unknown"] /\
      In (TankCurrent.tank_alert_message r)
         ["Normal"; "High level"; "Low level";
          "No reading in last 30 minutes"; "No reading"]) /\
     In (TankCurrent.tank_status r) (Spec.statusTags ++ ["No Data"]) /\
     In (TankCurrent.tank_alert_message r)
        (Spec.alertMessages ++ ["No reading"])) /\
  (forall tank_no ultra_height paramRows s,
     UpdateData.postUpdateData tank_no ultra_height paramRows = Some s ->
     (In (UpdateData.tank_status s) ["OK"; "Warning"; "No Data"] /\
      In (UpdateData.tank_alert_message s)
         ["Normal"; "High level"; "Low level"; "No valid level"]) /\
     In (UpdateData.tank_status s) (Spec.statusTags ++ ["No Data"]) /\
     In (UpdateData.tank_alert_message s)
        (Spec.alertMessages ++ ["No reading"])).
Proof.
  split.
  - intros now row r Hr.
    destruct (build_range now row r Hr) as [H1 H2].
    split; [split; assumption|].
    unfold Spec.statusTags, Spec.alertMessages.
    cbn in H1, H2 |- *. tauto.
  - intros tank_no ultra_height paramRows s Hs.
    destruct (update_range tank_no ultra_height paramRows s Hs) as [H1 H2].
    split; [split; assumption|].
    unfold Spec.statusTags, Spec.alertMessages.
    cbn in H1, H2 |- *. tauto.
Qed.

(* ================================================================= *)
(** * Further properties of the engine *)

(* ----------------------------------------------------------------- *)
(** ** Bounds and symmetry of the cylinder volume *)

Lemma segmentArea_complement (r h : R) :
  0 < r -> 0 <= h <= 2 * r ->
  segmentArea r h + segmentArea r (2 * r - h) = Rtrigo1.PI * r * r.
Proof.
  intros Hr Hh. unfold segmentArea.
  replace ((r - (2 * r - h)) / r) with (- ((r - h) / r)) by (field; lra).
  replace (2 * r * (2 * r - h) - (2 * r - h) * (2 * r - h))
    with (2 * r * h - h * h) by ring.
  rewrite acos_opp. ring.
Qed.

(** The value of the formula lies between 0 and the full volume. *)
Lemma litres_bounds (D L h : R) :
  0 < D -> 0 < L ->
  exists v,
    UpdateData.horizontalCylinderVolumeLitres (Fin D) (Fin L) (Fin h) = Fin v /\
    0 <= v <= Rtrigo1.PI * (D / 2) * (D / 2) * L * 1000.
Proof.
  intros HD HL. pose proof PI_RGT_0 as Hpi.
  assert (Hfull : 0 <= Rtrigo1.PI * (D / 2) * (D / 2) * L * 1000).
  { apply Rmult_le_pos; [apply Rmult_le_pos|lra]; [|lra].
    apply Rmult_le_pos; [apply Rmult_le_pos|]; lra. }
  destruct (Rle_dec h 0) as [H0|H0].
  - exists 0. split; [apply litres_empty; exact H0 | lra].
  - exists (segmentArea (D / 2) (Rmin h D) * L * 1000).
    split; [apply litres_value; lra|].
    assert (B : 0 <= Rmin h D <= 2 * (D / 2)).
    { unfold Rmin. destruct (Rle_dec h D); lra. }
    pose proof (segmentArea_nonneg (D / 2) _ ltac:(lra) B) as Hlo.
    pose proof (segmentArea_le_full (D / 2) _ ltac:(lra) B) as Hhi.
    split.
    + apply Rmult_le_pos; [apply Rmult_le_pos|]; lra.
    + apply Rmult_le_compat_r; [lra|].
      apply Rmult_le_compat_r; lra.
Qed.

(** X2.  Filling to depth [h] and filling to depth [D - h] make up one
    full tank: the two volumes add up to [PI * (D/2)^2 * L * 1000]. *)
Theorem litres_of_complementary_depths (D L h : R) :
  0 < D -> 0 < L -> 0 <= h <= D ->
  exists v1 v2,
    UpdateData.horizontalCylinderVolumeLitres (Fin D) (Fin L) (Fin h)
      = Fin v1 /\
    UpdateData.horizontalCylinderVolumeLitres (Fin D) (Fin L) (Fin (D - h))
      = Fin v2 /\
    v1 + v2 = Rtrigo1.PI * (D / 2) * (D / 2) * L * 1000.
Proof.
  intros HD HL [H0 H1].
  destruct (Req_dec h 0) as [->|Hne0].
  - exists 0, (Rtrigo1.PI * (D / 2) * (D / 2) * L * 1000).
    split; [apply litres_empty; lra|].
    split; [apply litres_full; lra | lra].
  - destruct (Req_dec h D) as [->|HneD].
    + exists (Rtrigo1.PI * (D / 2) * (D / 2) * L * 1000), 0.
      split; [apply litres_full; lra|].
      split; [apply litres_empty; lra | lra].
    + exists (segmentArea (D / 2) h * L * 1000),
             (segmentArea (D / 2) (D - h) * L * 1000).
      split; [apply litres_partial; lra|].
      split; [apply litres_partial; lra|].
      pose proof (segmentArea_complement (D / 2) h ltac:(lra) ltac:(lra)) as Hc.
      replace (2 * (D / 2) - h) with (D - h) in Hc by lra.
      rewrite <- Hc. ring.
Qed.

Lemma litres_of_complementary_depths_witness :
  0 < 2 /\ 0 < 5 /\ 0 <= 1 / 2 <= 2 /\
  exists v1 v2,
    UpdateData.horizontalCylinderVolumeLitres (Fin 2) (Fin 5) (Fin (1 / 2))
      = Fin v1 /\
    UpdateData.horizontalCylinderVolumeLitres (Fin 2) (Fin 5) (Fin (2 - 1 / 2))
      = Fin v2 /\
    v1 + v2 = Rtrigo1.PI * (2 / 2) * (2 / 2) * 5 * 1000.
Proof.
  split; [lra|]. split; [lra|]. split; [lra|].
  apply (litres_of_complementary_depths 2 5 (1 / 2)); lra.
Defined.

(* ----------------------------------------------------------------- *)
(** ** Rounding to one decimal *)

Lemma Int_part_monotone (a b : R) : a <= b -> (Int_part a <= Int_part b)%Z.
Proof.
  intros Hab.
  destruct (base_Int_part a) as [Ha _].
  destruct (base_Int_part b) as [_ Hb].
  assert (H : IZR (Int_part a) < IZR (Int_part b + 1)).
  { rewrite plus_IZR. lra. }
  apply lt_IZR in H. lia.
Qed.

Lemma roundTenth_monotone (a b : R) : a <= b -> roundTenth a <= roundTenth b.
Proof.
  intros Hab. unfold roundTenth.
  assert (H : (Int_part (10 * a + / 2) <= Int_part (10 * b + / 2))%Z)
    by (apply Int_part_monotone; lra).
  apply IZR_le in H. lra.
Qed.

Lemma roundTenth_zero : roundTenth 0 = 0.
Proof.
  replace 0 with (IZR 0 / 10) at 1 by lra.
  rewrite roundTenth_tenths. lra.
Qed.

(** Rounding keeps a value between two bounds that are themselves whole
    numbers of tenths. *)
Lemma toFixed1_between (a : R) (z : Z) :
  0 <= a <= IZR z / 10 -> IZR z / 10 < 10 ^ 21 ->
  exists q, toFixed1 (Fin a) = Fin q /\ 0 <= q <= IZR z / 10.
Proof.
  intros [H0 H1] Hbig. exists (roundTenth a). split.
  - unfold toFixed1.
    rewrite Rleb_false by (rewrite Rabs_pos_eq; lra).
    rewrite Rltb_false by lra. reflexivity.
  - split.
    + rewrite <- roundTenth_zero. apply roundTenth_monotone. exact H0.
    + rewrite <- (roundTenth_tenths z). apply roundTenth_monotone. exact H1.
Qed.

Lemma toFixed1_nonneg (a : R) :
  0 <= a -> exists q, toFixed1 (Fin a) = Fin q /\ 0 <= q.
Proof.
  intros H0. unfold toFixed1.
  destruct (Rle_dec (10 ^ 21) (Rabs a)) as [Hbig|Hsmall].
  - rewrite Rleb_true by exact Hbig. exists a. split; [reflexivity|exact H0].
  - rewrite Rleb_false by lra. rewrite Rltb_false by lra.
    exists (roundTenth a). split; [reflexivity|].
    rewrite <- roundTenth_zero. apply roundTenth_monotone. exact H0.
Qed.

(* ----------------------------------------------------------------- *)
(** ** Raw volume against sensor distance *)

Lemma clamp_monotone (x y hi : R) :
  0 <= hi -> x <= y -> clamp x 0 hi <= clamp y 0 hi.
Proof.
  intros Hhi Hxy. unfold clamp, Rmax, Rmin. clamp_split; lra.
Qed.

Lemma rawVolume_cylinder (tankNo : option string) (D L d : R) :
  TankCurrent.isFireTank tankNo = false -> 0 < D -> 0 < L ->
  TankCurrent.rawVolume tankNo (Fin D) (Fin L) (Some (Fin d))
  = Some (UpdateData.horizontalCylinderVolumeLitres (Fin D) (Fin L) (Fin d)).
Proof.
  intros Hno HD HL. unfold TankCurrent.rawVolume. rewrite Hno.
  cbn [gt lt]. rewrite (Rltb_true 0 D), (Rltb_true 0 L) by assumption.
  cbn [andb]. f_equal. apply cylinder_litres_agree; assumption.
Qed.

Lemma fire_tank_volume_bounds (D L : num) (sensor : R) :
  exists v,
    TankCurrent.rawVolume (Some FIRE_TANK) D L
      (TankCurrent.resolveDepth (Some FIRE_TANK) D (Some (Fin sensor)))
    = Some (Fin v) /\
    v = 45835 * clamp (17.9 - sensor) 0 17.9 /\
    0 <= v <= 820446.5.
Proof.
  rewrite resolveDepth_rectangular, rawVolume_rectangular.
  eexists. split; [reflexivity|].
  pose proof (clamp_bounds (17.9 - sensor) 17.9 ltac:(lra)) as B.
  split; [lra|]. split; nra.
Qed.

(** X3.  For the rectangular tank every finite sensor distance gives a
    raw volume of 8.9 * 5.15 * 1000 litres per metre of clamped depth,
    hence between 0 and 820446.5 litres. *)
Theorem fire_tank_volume_range (D L : num) (sensor : R) :
  exists v,
    TankCurrent.rawVolume (Some FIRE_TANK) D L
      (TankCurrent.resolveDepth (Some FIRE_TANK) D (Some (Fin sensor)))
    = Some (Fin v) /\
    v = 45835 * clamp (17.9 - sensor) 0 17.9 /\
    0 <= v <= 820446.5.
Proof.
  exact (fire_tank_volume_bounds D L sensor).
Qed.

(** X4.  For the rectangular tank the raw volume never grows when the
    sensor reads a larger distance: [s1 <= s2] gives a volume at [s2] that
    is at most the volume at [s1] and not negative.  A distance of 0 or
    less gives the full 820446.5 litres, and one of 17.9 m or more gives
    0. *)
Theorem fire_tank_volume_decreases_with_distance (D L : num) (s1 s2 : R) :
  s1 <= s2 ->
  exists v1 v2,
    TankCurrent.rawVolume (Some FIRE_TANK) D L
      (TankCurrent.resolveDepth (Some FIRE_TANK) D (Some (Fin s1)))
      = Some (Fin v1) /\
    TankCurrent.rawVolume (Some FIRE_TANK) D L
      (TankCurrent.resolveDepth (Some FIRE_TANK) D (Some (Fin s2)))
      = Some (Fin v2) /\
    0 <= v2 <= v1 /\
    (s1 <= 0 -> v1 = 820446.5) /\
    (17.9 <= s2 -> v2 = 0).
Proof.
  intros Hs.
  rewrite !resolveDepth_rectangular, !rawVolume_rectangular.
  do 2 eexists. split; [reflexivity|]. split; [reflexivity|].
  pose proof (clamp_bounds (17.9 - s2) 17.9 ltac:(lra)) as B.
  pose proof (clamp_monotone (17.9 - s2) (17.9 - s1) 17.9
                ltac:(lra) ltac:(lra)) as M.
  split; [split; nra|]. split.
  - intros H0. unfold clamp, Rmax, Rmin. clamp_split; lra.
  - intros H1. unfold clamp, Rmax, Rmin. clamp_split; lra.
Qed.

Lemma fire_tank_volume_decreases_with_distance_witness :
  2.5 <= 10 /\
  exists v1 v2,
    TankCurrent.rawVolume (Some FIRE_TANK) (Fin 0) (Fin 0)
      (TankCurrent.resolveDepth (Some FIRE_TANK) (Fin 0) (Some (Fin 2.5)))
      = Some (Fin v1) /\
    TankCurrent.rawVolume (Some FIRE_TANK) (Fin 0) (Fin 0)
      (TankCurrent.resolveDepth (Some FIRE_TANK) (Fin 0) (Some (Fin 10)))
      = Some (Fin v2) /\
    0 <= v2 <= v1.
Proof.
  assert (H : 2.5 <= 10) by lra.
  split; [exact H|].
  destruct (fire_tank_volume_decreases_with_distance (Fin 0) (Fin 0) 2.5 10 H)
    as (v1 & v2 & E1 & E2 & Hord & _).
  exists v1, v2. repeat split; try assumption; apply Hord.
Defined.

(* ----------------------------------------------------------------- *)
(** ** Errors and timestamps of buildTankResponseRow *)

(** X5.  [buildTankResponseRow] returns an object unless the row carries
    an invalid date; then, and only then, it throws, and the error is the
    [RangeError] of [toISOString]. *)
Theorem build_throws_exactly_on_invalid_date (now : Z) (row : TankCurrent.Row) :
  (returns (TankCurrent.buildTankResponseRow now row)
     <-> TankCurrent.date_time row <> Some InvalidDate) /\
  (raises (TankCurrent.buildTankResponseRow now row)
     <-> TankCurrent.date_time row = Some InvalidDate) /\
  (forall e, TankCurrent.buildTankResponseRow now row = Throw e ->
     e = "RangeError").
Proof.
  destruct (TankCurrent.date_time row) as [[t|]|] eqn:Hd.
  - assert (Hv : TankCurrent.date_time row <> Some InvalidDate)
      by (rewrite Hd; discriminate).
    destruct (build_shape now row Hv) as (r & Hr & _).
    rewrite Hr. unfold returns, raises. repeat split.
    + intros _. discriminate.
    + intros _. eauto.
    + intros [e He]. discriminate He.
    + intros H. discriminate H.
    + intros e He. discriminate He.
  - rewrite (build_throws_on_invalid_date now row Hd).
    unfold returns, raises. repeat split.
    + intros [a Ha]. discriminate Ha.
    + intros H. contradiction H. reflexivity.
    + intros _. eauto.
    + intros e He. injection He as <-. reflexivity.
  - assert (Hv : TankCurrent.date_time row <> Some InvalidDate)
      by (rewrite Hd; discriminate).
    destruct (build_shape now row Hv) as (r & Hr & _).
    rewrite Hr. unfold returns, raises. repeat split.
    + intros _. discriminate.
    + intros _. eauto.
    + intros [e He]. discriminate He.
    + intros H. discriminate H.
    + intros e He. discriminate He.
Qed.

Lemma build_time_fields (now t : Z) (row : TankCurrent.Row) :
  TankCurrent.date_time row = Some (ValidDate t) ->
  exists r, TankCurrent.buildTankResponseRow now row = Normal r /\
    TankCurrent.last_updated r = Some t /\
    TankCurrent.minutes_since_last r
      = Some (toFixed1 (Fin ((IZR now - IZR t) / (1000 * 60)))) /\
    TankCurrent.stale r = (30 * 60 * 1000 <? now - t)%Z.
Proof.
  intros Hd. unfold TankCurrent.buildTankResponseRow. rewrite Hd.
  rewrite staleness_valid. cbn [toISOString bind].
  eexists. split; [reflexivity|]. repeat split; reflexivity.
Qed.

Lemma build_no_time_fields (now : Z) (row : TankCurrent.Row) :
  TankCurrent.date_time row = None ->
  exists r, TankCurrent.buildTankResponseRow now row = Normal r /\
    TankCurrent.last_updated r = None /\
    TankCurrent.minutes_since_last r = None /\
    TankCurrent.stale r = true.
Proof.
  intros Hd. unfold TankCurrent.buildTankResponseRow. rewrite Hd.
  cbn [TankCurrent.staleness bind].
  eexists. split; [reflexivity|]. repeat split; reflexivity.
Qed.

Lemma roundTenth_close (a : R) : - 0.05 < roundTenth a - a <= 0.05.
Proof.
  unfold roundTenth.
  destruct (base_Int_part (10 * a + / 2)) as [Hlo Hhi]. lra.
Qed.

Lemma toFixed1_close (a : R) :
  exists m, toFixed1 (Fin a) = Fin m /\ Rabs (m - a) <= 0.05.
Proof.
  unfold toFixed1.
  destruct (Rleb (10 ^ 21) (Rabs a)).
  - exists a. split; [reflexivity|].
    replace (a - a) with 0 by ring. rewrite Rabs_R0. lra.
  - destruct (Rltb a 0).
    + exists (- roundTenth (- a)). split; [reflexivity|].
      pose proof (roundTenth_close (- a)). apply Rabs_le. lra.
    + exists (roundTenth a). split; [reflexivity|].
      pose proof (roundTenth_close a). apply Rabs_le. lra.
Qed.

(** X6.  In the object built, [last_updated] and [minutes_since_last]
    are both [null] when the row has no timestamp, and the row is then
    stale.  With a timestamp [t], [last_updated] is [t] and
    [minutes_since_last] is a number less than a tenth of a minute away
    from the age [(now - t) / 60000]; a timestamp at or after [now] (an
    age of zero or less) is never stale. *)
Theorem time_fields_follow_timestamp
    (now : Z) (row : TankCurrent.Row) (r : TankCurrent.TankResponse) :
  TankCurrent.buildTankResponseRow now row = Normal r ->
  (TankCurrent.date_time row = None ->
     TankCurrent.last_updated r = None /\
     TankCurrent.minutes_since_last r = None /\
     TankCurrent.stale r = true) /\
  (forall t, TankCurrent.date_time row = Some (ValidDate t) ->
     TankCurrent.last_updated r = Some t /\
     (exists m,
        TankCurrent.minutes_since_last r = Some (Fin m) /\
        Rabs (m - IZR (now - t) / 60000) < 0.1) /\
     ((now <= t)%Z -> TankCurrent.stale r = false)).
Proof.
  intros Hr. split.
  - intros Hd. destruct (build_no_time_fields now row Hd) as (r' & Hr' & H).
    assert (r' = r) by congruence. subst r'. exact H.
  - intros t Hd.
    destruct (build_time_fields now t row Hd) as (r' & Hr' & Hl & Hm & Hs).
    assert (r' = r) by congruence. subst r'.
    split; [exact Hl|]. split.
    + destruct (toFixed1_close ((IZR now - IZR t) / (1000 * 60)))
        as (m & Em & Hclose).
      exists m. split; [rewrite Hm, Em; reflexivity|].
      replace (IZR (now - t) / 60000) with ((IZR now - IZR t) / (1000 * 60))
        by (rewrite minus_IZR; field).
      lra.
    + intros Hfuture. rewrite Hs. apply Z.ltb_ge. lia.
Qed.

Lemma time_fields_follow_timestamp_witness :
  exists r m,
    TankCurrent.buildTankResponseRow TankCurrent.scenarioD_now
      TankCurrent.scenarioD_row = Normal r /\
    TankCurrent.last_updated r = Some 0%Z /\
    TankCurrent.minutes_since_last r = Some (Fin m) /\
    Rabs (m - IZR (TankCurrent.scenarioD_now - 0) / 60000) < 0.1.
Proof.
  destruct (build_time_fields TankCurrent.scenarioD_now 0
              TankCurrent.scenarioD_row eq_refl) as (r & Hr & _).
  destruct (time_fields_follow_timestamp TankCurrent.scenarioD_now
              TankCurrent.scenarioD_row r Hr) as [_ Hvalid].
  destruct (Hvalid 0%Z eq_refl) as (Hl & (m & Hm & Hclose) & _).
  exists r, m. repeat split; assumption.
Defined.

(* ----------------------------------------------------------------- *)
(** ** The classifier of tankCurrent.js *)

(** X7.  With both limits configured and all three numbers finite,
    [statusFromLimits] answers OK / Normal exactly when the level lies
    strictly between the lower and the upper limit. *)
Theorem status_ok_iff_strictly_between (level lower upper : R) :
  TankCurrent.statusFromLimits
    (Some (Fin level)) (Some (Fin lower)) (Some (Fin upper))
    = ("OK", "Normal")
  <-> lower < level < upper.
Proof.
  unfold TankCurrent.statusFromLimits. cbn [ge le].
  destruct (Rle_dec upper level) as [Hu|Hu].
  - rewrite (Rleb_true upper level) by exact Hu.
    split; [discriminate | lra].
  - rewrite (Rleb_false upper level) by lra.
    destruct (Rle_dec level lower) as [Hl|Hl].
    + rewrite (Rleb_true level lower) by exact Hl.
      split; [discriminate | lra].
    + rewrite (Rleb_false level lower) by lra.
      split; [intros _; lra | reflexivity].
Qed.

(** X8.  With a single limit configured only that limit can raise an
    alert: with only a lower limit the answer is never "High level", and
    is a Warning exactly when the level is at or below the limit; with
    only an upper limit it is never "Low level", and is a Warning exactly
    when the level is at or above the limit. *)
Theorem single_limit_alerts (level limit : R) :
  (snd (TankCurrent.statusFromLimits (Some (Fin level)) (Some (Fin limit)) None)
     <> "High level" /\
   (fst (TankCurrent.statusFromLimits
           (Some (Fin level)) (Some (Fin limit)) None) = "Warning"
      <-> level <= limit)) /\
  (snd (TankCurrent.statusFromLimits (Some (Fin level)) None (Some (Fin limit)))
     <> "Low level" /\
   (fst (TankCurrent.statusFromLimits
           (Some (Fin level)) None (Some (Fin limit))) = "Warning"
      <-> limit <= level)).
Proof.
  unfold TankCurrent.statusFromLimits. cbn [ge le]. split.
  - destruct (Rle_dec level limit) as [H|H].
    + rewrite (Rleb_true level limit) by exact H. cbn.
      split; [discriminate | tauto].
    + rewrite (Rleb_false level limit) by lra. cbn.
      split; [discriminate|]. split; [discriminate | lra].
  - destruct (Rle_dec limit level) as [H|H].
    + rewrite (Rleb_true limit level) by exact H. cbn.
      split; [discriminate | tauto].
    + rewrite (Rleb_false limit level) by lra. cbn.
      split; [discriminate|]. split; [discriminate | lra].
Qed.

(* ----------------------------------------------------------------- *)
(** ** Fill percentage of buildTankResponseRow *)

Lemma build_fill (now : Z) (row : TankCurrent.Row) :
  TankCurrent.date_time row <> Some InvalidDate ->
  exists r, TankCurrent.buildTankResponseRow now row = Normal r /\
    TankCurrent.effective_fill_percentage r
      = TankCurrent.fillPercentage (TankCurrent.tank_volume row)
          (if TankCurrent.stale r then Some (Fin 0)
           else TankCurrent.rawVolumeOf row).
Proof.
  intros Hv. destruct (TankCurrent.date_time row) as [[t|]|] eqn:Hd.
  - destruct (build_with_timestamp now t row Hd)
      as (r & Hr & _ & _ & _ & Hf & _).
    exists r. split; assumption.
  - contradiction Hv. reflexivity.
  - destruct (build_without_timestamp now row Hd)
      as (r & Hr & Hs & _ & Hf & _).
    exists r. split; [exact Hr|]. rewrite Hs. exact Hf.
Qed.

Lemma fillPercentage_within_100 (c v : R) :
  0 < c -> 0 <= v <= c ->
  exists p, TankCurrent.fillPercentage (Some (Fin c)) (Some (Fin v))
            = Some (Fin p) /\ 0 <= p <= 100.
Proof.
  intros Hc [Hv0 Hv1]. unfold TankCurrent.fillPercentage.
  cbn [gt lt]. rewrite (Rltb_true 0 c) by exact Hc.
  rewrite div_fin by lra. cbn [mul].
  assert (B : 0 <= v / c * 100 <= IZR 1000 / 10).
  { assert (0 <= v / c <= 1).
    { split.
      - apply Rmult_le_pos; [lra|]. left. apply Rinv_0_lt_compat. exact Hc.
      - apply Rmult_le_reg_r with c; [exact Hc|].
        unfold Rdiv. rewrite Rmult_assoc, Rinv_l by lra. lra. }
    lra. }
  destruct (toFixed1_between (v / c * 100) 1000 B) as (q & Hq & Hb).
  { simpl pow. lra. }
  exists q. split; [rewrite Hq; reflexivity | lra].
Qed.

(** X9.  When the configured capacity is at least the geometric volume of
    the tank (the full cylinder of positive diameter and length, or
    820446.5 litres for the rectangular tank), every finite sensor
    distance, stale or fresh, yields a fill percentage between 0 and
    100. *)
Theorem fill_percentage_within_capacity
    (now : Z) (row : TankCurrent.Row) (D L sensor c : R) :
  TankCurrent.date_time row <> Some InvalidDate ->
  TankCurrent.ultra_height row = Some (Fin sensor) ->
  TankCurrent.tank_volume row = Some (Fin c) ->
  (TankCurrent.isFireTank (TankCurrent.tank_no row) = true /\ 820446.5 <= c)
  \/ (TankCurrent.isFireTank (TankCurrent.tank_no row) = false /\
      TankCurrent.diameter_breadth row = Some (Fin D) /\ 0 < D /\
      TankCurrent.length row = Some (Fin L) /\ 0 < L /\
      Rtrigo1.PI * (D / 2) * (D / 2) * L * 1000 <= c) ->
  exists r p,
    TankCurrent.buildTankResponseRow now row = Normal r /\
    TankCurrent.effective_fill_percentage r = Some (Fin p) /\
    0 <= p <= 100.
Proof.
  intros Hvalid Hs Hc Hshape.
  destruct (build_fill now row Hvalid) as (r & Hr & Hf).
  exists r.
  assert (Hraw : exists v, TankCurrent.rawVolumeOf row = Some (Fin v) /\
                           0 < c /\ 0 <= v <= c).
  { unfold TankCurrent.rawVolumeOf, TankCurrent.depthOf.
    destruct Hshape as [[Hfire Hcap]|(Hfire & HD & Dpos & HL & Lpos & Hcap)].
    - assert (Htank : TankCurrent.tank_no row = Some FIRE_TANK).
      { destruct (TankCurrent.tank_no row) as [s|]; [|discriminate Hfire].
        cbn in Hfire. apply String.eqb_eq in Hfire. now subst s. }
      rewrite Htank, Hs.
      destruct (fire_tank_volume_bounds (TankCurrent.diameterOf row)
                  (TankCurrent.lengthOf row) sensor) as (v & Hv & _ & Hb).
      exists v. split; [exact Hv|]. lra.
    - unfold TankCurrent.diameterOf, TankCurrent.lengthOf.
      rewrite Hs, HD, HL.
      rewrite resolveDepth_cylinder, rawVolume_cylinder by assumption.
      destruct (litres_bounds D L (clamp (D - sensor) 0 D)
                  Dpos Lpos) as (v & Hv & Hb).
      exists v. split; [rewrite Hv; reflexivity|].
      pose proof PI_RGT_0.
      assert (0 < Rtrigo1.PI * (D / 2) * (D / 2) * L * 1000).
      { apply Rmult_lt_0_compat; [apply Rmult_lt_0_compat|lra]; [|lra].
        apply Rmult_lt_0_compat; [apply Rmult_lt_0_compat|]; lra. }
      lra. }
  destruct Hraw as (v & Hv & Hcpos & Hb).
  rewrite Hc, Hv in Hf.
  destruct (TankCurrent.stale r).
  - destruct (fillPercentage_within_100 c 0 Hcpos ltac:(lra)) as (p & Hp & Hpb).
    exists p. split; [exact Hr|]. split; [congruence | exact Hpb].
  - destruct (fillPercentage_within_100 c v Hcpos Hb) as (p & Hp & Hpb).
    exists p. split; [exact Hr|]. split; [congruence | exact Hpb].
Qed.

Lemma fill_percentage_within_capacity_witness :
  exists r p,
    TankCurrent.buildTankResponseRow 0 TankCurrent.scenarioB_row = Normal r /\
    TankCurrent.effective_fill_percentage r = Some (Fin p) /\
    0 <= p <= 100.
Proof.
  apply (fill_percentage_within_capacity 0 TankCurrent.scenarioB_row
           1 1 0 820446.5).
  - discriminate.
  - reflexivity.
  - reflexivity.
  - left. split; [reflexivity | lra].
Defined.

(* ----------------------------------------------------------------- *)
(** ** [trim] strips every leading and trailing white-space character *)

Lemma dropPrefix_length (p s rest : string) :
  UpdateData.dropPrefix p s = Some rest ->
  String.length s = (String.length p + String.length rest)%nat.
Proof.
  revert s. induction p as [|a p IH]; intros s H.
  - injection H as <-. reflexivity.
  - destruct s as [|b s]; [discriminate H|].
    cbn [UpdateData.dropPrefix] in H.
    destruct (Ascii.eqb a b); [|discriminate H].
    cbn [String.length]. rewrite (IH s H). reflexivity.
Qed.

Lemma dropOne_shorter (ws : list string) (s rest : string) :
  Forall (fun w => w <> EmptyString) ws ->
  UpdateData.dropOne ws s = Some rest ->
  (String.length rest < String.length s)%nat.
Proof.
  induction 1 as [|w ws Hw _ IH]; intros H; [discriminate H|].
  cbn [UpdateData.dropOne fold_right] in H.
  destruct (UpdateData.dropPrefix w s) as [r|] eqn:E.
  - injection H as <-. apply dropPrefix_length in E.
    destruct w as [|a w]; [contradiction Hw; reflexivity|].
    cbn [String.length] in E. lia.
  - apply IH. exact H.
Qed.

Lemma stripWith_complete (ws : list string) (fuel : nat) (s : string) :
  Forall (fun w => w <> EmptyString) ws ->
  (String.length s <= fuel)%nat ->
  UpdateData.dropOne ws (UpdateData.stripWith ws fuel s) = None.
Proof.
  intros Hws. revert s. induction fuel as [|fuel IH]; intros s Hlen.
  - cbn [UpdateData.stripWith].
    destruct (UpdateData.dropOne ws s) as [rest|] eqn:E; [|reflexivity].
    apply (dropOne_shorter ws s rest Hws) in E. lia.
  - cbn [UpdateData.stripWith].
    destruct (UpdateData.dropOne ws s) as [rest|] eqn:E; [|exact E].
    apply IH. apply (dropOne_shorter ws s rest Hws) in E. lia.
Qed.

Lemma whiteSpace_nonempty :
  Forall (fun w => w <> EmptyString) UpdateData.whiteSpace /\
  Forall (fun w => w <> EmptyString)
    (map UpdateData.reverse UpdateData.whiteSpace).
Proof.
  split; repeat constructor; discriminate.
Qed.

Lemma reverse_length (s : string) :
  String.length (UpdateData.reverse s) = String.length s.
Proof.
  assert (Hl : forall l, String.length (string_of_list_ascii l) = List.length l).
  { induction l as [|a l IH]; [reflexivity|]. cbn. rewrite IH. reflexivity. }
  assert (Hs : forall t, List.length (list_ascii_of_string t) = String.length t).
  { induction t as [|a t IH]; [reflexivity|]. cbn. rewrite IH. reflexivity. }
  unfold UpdateData.reverse. rewrite Hl, length_rev, Hs. reflexivity.
Qed.

Lemma reverse_involutive (s : string) :
  UpdateData.reverse (UpdateData.reverse s) = s.
Proof.
  unfold UpdateData.reverse.
  rewrite list_ascii_of_string_of_list_ascii, rev_involutive.
  apply string_of_list_ascii_of_string.
Qed.

(** The fuel given to [trimStart] and [trimEnd] is enough: no white-space
    character is left at the start of what [trimStart] returns, nor at
    the end of what [trimEnd] returns. *)
Lemma trim_strips_all (s : string) :
  UpdateData.dropOne UpdateData.whiteSpace (UpdateData.trimStart s) = None /\
  UpdateData.dropOne (map UpdateData.reverse UpdateData.whiteSpace)
    (UpdateData.reverse (UpdateData.trimEnd s)) = None.
Proof.
  destruct whiteSpace_nonempty as [H1 H2]. split.
  - apply stripWith_complete; [exact H1 | lia].
  - unfold UpdateData.trimEnd. rewrite reverse_involutive.
    apply stripWith_complete; [exact H2|]. rewrite reverse_length. lia.
Qed.

(* ----------------------------------------------------------------- *)
(** ** What updateData.js stores *)

Lemma litres_any_input (D L h : jsvalue) :
  exists v, UpdateData.horizontalCylinderVolumeLitres D L h = Fin v /\ 0 <= v.
Proof.
  change (UpdateData.horizontalCylinderVolumeLitres D L h)
    with (UpdateData.horizontalCylinderVolumeLitres
            (Num (Number D)) (Num (Number L)) (Num (Number h))).
  destruct (isFinite (Number D) && isFinite (Number L) && isFinite (Number h))
    eqn:Hfin.
  - destruct (Number D) as [| | |d]; try discriminate Hfin.
    destruct (Number L) as [| | |l]; try discriminate Hfin.
    destruct (Number h) as [| | |x]; try discriminate Hfin.
    destruct (Rle_dec d 0) as [Hd|Hd].
    { exists 0. split; [apply litres_degenerate; left; exact Hd | lra]. }
    destruct (Rle_dec l 0) as [Hl|Hl].
    { exists 0. split; [apply litres_degenerate; right; exact Hl | lra]. }
    destruct (litres_bounds d l x ltac:(lra) ltac:(lra))
      as (v & Hv & Hb).
    exists v. split; [exact Hv | lra].
  - exists 0. split; [apply litres_non_finite; exact Hfin | lra].
Qed.

Lemma percent_of_level (v : R) (capacity : num) :
  0 <= v ->
  exists p,
    (if gt capacity (Fin 0) then mul (div (Fin v) capacity) (Fin 100)
     else Fin 0) = Fin p /\ 0 <= p.
Proof.
  intros Hv. destruct capacity as [| | |c]; cbn [gt lt].
  - exists 0. split; [reflexivity | lra].
  - exists (0 * 100). split; [reflexivity | lra].
  - exists 0. split; [reflexivity | lra].
  - destruct (Rlt_dec 0 c) as [Hc|Hc].
    + rewrite (Rltb_true 0 c) by exact Hc. rewrite div_fin by lra.
      exists (v / c * 100). split; [reflexivity|].
      assert (0 <= v / c).
      { apply Rmult_le_pos; [lra|]. left. apply Rinv_0_lt_compat. exact Hc. }
      lra.
    + rewrite (Rltb_false 0 c) by lra. exists 0. split; [reflexivity | lra].
Qed.

Lemma computeLevel_finite (name : string) (ultraH : num) (D L : jsvalue)
    (capacity : num) :
  exists v p,
    UpdateData.computeLevel name ultraH D L capacity = (Fin v, Fin p) /\
    0 <= v /\ 0 <= p.
Proof.
  unfold UpdateData.computeLevel.
  destruct (String.eqb name FIRE_TANK && isFinite ultraH) eqn:Hfire.
  - apply andb_prop in Hfire as [_ Hfin].
    destruct ultraH as [| | |u]; try discriminate Hfin.
    cbn [sub].
    set (w := if lt (Fin (17.9 - u)) (Fin 0) then Fin 0 else Fin (17.9 - u)).
    assert (Hw : exists x, (if gt w (Fin 17.9) then Fin 17.9 else w) = Fin x
                           /\ 0 <= x).
    { unfold w. cbn [lt gt]. unfold Rltb. clamp_split; cbn [lt]; unfold Rltb;
        clamp_split; eexists; (split; [reflexivity | lra]). }
    destruct Hw as (x & Hx & Hx0). rewrite Hx. cbn [mul].
    destruct (percent_of_level (8.9 * 5.15 * x * 1000) capacity ltac:(nra))
      as (p & Hp & Hp0).
    rewrite Hp. exists (8.9 * 5.15 * x * 1000), p.
    split; [reflexivity|]. split; [nra | exact Hp0].
  - destruct (isFinite ultraH && notNullish D && notNullish L).
    + destruct (litres_any_input D L
                  (Num (max (Fin 0) (sub (Number D) ultraH))))
        as (v & Hv & Hv0).
      rewrite Hv.
      destruct (percent_of_level v capacity Hv0) as (p & Hp & Hp0).
      rewrite Hp. exists v, p. repeat split; assumption.
    + exists 0, 0. split; [reflexivity | lra].
Qed.

(** X10.  For the rectangular tank, whatever the tank parameters, a
    finite distance [u] is stored as the level
    [8.9 * 5.15 * 1000 * clamp(17.9 - u, 0, 17.9)] litres, which is not
    negative, with the flow Normal and a fill percentage that is a finite
    number and not negative. *)
Theorem fire_tank_level_stored
    (name : string) (ultra_height : jsvalue)
    (paramRows : list UpdateData.Params) (u : R) :
  name <> EmptyString ->
  UpdateData.trim name = FIRE_TANK ->
  Number ultra_height = Fin u ->
  exists s v p,
    UpdateData.postUpdateData (Some name) ultra_height paramRows = Some s /\
    UpdateData.currentLevel s = Fin v /\
    v = 45835 * clamp (17.9 - u) 0 17.9 /\
    0 <= v /\
    UpdateData.fillPercentage s = Fin p /\
    0 <= p /\
    UpdateData.flowStatus s = "Normal".
Proof.
  intros Hne Htrim Hu.
  destruct name as [|c rest]; [contradiction Hne; reflexivity|].
  unfold UpdateData.postUpdateData. rewrite Htrim, Hu.
  unfold UpdateData.computeLevel.
  rewrite String.eqb_refl. cbn [isFinite andb sub].
  set (w := if lt (Fin (17.9 - u)) (Fin 0) then Fin 0 else Fin (17.9 - u)).
  assert (Hw : (if gt w (Fin 17.9) then Fin 17.9 else w)
               = Fin (clamp (17.9 - u) 0 17.9)).
  { unfold w, clamp, Rmax, Rmin. cbn [lt gt]. unfold Rltb.
    clamp_split; cbn [lt]; unfold Rltb; clamp_split;
      first [ reflexivity | f_equal; lra | exfalso; lra ]. }
  rewrite Hw. cbn [mul].
  pose proof (clamp_bounds (17.9 - u) 17.9 ltac:(lra)) as B.
  set (x := clamp (17.9 - u) 0 17.9) in *.
  destruct (percent_of_level (8.9 * 5.15 * x * 1000)
              (orZero (Number (UpdateData.tank_volume (hd UpdateData.noParams
                                                         paramRows))))
              ltac:(nra)) as (p & Hp & Hp0).
  rewrite Hp. unfold UpdateData.decideStatus. cbn [isFinite negb].
  repeat match goal with
         | |- context [if ?c then _ else _] => destruct c
         end;
    (eexists; exists (8.9 * 5.15 * x * 1000), p;
     split; [reflexivity|]; cbn;
     split; [reflexivity|]; split; [lra|]; split; [nra|];
     split; [reflexivity|]; split; [exact Hp0 | reflexivity]).
Qed.

Lemma fire_tank_level_stored_witness :
  exists s v p,
    UpdateData.postUpdateData (Some " FIRE-TANK") (Num (Fin 2.5))
      [ {| UpdateData.diameter_breadth := Null;
           UpdateData.length := Null;
           UpdateData.tank_volume := Num (Fin 820446.5);
           UpdateData.upper_safe_limit_pct := Null;
           UpdateData.lower_safe_limit_pct := Null |} ] = Some s /\
    UpdateData.currentLevel s = Fin v /\
    v = 45835 * clamp (17.9 - 2.5) 0 17.9 /\
    UpdateData.fillPercentage s = Fin p /\
    0 <= p.
Proof.
  assert (H1 : " FIRE-TANK" <> EmptyString) by discriminate.
  destruct (fire_tank_level_stored " FIRE-TANK" (Num (Fin 2.5))
              [ {| UpdateData.diameter_breadth := Null;
                   UpdateData.length := Null;
                   UpdateData.tank_volume := Num (Fin 820446.5);
                   UpdateData.upper_safe_limit_pct := Null;
                   UpdateData.lower_safe_limit_pct := Null |} ]
              2.5 H1 eq_refl eq_refl)
    as (s & v & p & Hs & Hv & Hval & _ & Hp & Hp0 & _).
  exists s, v, p. repeat split; assumption.
Defined.

(** X11.  When [Tank_Parameters] has no row for the tank, a finite
    distance is stored with fill 0, and with level 0 unless the tank is
    the rectangular one, and the status depends on the distance alone:
    Warning / "Low level" when the distance is 0 or less, OK / Normal
    otherwise. *)
Theorem update_without_parameters (name : string) (ultra_height : jsvalue)
    (d : R) :
  name <> EmptyString ->
  Number ultra_height = Fin d ->
  exists s,
    UpdateData.postUpdateData (Some name) ultra_height [] = Some s /\
    UpdateData.fillPercentage s = Fin 0 /\
    UpdateData.flowStatus s = "Normal" /\
    (UpdateData.trim name <> FIRE_TANK -> UpdateData.currentLevel s = Fin 0) /\
    (d <= 0 ->
       UpdateData.tank_status s = "Warning" /\
       UpdateData.tank_alert_message s = "Low level") /\
    (0 < d ->
       UpdateData.tank_status s = "OK" /\
       UpdateData.tank_alert_message s = "Normal").
Proof.
  intros Hne Hd.
  destruct name as [|c rest]; [contradiction Hne; reflexivity|].
  unfold UpdateData.postUpdateData. cbn [hd UpdateData.noParams
    UpdateData.diameter_breadth UpdateData.length UpdateData.tank_volume
    UpdateData.upper_safe_limit_pct UpdateData.lower_safe_limit_pct].
  rewrite Hd. cbn [Number orZero truthy].
  destruct (computeLevel_finite (UpdateData.trim (String c rest)) (Fin d)
              Undefined Undefined (Fin 0)) as (v & p & Hl & _).
  assert (Hp : p = 0 /\ (UpdateData.trim (String c rest) <> FIRE_TANK -> v = 0)).
  { revert Hl. unfold UpdateData.computeLevel.
    cbn [isFinite notNullish andb gt lt].
    rewrite (Rltb_false 0 0) by lra.
    destruct (String.eqb (UpdateData.trim (String c rest)) FIRE_TANK) eqn:E;
      cbn [andb].
    - intros H. injection H as _ Hp. split; [lra|].
      apply String.eqb_eq in E. intros Hn. contradiction.
    - intros H. injection H as Hv Hp. split; [lra|]. intros _. lra. }
  destruct Hp as [-> Hv0]. rewrite Hl.
  unfold UpdateData.decideStatus. cbn [isFinite negb gt lt le].
  rewrite (Rltb_false 0 0) by lra.
  destruct (Rle_dec d 0) as [Hle|Hgt].
  - rewrite (Rleb_true d 0) by exact Hle.
    eexists. split; [reflexivity|]. cbn.
    repeat split; try reflexivity.
    + intros Hn. rewrite (Hv0 Hn). reflexivity.
    + lra.
    + lra.
  - rewrite (Rleb_false d 0) by lra.
    eexists. split; [reflexivity|]. cbn.
    repeat split; try reflexivity.
    + intros Hn. rewrite (Hv0 Hn). reflexivity.
    + lra.
    + lra.
Qed.

Lemma update_without_parameters_witness :
  "TANK-1" <> EmptyString /\ Number (Num (Fin 1.2)) = Fin 1.2 /\
  exists s,
    UpdateData.postUpdateData (Some "TANK-1") (Num (Fin 1.2)) [] = Some s /\
    UpdateData.fillPercentage s = Fin 0 /\
    UpdateData.flowStatus s = "Normal".
Proof.
  assert (H1 : "TANK-1" <> EmptyString) by discriminate.
  split; [exact H1|]. split; [reflexivity|].
  destruct (update_without_parameters "TANK-1" (Num (Fin 1.2)) 1.2 H1 eq_refl)
    as (s & Hs & Hf & Hfl & _).
  exists s. repeat split; assumption.
Defined.

(** X12.  A request whose [ultra_height] is [null] is handled exactly as
    one whose distance is 0: it is not reported as missing data, and for a
    cylindrical tank of positive diameter and length it stores the full
    volume [PI * (D/2)^2 * L * 1000]. *)
Theorem null_distance_reads_as_zero
    (tank_no : option string) (paramRows : list UpdateData.Params) :
  UpdateData.postUpdateData tank_no Null paramRows
    = UpdateData.postUpdateData tank_no (Num (Fin 0)) paramRows /\
  (forall s, UpdateData.postUpdateData tank_no Null paramRows = Some s ->
     UpdateData.tank_status s <> "No Data") /\
  (forall name p rest D L,
     tank_no = Some name -> name <> EmptyString ->
     UpdateData.trim name <> FIRE_TANK ->
     paramRows = p :: rest ->
     UpdateData.diameter_breadth p = Num (Fin D) -> 0 < D ->
     UpdateData.length p = Num (Fin L) -> 0 < L ->
     exists s,
       UpdateData.postUpdateData tank_no Null paramRows = Some s /\
       UpdateData.currentLevel s
         = Fin (Rtrigo1.PI * (D / 2) * (D / 2) * L * 1000)).
Proof.
  split; [reflexivity|]. split.
  - intros s. unfold UpdateData.postUpdateData.
    destruct tank_no as [[|c rest]|]; try discriminate.
    cbn [Number].
    destruct (UpdateData.computeLevel _ _ _ _ _) as [cur pct].
    unfold UpdateData.decideStatus. cbn [isFinite negb].
    repeat match goal with
           | |- context [if ?c then _ else _] => destruct c
           end; intros H; injection H as <-; cbn; discriminate.
  - intros name p rest D L -> Hne Hfire -> HD Dpos HL Lpos.
    destruct name as [|c rest']; [contradiction Hne; reflexivity|].
    unfold UpdateData.postUpdateData. cbn [hd Number].
    unfold UpdateData.computeLevel.
    apply String.eqb_neq in Hfire. rewrite Hfire, HD, HL.
    cbn [andb isFinite notNullish Number sub max lt].
    rewrite (Rltb_true 0 (D - 0)) by lra.
    rewrite (litres_full D L Dpos Lpos (D - 0)) by lra.
    destruct (UpdateData.decideStatus _ _ _ _ _) as [[flow st] al].
    eexists. split; reflexivity.
Qed.

(* ----------------------------------------------------------------- *)
(** ** The history route against the current route *)

(** The two ways of clamping a depth into [[0, D]] that the routes use
    give the same number, special values included. *)
Lemma clamp_two_ways (raw D : num) :
  gt D (Fin 0) = true ->
  (let depth := if lt raw (Fin 0) then Fin 0 else raw in
   if gt depth D then D else depth)
  = max (Fin 0) (min raw D).
Proof.
  intros HD. cbv zeta.
  destruct D as [| | |d]; try discriminate HD.
  - destruct raw as [| | |x]; try reflexivity.
    cbn [lt gt min max]. unfold Rltb. clamp_split; cbn [lt gt];
      unfold Rltb; clamp_split;
      first [ reflexivity | f_equal; lra | exfalso; lra ].
  - cbn [gt lt] in HD. apply Rltb_spec in HD.
    destruct raw as [| | |x]; cbn [lt gt min max]; unfold Rltb;
      clamp_split; cbn [lt gt min max]; unfold Rltb; clamp_split;
      cbn [lt gt]; unfold Rltb; clamp_split;
      first [ reflexivity | f_equal; lra | exfalso; lra ].
Qed.

Section RoutesAgree.

Variable h : TankHistory.Row.
Variable row : TankCurrent.Row.

Hypothesis same_tank : TankCurrent.tank_no row = Some (TankHistory.tank_no h).
Hypothesis same_distance :
  TankCurrent.ultra_height row = TankHistory.ultra_height h.
Hypothesis same_diameter :
  TankCurrent.diameter_breadth row = TankHistory.diameter_breadth h.
Hypothesis same_length : TankCurrent.length row = TankHistory.length h.
Hypothesis same_capacity :
  TankCurrent.tank_volume row = TankHistory.tank_volume h.

Lemma history_raw_values :
  exists volumeL volumePct depth,
    TankHistory.historyPoint h
    = {| TankHistory.ultra_height_m := TankHistory.ultra_height h;
         TankHistory.water_depth_m := depth;
         TankHistory.tank_volume_l :=
           match TankHistory.tank_volume h with
           | Some v => v
           | None => Fin 0
           end;
         TankHistory.water_volume_l := option_map toFixed1 volumeL;
         TankHistory.volume_percentage := option_map toFixed1 volumePct |} /\
    volumeL = TankCurrent.rawVolumeOf row /\
    option_map toFixed1 volumePct
      = TankCurrent.fillPercentage (TankCurrent.tank_volume row)
          (TankCurrent.rawVolumeOf row) /\
    (TankCurrent.isFireTank (TankCurrent.tank_no row) = true
     \/ gt (TankCurrent.lengthOf row) (Fin 0) = true
     \/ gt (TankCurrent.diameterOf row) (Fin 0) = false ->
     depth = TankCurrent.depthOf row).
Proof.
  unfold TankHistory.historyPoint, TankCurrent.rawVolumeOf,
    TankCurrent.depthOf, TankCurrent.diameterOf, TankCurrent.lengthOf,
    TankCurrent.rawVolume, TankCurrent.resolveDepth,
    TankCurrent.fillPercentage.
  rewrite same_tank, same_distance, same_diameter, same_length, same_capacity.
  cbn [TankCurrent.isFireTank].
  change TankHistory.horizontalCylinderVolume
    with TankCurrent.horizontalCylinderVolume.
  destruct (String.eqb (TankHistory.tank_no h) FIRE_TANK) eqn:Hfire.
  - destruct (TankHistory.ultra_height h) as [s|].
    + do 3 eexists. split; [reflexivity|]. split; [reflexivity|]. split.
      * destruct (TankHistory.tank_volume h) as [c|].
        -- destruct (gt c (Fin 0)); reflexivity.
        -- cbn [gt lt]. rewrite (Rltb_false 0 0) by lra. reflexivity.
      * intros _. reflexivity.
    + do 3 eexists. split; [reflexivity|]. split; [reflexivity|]. split.
      * destruct (TankHistory.tank_volume h); reflexivity.
      * intros _. reflexivity.
  - set (D := match TankHistory.diameter_breadth h with
              | Some d => d | None => Fin 0 end).
    set (L := match TankHistory.length h with
              | Some l => l | None => Fin 0 end).
    destruct (TankHistory.ultra_height h) as [s|].
    + destruct (gt D (Fin 0)) eqn:HD.
      * pose proof (clamp_two_ways (sub D s) D HD) as Hclamp.
        cbv zeta in Hclamp. rewrite Hclamp.
        destruct (gt L (Fin 0)) eqn:HL; cbn [andb].
        -- do 3 eexists. split; [reflexivity|]. split; [reflexivity|]. split.
           ++ destruct (TankHistory.tank_volume h) as [c|].
              ** destruct (gt c (Fin 0)); reflexivity.
              ** cbn [gt lt]. rewrite (Rltb_false 0 0) by lra. reflexivity.
           ++ intros _. reflexivity.
        -- do 3 eexists. split; [reflexivity|]. split; [reflexivity|]. split.
           ++ destruct (TankHistory.tank_volume h); reflexivity.
           ++ intros [Hf|[Hl|Hd]]; discriminate.
      * cbn [andb].
        do 3 eexists. split; [reflexivity|]. split; [reflexivity|]. split.
        -- destruct (TankHistory.tank_volume h); reflexivity.
        -- intros _. reflexivity.
    + do 3 eexists. split; [reflexivity|]. split; [reflexivity|]. split.
      * destruct (TankHistory.tank_volume h); reflexivity.
      * intros _. reflexivity.
Qed.

End RoutesAgree.

(** X13.  From the same tank, distance, dimensions and capacity, the
    history route and the current route compute the same thing: the
    history point's volume is the raw volume of the current object, its
    percentage is the fill percentage of that raw volume, and its depth is
    the current depth whenever the tank is the rectangular one, has a
    positive length, or has no positive diameter. *)
Theorem history_agrees_with_current
    (now : Z) (h : TankHistory.Row) (row : TankCurrent.Row)
    (r : TankCurrent.TankResponse) :
  TankCurrent.tank_no row = Some (TankHistory.tank_no h) ->
  TankCurrent.ultra_height row = TankHistory.ultra_height h ->
  TankCurrent.diameter_breadth row = TankHistory.diameter_breadth h ->
  TankCurrent.length row = TankHistory.length h ->
  TankCurrent.tank_volume row = TankHistory.tank_volume h ->
  TankCurrent.buildTankResponseRow now row = Normal r ->
  TankHistory.water_volume_l (TankHistory.historyPoint h)
    = TankCurrent.raw_reading_volume_l r /\
  (TankCurrent.stale r = false ->
     TankHistory.volume_percentage (TankHistory.historyPoint h)
     = TankCurrent.effective_fill_percentage r) /\
  (TankCurrent.isFireTank (TankCurrent.tank_no row) = true
   \/ gt (TankCurrent.lengthOf row) (Fin 0) = true
   \/ gt (TankCurrent.diameterOf row) (Fin 0) = false ->
   TankHistory.water_depth_m (TankHistory.historyPoint h)
   = TankCurrent.raw_reading_water_depth_m r).
Proof.
  intros Ht Hs HD HL Hc Hr.
  assert (Hvalid : TankCurrent.date_time row <> Some InvalidDate).
  { intros Hd. rewrite (build_throws_on_invalid_date now row Hd) in Hr.
    discriminate Hr. }
  destruct (build_shape now row Hvalid) as (r1 & Hr1 & _ & Hdepth & Hvol & _).
  destruct (build_fill now row Hvalid) as (r2 & Hr2 & Hfill).
  assert (r1 = r) by congruence. assert (r2 = r) by congruence. subst r1 r2.
  destruct (history_raw_values h row Ht Hs HD HL Hc)
    as (volumeL & volumePct & depth & Hpoint & Hv & Hp & Hd).
  rewrite Hpoint. cbn [TankHistory.water_volume_l TankHistory.volume_percentage
                       TankHistory.water_depth_m].
  split; [rewrite Hvol, Hv; reflexivity|]. split.
  - intros Hfresh. rewrite Hfill, Hfresh. exact Hp.
  - intros Hcase. rewrite Hdepth. apply Hd. exact Hcase.
Qed.

Lemma history_agrees_with_current_witness :
  exists r,
    TankCurrent.buildTankResponseRow TankCurrent.scenarioD_now
      TankCurrent.scenarioD_row = Normal r /\
    TankHistory.water_volume_l (TankHistory.historyPoint scenarioD_history)
      = TankCurrent.raw_reading_volume_l r /\
    TankHistory.water_depth_m (TankHistory.historyPoint scenarioD_history)
      = TankCurrent.raw_reading_water_depth_m r.
Proof.
  destruct (build_shape TankCurrent.scenarioD_now TankCurrent.scenarioD_row
              ltac:(discriminate)) as (r & Hr & _).
  exists r. split; [exact Hr|].
  destruct (history_agrees_with_current TankCurrent.scenarioD_now
              scenarioD_history TankCurrent.scenarioD_row r
              eq_refl eq_refl eq_refl eq_refl eq_refl Hr)
    as (Hv & _ & Hd).
  split; [exact Hv|]. apply Hd. right. left.
  cbn. apply Rltb_true. lra.
Defined.

(** X14.  For every tank but the rectangular one the two history routes
    answer the same volume, percentage, distance and capacity, and the
    same depth unless the tank has a positive diameter without a positive
    length, where only the basic route reports a depth. *)
Theorem history_routes_agree (h : TankHistory.Row) :
  TankHistory.tank_no h <> FIRE_TANK ->
  let basic := BasicHistory.historyPoint h in
  let full := TankHistory.historyPoint h in
  let D := match TankHistory.diameter_breadth h with
           | Some d => d | None => Fin 0 end in
  let L := match TankHistory.length h with
           | Some l => l | None => Fin 0 end in
  TankHistory.water_volume_l basic = TankHistory.water_volume_l full /\
  TankHistory.volume_percentage basic = TankHistory.volume_percentage full /\
  TankHistory.ultra_height_m basic = TankHistory.ultra_height_m full /\
  TankHistory.tank_volume_l basic = TankHistory.tank_volume_l full /\
  (gt L (Fin 0) = true \/ gt D (Fin 0) = false -> basic = full) /\
  (gt D (Fin 0) = true -> gt L (Fin 0) = false ->
   forall sensor, TankHistory.ultra_height h = Some sensor ->
     TankHistory.water_depth_m full = None /\
     TankHistory.water_depth_m basic <> None).
Proof.
  intros Hno. cbv zeta.
  apply String.eqb_neq in Hno.
  unfold BasicHistory.historyPoint, TankHistory.historyPoint.
  rewrite Hno.
  change BasicHistory.horizontalCylinderVolume
    with TankHistory.horizontalCylinderVolume.
  set (D := match TankHistory.diameter_breadth h with
            | Some d => d | None => Fin 0 end).
  set (L := match TankHistory.length h with
            | Some l => l | None => Fin 0 end).
  destruct (TankHistory.ultra_height h) as [s|].
  - destruct (gt D (Fin 0)) eqn:HD.
    + pose proof (clamp_two_ways (sub D s) D HD) as Hclamp.
      cbv zeta in Hclamp. rewrite Hclamp.
      destruct (gt L (Fin 0)) eqn:HL; cbn [andb].
      * do 4 (split; [reflexivity|]).
        split; [intros _; reflexivity | intros _ H; discriminate H].
      * do 4 (split; [reflexivity|]).
        split; [intros [H|H]; discriminate H|].
        intros _ _ sensor _. split; [reflexivity | discriminate].
    + cbn [andb]. do 4 (split; [reflexivity|]).
      split; [intros _; reflexivity | intros H; discriminate H].
  - do 4 (split; [reflexivity|]).
    split; [intros _; reflexivity | intros _ _ sensor H; discriminate H].
Qed.

Lemma history_routes_agree_witness :
  TankHistory.tank_no scenarioD_history <> FIRE_TANK /\
  BasicHistory.historyPoint scenarioD_history
    = TankHistory.historyPoint scenarioD_history.
Proof.
  assert (H : TankHistory.tank_no scenarioD_history <> FIRE_TANK)
    by discriminate.
  split; [exact H|].
  destruct (history_routes_agree scenarioD_history H)
    as (_ & _ & _ & _ & Hsame & _).
  apply Hsame. left. cbn. apply Rltb_true. lra.
Defined.

(* ----------------------------------------------------------------- *)
(** ** computeMetrics of routes/tank.js *)

Lemma cards_clamp_fin (n lo hi : R) :
  TankCards.clamp (Fin n) (Fin lo) (Fin hi) = Fin (Rmax lo (Rmin hi n)).
Proof.
  unfold TankCards.clamp. cbn [min max lt]. unfold Rmax, Rmin, Rltb.
  clamp_split; cbn [lt]; unfold Rltb; clamp_split;
    first [ reflexivity | f_equal; lra | exfalso; lra ].
Qed.

(** X15.  [clamp(n, min, max)] on finite numbers is
    [max(min, min(max, n))]: it lies between the bounds when
    [min <= max], is [n] itself when [n] already lies between them, and is
    [min] when the bounds are inverted; a [NaN] input stays [NaN]. *)
Theorem cards_clamp_range (n lo hi : R) :
  TankCards.clamp (Fin n) (Fin lo) (Fin hi) = Fin (Rmax lo (Rmin hi n)) /\
  (lo <= hi -> lo <= Rmax lo (Rmin hi n) <= hi) /\
  (lo <= n <= hi -> TankCards.clamp (Fin n) (Fin lo) (Fin hi) = Fin n) /\
  (hi < lo -> TankCards.clamp (Fin n) (Fin lo) (Fin hi) = Fin lo) /\
  TankCards.clamp NaN (Fin lo) (Fin hi) = NaN.
Proof.
  split; [apply cards_clamp_fin|]. split; [|split; [|split]].
  - intros H. unfold Rmax, Rmin. clamp_split; lra.
  - intros H. rewrite cards_clamp_fin. f_equal.
    unfold Rmax, Rmin. clamp_split; lra.
  - intros H. rewrite cards_clamp_fin. f_equal.
    unfold Rmax, Rmin. clamp_split; lra.
  - reflexivity.
Qed.

Lemma levelPctOf_range (H u : R) :
  H <> 0 ->
  0 <= TankCards.levelPctOf H u <= 100 /\
  (0 < H -> u <= 0 -> TankCards.levelPctOf H u = 100) /\
  (0 < H -> H <= u -> TankCards.levelPctOf H u = 0) /\
  (H < 0 -> TankCards.levelPctOf H u = 0).
Proof.
  intros HH. unfold TankCards.levelPctOf.
  destruct (Rlt_dec 0 H) as [Hpos|Hneg].
  - set (x := Rmax 0 (Rmin H (H - u))).
    assert (Hx : 0 <= x <= H /\ (u <= 0 -> x = H) /\ (H <= u -> x = 0)).
    { unfold x, Rmax, Rmin. clamp_split; repeat split; intros; lra. }
    destruct Hx as ([Hx0 Hx1] & HxH & Hx00).
    assert (Hq : 0 <= x / H <= 1).
    { split.
      - apply Rmult_le_pos; [lra|]. left. apply Rinv_0_lt_compat. exact Hpos.
      - apply Rmult_le_reg_r with H; [exact Hpos|].
        unfold Rdiv. rewrite Rmult_assoc, Rinv_l by lra. lra. }
    repeat split; try lra.
    + intros _ Hu. rewrite (HxH Hu). field. lra.
    + intros _ Hu. rewrite (Hx00 Hu). field. lra.
  - assert (Hx : Rmax 0 (Rmin H (H - u)) = 0).
    { unfold Rmax, Rmin. clamp_split; lra. }
    rewrite Hx. replace (0 / H * 100) with 0 by (field; lra).
    repeat split; try lra.
Qed.

Section ComputedMetrics.

Import TankCards.

Variables (p : Params) (r : Reading) (H u : R).
Hypothesis has_height : height p = Some (Fin H).
Hypothesis height_not_zero : H <> 0.
Hypothesis has_reading : ultra_height r = Some (Fin u).

Lemma computeMetrics_computed :
  let levelPct := Fin (levelPctOf H u) in
  let workingL := mul (capacityOf p) (Fin (levelPctOf H u / 100)) in
  let lowPct :=
    match lower_safe_limit_pct p with Some v => v | None => NaN end in
  let upPct :=
    match upper_safe_limit_pct p with Some v => v | None => NaN end in
  computeMetrics p r = {|
    level_pct := Some (toFixed1 levelPct);
    working_volume_l := Some (toFixed1 workingL);
    free_volume_l :=
      Some (JsMath.round (max (sub (capacityOf p) workingL) (Fin 0)));
    capacity_l := JsMath.round (capacityOf p);
    status_tag :=
      if negb (isNaN lowPct) && negb (isNaN upPct) then
        if ge levelPct upPct then Some "High"
        else if le levelPct lowPct then Some "Low"
        else if noTag (ul_status r) then Some "Normal"
        else ul_status r
      else ul_status r
  |}.
Proof.
  cbv zeta. unfold computeMetrics. rewrite has_height, has_reading.
  cbn [truthy negb]. rewrite (Reqb_false H 0) by exact height_not_zero.
  cbn [negb sub]. rewrite cards_clamp_fin.
  rewrite div_fin by exact height_not_zero.
  cbn [mul]. rewrite div_fin by lra.
  reflexivity.
Qed.

End ComputedMetrics.

(** X16.  For a finite distance and a finite height that is not zero the
    level percentage lies between 0 and 100: it is 100 when the distance
    is 0 or less, 0 when the distance reaches the height, and 0 when the
    height is negative. *)
Theorem level_percentage_range
    (p : TankCards.Params) (r : TankCards.Reading) (H u : R) :
  TankCards.height p = Some (Fin H) -> H <> 0 ->
  TankCards.ultra_height r = Some (Fin u) ->
  exists q,
    TankCards.level_pct (TankCards.computeMetrics p r) = Some (Fin q) /\
    0 <= q <= 100 /\
    (0 < H -> u <= 0 -> q = 100) /\
    (0 < H -> H <= u -> q = 0) /\
    (H < 0 -> q = 0).
Proof.
  intros Hh HH Hu.
  rewrite (computeMetrics_computed p r H u Hh HH Hu).
  cbn [TankCards.level_pct].
  destruct (levelPctOf_range H u HH) as (Hb & H100 & H0 & Hneg).
  assert (Hb' : 0 <= TankCards.levelPctOf H u <= IZR 1000 / 10) by lra.
  destruct (toFixed1_between _ 1000 Hb') as (q & Hq & Hqb).
  { simpl pow. lra. }
  exists q. split; [rewrite Hq; reflexivity|]. split; [lra|].
  assert (Hten : toFixed1 (Fin 100) = Fin 100).
  { replace 100 with (IZR 1000 / 10) by lra.
    apply toFixed1_tenths; [lia | simpl pow; lra]. }
  repeat split.
  - intros Hp Hle. rewrite (H100 Hp Hle), Hten in Hq. congruence.
  - intros Hp Hle. rewrite (H0 Hp Hle), toFixed1_zero in Hq. congruence.
  - intros Hn. rewrite (Hneg Hn), toFixed1_zero in Hq. congruence.
Qed.

Lemma level_percentage_range_witness :
  exists q,
    TankCards.level_pct
      (TankCards.computeMetrics
         {| TankCards.height := Some (Fin 2.5);
            TankCards.tank_volume := Some (Fin 12700);
            TankCards.upper_safe_limit_pct := Some (Fin 80);
            TankCards.lower_safe_limit_pct := Some (Fin 20) |}
         {| TankCards.ultra_height := Some (Fin 1);
            TankCards.lidar_height := None;
            TankCards.ul_status := None |}) = Some (Fin q) /\
    0 <= q <= 100.
Proof.
  destruct (level_percentage_range
              {| TankCards.height := Some (Fin 2.5);
                 TankCards.tank_volume := Some (Fin 12700);
                 TankCards.upper_safe_limit_pct := Some (Fin 80);
                 TankCards.lower_safe_limit_pct := Some (Fin 20) |}
              {| TankCards.ultra_height := Some (Fin 1);
                 TankCards.lidar_height := None;
                 TankCards.ul_status := None |}
              2.5 1 eq_refl ltac:(lra) eq_refl) as (q & Hq & Hb & _).
  exists q. split; assumption.
Defined.

(** X17.  With a finite capacity that is not negative, the working and
    the free volume reported are the roundings of two volumes that add up
    to the capacity, each between 0 and the capacity; the free volume
    reported is a whole number of litres that is not negative. *)
Theorem working_and_free_volume
    (p : TankCards.Params) (r : TankCards.Reading) (H u c : R) :
  TankCards.height p = Some (Fin H) -> H <> 0 ->
  TankCards.ultra_height r = Some (Fin u) ->
  TankCards.tank_volume p = Some (Fin c) -> 0 <= c ->
  exists w f z,
    TankCards.working_volume_l (TankCards.computeMetrics p r)
      = Some (toFixed1 (Fin w)) /\
    TankCards.free_volume_l (TankCards.computeMetrics p r)
      = Some (JsMath.round (Fin f)) /\
    w + f = c /\ 0 <= w <= c /\ 0 <= f <= c /\
    JsMath.round (Fin f) = Fin (IZR z) /\ (0 <= z)%Z.
Proof.
  intros Hh HH Hu Hc Hc0.
  rewrite (computeMetrics_computed p r H u Hh HH Hu).
  cbn [TankCards.working_volume_l TankCards.free_volume_l].
  unfold TankCards.capacityOf. rewrite Hc. cbn [mul sub max lt].
  destruct (levelPctOf_range H u HH) as ([Hlo Hhi] & _).
  set (lp := TankCards.levelPctOf H u) in *.
  assert (Hw : 0 <= c * (lp / 100) <= c) by (split; nra).
  rewrite (Rltb_false (c - c * (lp / 100)) 0) by lra.
  exists (c * (lp / 100)), (c - c * (lp / 100)),
         (Int_part (c - c * (lp / 100) + / 2)).
  split; [reflexivity|]. split; [reflexivity|].
  split; [lra|]. split; [exact Hw|]. split; [lra|].
  split; [reflexivity|].
  assert (Hm : (Int_part 0 <= Int_part (c - c * (lp / 100) + / 2))%Z)
    by (apply Int_part_monotone; lra).
  assert (H0 : Int_part 0 = 0%Z).
  { symmetry. apply Int_part_spec. simpl. lra. }
  lia.
Qed.

Lemma working_and_free_volume_witness :
  exists w f,
    TankCards.working_volume_l
      (TankCards.computeMetrics
         {| TankCards.height := Some (Fin 2.5);
            TankCards.tank_volume := Some (Fin 12700);
            TankCards.upper_safe_limit_pct := Some (Fin 80);
            TankCards.lower_safe_limit_pct := Some (Fin 20) |}
         {| TankCards.ultra_height := Some (Fin 1);
            TankCards.lidar_height := None;
            TankCards.ul_status := None |}) = Some (toFixed1 (Fin w)) /\
    w + f = 12700 /\ 0 <= w <= 12700.
Proof.
  destruct (working_and_free_volume
              {| TankCards.height := Some (Fin 2.5);
                 TankCards.tank_volume := Some (Fin 12700);
                 TankCards.upper_safe_limit_pct := Some (Fin 80);
                 TankCards.lower_safe_limit_pct := Some (Fin 20) |}
              {| TankCards.ultra_height := Some (Fin 1);
                 TankCards.lidar_height := None;
                 TankCards.ul_status := None |}
              2.5 1 12700 eq_refl ltac:(lra) eq_refl eq_refl ltac:(lra))
    as (w & f & z & Hw & _ & Hsum & Hb & _).
  exists w, f. repeat split; try assumption; lra.
Defined.

Lemma computeMetrics_minimal (p : TankCards.Params) (r : TankCards.Reading) :
  truthy (TankCards.heightOf p) = false \/ TankCards.ultra_height r = None ->
  TankCards.computeMetrics p r = {|
    TankCards.level_pct := None;
    TankCards.working_volume_l := None;
    TankCards.free_volume_l := None;
    TankCards.capacity_l := TankCards.capacityOf p;
    TankCards.status_tag := TankCards.ul_status r
  |}.
Proof.
  unfold TankCards.computeMetrics, TankCards.heightOf, TankCards.capacityOf.
  intros [Hh|Hu].
  - rewrite Hh. reflexivity.
  - rewrite Hu. destruct (truthy _); reflexivity.
Qed.

(** X18.  The three computed fields are [null] together, exactly when the
    height is missing, zero or [NaN] or the reading has no distance; the
    capacity is then passed on as it is, and rounded to a whole number of
    litres otherwise. *)
Theorem metrics_present_together
    (p : TankCards.Params) (r : TankCards.Reading) :
  let m := TankCards.computeMetrics p r in
  let missing :=
    truthy (TankCards.heightOf p) = false \/ TankCards.ultra_height r = None in
  (missing <-> TankCards.level_pct m = None) /\
  (missing <-> TankCards.working_volume_l m = None) /\
  (missing <-> TankCards.free_volume_l m = None) /\
  (missing -> TankCards.capacity_l m = TankCards.capacityOf p) /\
  (~ missing ->
     TankCards.capacity_l m = JsMath.round (TankCards.capacityOf p)).
Proof.
  cbv zeta.
  destruct (truthy (TankCards.heightOf p)) eqn:Hh.
  - destruct (TankCards.ultra_height r) as [ul|] eqn:Hu.
    + assert (Hm : ~ (true = false \/ Some ul = None))
        by (intros [H|H]; discriminate H).
      unfold TankCards.computeMetrics.
      unfold TankCards.heightOf in Hh. rewrite Hh, Hu. cbn.
      repeat split; try (intros H; contradiction (Hm H));
        try discriminate; reflexivity.
    + rewrite computeMetrics_minimal by (right; exact Hu). cbn.
      repeat split; try reflexivity; try (intros _; right; reflexivity).
      intros H. contradiction H. right. reflexivity.
  - rewrite computeMetrics_minimal by (left; exact Hh). cbn.
    repeat split; try reflexivity; try (intros _; left; reflexivity).
    intros H. contradiction H. left. reflexivity.
Qed.

(** X19.  Unless both safe limits are configured, [computeMetrics] passes
    the sensor's own status on unchanged.  With both limits, a finite
    distance and a finite height that is not zero, the tag is "High",
    "Low" or the sensor's status ("Normal" when that is empty), decided by
    a level percentage that stays within 0 and 100: an upper limit of 0
    or less always gives "High"; with an upper limit above 100 the tag is
    "Low" when the lower limit is 100 or more and the sensor's status when
    the lower limit is below 0.  A full tank, with a distance of 0 or
    less, is rated at 100 exactly, and an empty one, with a distance that
    reaches the height or a negative height, at 0 exactly. *)
Theorem status_tag_rules (p : TankCards.Params) (r : TankCards.Reading) :
  (TankCards.lower_safe_limit_pct p = None
   \/ TankCards.upper_safe_limit_pct p = None ->
   TankCards.status_tag (TankCards.computeMetrics p r)
   = TankCards.ul_status r) /\
  (forall H u lo up : R,
     TankCards.height p = Some (Fin H) -> H <> 0 ->
     TankCards.ultra_height r = Some (Fin u) ->
     TankCards.lower_safe_limit_pct p = Some (Fin lo) ->
     TankCards.upper_safe_limit_pct p = Some (Fin up) ->
     let tag := TankCards.status_tag (TankCards.computeMetrics p r) in
     let between :=
       if TankCards.noTag (TankCards.ul_status r) then Some "Normal"
       else TankCards.ul_status r in
     (tag = Some "High" \/ tag = Some "Low" \/ tag = between) /\
     (up <= 0 -> tag = Some "High") /\
     (100 < up -> 100 <= lo -> tag = Some "Low") /\
     (100 < up -> lo < 0 -> tag = between) /\
     (0 < H -> u <= 0 ->
        (up <= 100 -> tag = Some "High") /\
        (100 < up -> 100 <= lo -> tag = Some "Low") /\
        (100 < up -> lo < 100 -> tag = between)) /\
     (H < 0 \/ 0 < H <= u ->
        (up <= 0 -> tag = Some "High") /\
        (0 < up -> 0 <= lo -> tag = Some "Low") /\
        (0 < up -> lo < 0 -> tag = between))).
Proof.
  split.
  - intros Hlim. unfold TankCards.computeMetrics.
    destruct (negb (truthy _)); [reflexivity|].
    destruct (TankCards.ultra_height r); [|reflexivity].
    cbn [TankCards.status_tag].
    destruct Hlim as [-> | ->]; cbn [isNaN negb andb]; [reflexivity|].
    rewrite andb_false_r. reflexivity.
  - intros H u lo up Hh HH Hu Hlo Hup. cbv zeta.
    rewrite (computeMetrics_computed p r H u Hh HH Hu).
    cbn [TankCards.status_tag]. rewrite Hlo, Hup.
    cbn [isNaN negb andb ge le].
    destruct (levelPctOf_range H u HH) as ([P0 P100] & Pfull & Pempty & Pneg).
    set (pct := TankCards.levelPctOf H u) in *.
    assert (Hrule :
      (up <= pct ->
       (if Rleb up pct then Some "High"
        else if Rleb pct lo then Some "Low"
        else if TankCards.noTag (TankCards.ul_status r) then Some "Normal"
        else TankCards.ul_status r) = Some "High") /\
      (pct < up -> pct <= lo ->
       (if Rleb up pct then Some "High"
        else if Rleb pct lo then Some "Low"
        else if TankCards.noTag (TankCards.ul_status r) then Some "Normal"
        else TankCards.ul_status r) = Some "Low") /\
      (lo < pct < up ->
       (if Rleb up pct then Some "High"
        else if Rleb pct lo then Some "Low"
        else if TankCards.noTag (TankCards.ul_status r) then Some "Normal"
        else TankCards.ul_status r)
       = if TankCards.noTag (TankCards.ul_status r) then Some "Normal"
         else TankCards.ul_status r)).
    { repeat split.
      - intros Hge. rewrite Rleb_true by exact Hge. reflexivity.
      - intros Hlt Hle. rewrite Rleb_false by exact Hlt.
        rewrite Rleb_true by exact Hle. reflexivity.
      - intros [Hgt Hlt]. rewrite Rleb_false by exact Hlt.
        rewrite Rleb_false by exact Hgt. reflexivity. }
    destruct Hrule as (Rhigh & Rlow & Rmid).
    split; [|split; [|split; [|split; [|split]]]].
    + destruct (Rle_dec up pct) as [A|A]; [left; apply Rhigh; exact A|].
      destruct (Rle_dec pct lo) as [B|B].
      * right; left. apply Rlow; lra.
      * right; right. apply Rmid; lra.
    + intros A. apply Rhigh. lra.
    + intros A B. apply Rlow; lra.
    + intros A B. apply Rmid; lra.
    + intros Hpos Hfull. rewrite (Pfull Hpos Hfull) in *.
      repeat split.
      * intros A. apply Rhigh. lra.
      * intros A B. apply Rlow; lra.
      * intros A B. apply Rmid; lra.
    + intros Hempty.
      assert (E : pct = 0).
      { destruct Hempty as [Hn|[Hp Hle]];
          [apply Pneg; exact Hn | apply Pempty; assumption]. }
      rewrite E in *. repeat split.
      * intros A. apply Rhigh. lra.
      * intros A B. apply Rlow; lra.
      * intros A B. apply Rmid; lra.
Qed.

(* ----------------------------------------------------------------- *)
(** ** Rounding to a number of digits *)








(* ----------------------------------------------------------------- *)
(** ** The analysis of routes/tank.js *)

Section Analysis.

Import TankCards.

Lemma analysis_by_sensor (rows : list Sample) :
  analysis rows
  = match rows with
    | [] => None
    | _ =>
        Some (summary (fold_left runStep (map s_ultra_height rows) runStart),
              summary (fold_left runStep (map s_lidar_height rows) runStart))
    end.
Proof.
  unfold analysis.
  assert (H : forall l a b,
            fold_left
              (fun acc r =>
                 (runStep (fst acc) (s_ultra_height r),
                  runStep (snd acc) (s_lidar_height r))) l (a, b)
            = (fold_left runStep (map s_ultra_height l) a,
               fold_left runStep (map s_lidar_height l) b)).
  { induction l as [|r l IH]; intros a b; [reflexivity|].
    cbn [fold_left map fst snd]. apply IH. }
  destruct rows as [|r rows]; [reflexivity|].
  rewrite H. reflexivity.
Qed.

Lemma runStep_count (acc : Running) (reading : option num) :
  runCount (runStep acc reading)
  = (runCount acc + if counted reading then 1 else 0)%nat.
Proof.
  unfold runStep, counted. destruct reading as [v|]; [|lia].
  destruct (negb (isNaN v)); cbn [runCount]; lia.
Qed.

Lemma fold_count (readings : list (option num)) (acc : Running) :
  runCount (fold_left runStep readings acc)
  = (runCount acc + List.length (filter counted readings))%nat.
Proof.
  revert acc. induction readings as [|x l IH]; intros acc.
  - cbn. lia.
  - cbn [fold_left filter]. rewrite IH, runStep_count.
    destruct (counted x); cbn [List.length]; lia.
Qed.

Lemma summary_samples (acc : Running) :
  samples (summary acc) = runCount acc /\
  (runCount acc = 0%nat <-> sum_min (summary acc) = None) /\
  (runCount acc = 0%nat <-> sum_max (summary acc) = None) /\
  (runCount acc = 0%nat <-> sum_avg (summary acc) = None).
Proof.
  unfold summary. destruct (runCount acc) as [|n]; cbn.
  - repeat split; reflexivity.
  - repeat split; try reflexivity; discriminate.
Qed.






End Analysis.

(** X20.  The analysis is [null] exactly when there are no rows.
    Otherwise, for each sensor, [samples] is the number of readings that
    are neither [null] nor [NaN], hence at most the number of rows, and
    [min], [max] and [avg] are [null] exactly when [samples] is 0. *)
Theorem analysis_sample_counts (rows : list TankCards.Sample) :
  (TankCards.analysis rows = None <-> rows = []) /\
  (forall u l, TankCards.analysis rows = Some (u, l) ->
     (TankCards.samples u
        = List.length (filter TankCards.counted
                         (map TankCards.s_ultra_height rows)) /\
      (TankCards.samples u <= List.length rows)%nat /\
      (TankCards.samples u = 0%nat <-> TankCards.sum_min u = None) /\
      (TankCards.samples u = 0%nat <-> TankCards.sum_max u = None) /\
      (TankCards.samples u = 0%nat <-> TankCards.sum_avg u = None)) /\
     (TankCards.samples l
        = List.length (filter TankCards.counted
                         (map TankCards.s_lidar_height rows)) /\
      (TankCards.samples l <= List.length rows)%nat /\
      (TankCards.samples l = 0%nat <-> TankCards.sum_min l = None) /\
      (TankCards.samples l = 0%nat <-> TankCards.sum_max l = None) /\
      (TankCards.samples l = 0%nat <-> TankCards.sum_avg l = None))).
Proof.
  rewrite analysis_by_sensor. split.
  - destruct rows; split; intros H; try reflexivity; discriminate H.
  - intros u l Hres.
    assert (Hone : forall (readings : list (option num)),
              List.length readings = List.length rows ->
              let s := TankCards.summary
                         (fold_left TankCards.runStep readings
                            TankCards.runStart) in
              TankCards.samples s
                = List.length (filter TankCards.counted readings) /\
              (TankCards.samples s <= List.length rows)%nat /\
              (TankCards.samples s = 0%nat <-> TankCards.sum_min s = None) /\
              (TankCards.samples s = 0%nat <-> TankCards.sum_max s = None) /\
              (TankCards.samples s = 0%nat <-> TankCards.sum_avg s = None)).
    { intros readings Hlen. cbv zeta.
      destruct (summary_samples
                  (fold_left TankCards.runStep readings TankCards.runStart))
        as (Hs & Hmin & Hmax & Havg).
      rewrite Hs, fold_count. cbn [TankCards.runStart TankCards.runCount Nat.add].
      split; [reflexivity|]. split.
      - rewrite <- Hlen. apply filter_length_le.
      - rewrite fold_count in Hmin, Hmax, Havg.
        cbn [TankCards.runStart TankCards.runCount Nat.add] in Hmin, Hmax, Havg.
        repeat split; tauto. }
    destruct rows as [|r rows']; [discriminate Hres|].
    injection Hres as <- <-.
    pose proof (Hone (map TankCards.s_ultra_height (r :: rows'))
                  (length_map _ _)) as Hu.
    pose proof (Hone (map TankCards.s_lidar_height (r :: rows'))
                  (length_map _ _)) as Hl.
    cbv zeta in Hu, Hl. split; [exact Hu | exact Hl].
Qed.



(* ----------------------------------------------------------------- *)
(** ** Masked passwords *)

Lemma length_stars (n : nat) : String.length (stars n) = n.
Proof. induction n as [|k IH]; cbn; [reflexivity | rewrite IH; reflexivity]. Qed.

Lemma length_append (s t : string) :
  String.length (s ++ t) = (String.length s + String.length t)%nat.
Proof. induction s as [|c s IH]; cbn; [reflexivity | rewrite IH; reflexivity]. Qed.

Lemma substring_is_prefix (n : nat) (s : string) :
  exists rest, s = (substring 0 n s ++ rest)%string /\
    String.length (substring 0 n s) = Nat.min n (String.length s).
Proof.
  revert s. induction n as [|k IH]; intros s.
  - exists s. destruct s; cbn; split; reflexivity.
  - destruct s as [|c s].
    + exists EmptyString. cbn. split; reflexivity.
    + destruct (IH s) as (rest & Hs & Hl). exists rest. cbn. split.
      * rewrite <- Hs. reflexivity.
      * rewrite Hl. reflexivity.
Qed.

(** X22.  [maskPassword] of users.js never shows more than the first two
    characters of the secret: the mask is at most 5 characters long, made
    of at most two leading characters of the secret followed by stars; a
    secret of one or two characters is hidden entirely, an absent or empty
    one gives five stars, and two secrets longer than two characters that
    start with the same two characters have the same mask. *)
Theorem users_mask_shows_two_characters (pw : option string) :
  (String.length (Users.maskPassword pw) <= 5)%nat /\
  showsOnlyPrefix pw (Users.maskPassword pw) /\
  (forall s, pw = Some s -> (1 <= String.length s <= 2)%nat ->
     Users.maskPassword pw = stars (String.length s)) /\
  (pw = None \/ pw = Some EmptyString -> Users.maskPassword pw = stars 5) /\
  (forall s1 s2,
     (2 < String.length s1)%nat -> (2 < String.length s2)%nat ->
     substring 0 2 s1 = substring 0 2 s2 ->
     Users.maskPassword (Some s1) = Users.maskPassword (Some s2)).
Proof.
  split; [|split; [|split; [|split]]].
  - destruct pw as [[|c s]|]; cbn [Users.maskPassword]; try (cbn; lia).
    destruct (Nat.leb_spec (String.length (String c s)) 2) as [H|H].
    + rewrite length_stars. lia.
    + destruct (substring_is_prefix 2 (String c s)) as (rest & _ & Hl).
      rewrite length_append, length_stars, Hl. lia.
  - unfold showsOnlyPrefix.
    destruct pw as [[|c s]|]; cbn [Users.maskPassword].
    + exists EmptyString, 5%nat. cbn. repeat split; try lia. left; reflexivity.
    + destruct (Nat.leb_spec (String.length (String c s)) 2) as [H|H].
      * exists EmptyString, (String.length (String c s)). cbn [append].
        repeat split; try (cbn; lia). left; reflexivity.
      * destruct (substring_is_prefix 2 (String c s)) as (rest & Hs & Hl).
        exists (substring 0 2 (String c s)), 3%nat.
        split; [reflexivity|]. split; [rewrite Hl; lia|].
        right. exists (String c s), rest. split; [reflexivity | exact Hs].
    + exists EmptyString, 5%nat. cbn. repeat split; try lia. left; reflexivity.
  - intros s -> [H1 H2]. destruct s as [|c s]; [cbn in H1; lia|].
    cbn [Users.maskPassword].
    destruct (Nat.leb_spec (String.length (String c s)) 2); [reflexivity|lia].
  - intros [-> | ->]; reflexivity.
  - intros s1 s2 H1 H2 Hsame.
    destruct s1 as [|c1 s1]; [cbn in H1; lia|].
    destruct s2 as [|c2 s2]; [cbn in H2; lia|].
    cbn [Users.maskPassword].
    destruct (Nat.leb_spec (String.length (String c1 s1)) 2); [lia|].
    destruct (Nat.leb_spec (String.length (String c2 s2)) 2); [lia|].
    rewrite Hsame. reflexivity.
Qed.

(** X23.  [maskPassword] of auth.js hides a secret of up to four
    characters entirely, and of a longer one shows the first two
    characters followed by six stars: the mask is at most 8 characters
    long and two secrets longer than four characters that start with the
    same two characters have the same mask. *)
Theorem auth_mask_shows_two_characters (pw : option string) :
  (String.length (Auth.maskPassword pw) <= 8)%nat /\
  showsOnlyPrefix pw (Auth.maskPassword pw) /\
  (forall s, pw = Some s -> (1 <= String.length s <= 4)%nat ->
     Auth.maskPassword pw = stars (String.length s)) /\
  (pw = None \/ pw = Some EmptyString -> Auth.maskPassword pw = stars 5) /\
  (forall s1 s2,
     (4 < String.length s1)%nat -> (4 < String.length s2)%nat ->
     substring 0 2 s1 = substring 0 2 s2 ->
     Auth.maskPassword (Some s1) = Auth.maskPassword (Some s2)).
Proof.
  split; [|split; [|split; [|split]]].
  - destruct pw as [[|c s]|]; cbn [Auth.maskPassword]; try (cbn; lia).
    destruct (Nat.leb_spec (String.length (String c s)) 4) as [H|H].
    + rewrite length_stars. lia.
    + destruct (substring_is_prefix 2 (String c s)) as (rest & _ & Hl).
      rewrite length_append, length_stars, Hl. lia.
  - unfold showsOnlyPrefix.
    destruct pw as [[|c s]|]; cbn [Auth.maskPassword].
    + exists EmptyString, 5%nat. cbn. repeat split; try lia. left; reflexivity.
    + destruct (Nat.leb_spec (String.length (String c s)) 4) as [H|H].
      * exists EmptyString, (String.length (String c s)). cbn [append].
        repeat split; try (cbn; lia). left; reflexivity.
      * destruct (substring_is_prefix 2 (String c s)) as (rest & Hs & Hl).
        exists (substring 0 2 (String c s)), 6%nat.
        split; [reflexivity|]. split; [rewrite Hl; lia|].
        right. exists (String c s), rest. split; [reflexivity | exact Hs].
    + exists EmptyString, 5%nat. cbn. repeat split; try lia. left; reflexivity.
  - intros s -> [H1 H2]. destruct s as [|c s]; [cbn in H1; lia|].
    cbn [Auth.maskPassword].
    destruct (Nat.leb_spec (String.length (String c s)) 4); [reflexivity|lia].
  - intros [-> | ->]; reflexivity.
  - intros s1 s2 H1 H2 Hsame.
    destruct s1 as [|c1 s1]; [cbn in H1; lia|].
    destruct s2 as [|c2 s2]; [cbn in H2; lia|].
    cbn [Auth.maskPassword].
    destruct (Nat.leb_spec (String.length (String c1 s1)) 4); [lia|].
    destruct (Nat.leb_spec (String.length (String c2 s2)) 4); [lia|].
    rewrite Hsame. reflexivity.
Qed.

(* ----------------------------------------------------------------- *)
(** ** Paging *)

Lemma max_with_one (x : num) :
  isNaN x = false -> le (Fin 1) (max x (Fin 1)) = true.
Proof.
  destruct x as [| | |a]; intros H; try discriminate H; cbn [max lt le].
  - reflexivity.
  - apply Rleb_true. lra.
  - unfold Rltb. destruct (Rlt_dec a 1); cbn [le]; apply Rleb_true; lra.
Qed.

Lemma orDefault_not_NaN (x : num) (d : R) :
  isNaN (Paging.orDefault x (Fin d)) = false.
Proof.
  unfold Paging.orDefault. destruct x as [| | |a]; cbn [truthy]; try reflexivity.
  destruct (negb (Reqb a 0)); reflexivity.
Qed.

(** X24.  In reports.js the page and the limit sent to the query are
    never below 1 and never [NaN], whatever was parsed from the request: a
    missing, unreadable or zero value gives page 1 and limit 10, and
    finite parsed values give a finite page and a finite limit.  With a
    finite limit the offset is a number that is not negative; with an
    infinite limit and page 1 it is [NaN]. *)
Theorem reports_paging_bounds (parsedPage parsedLimit : num) :
  let page := fst (fst (Paging.reportsPaging parsedPage parsedLimit)) in
  let limit := snd (fst (Paging.reportsPaging parsedPage parsedLimit)) in
  let offset := snd (Paging.reportsPaging parsedPage parsedLimit) in
  le (Fin 1) page = true /\
  le (Fin 1) limit = true /\
  (truthy parsedPage = false -> page = Fin 1) /\
  (truthy parsedLimit = false -> limit = Fin 10) /\
  (isFinite parsedPage = true -> isFinite page = true) /\
  (isFinite parsedLimit = true ->
   isFinite limit = true /\ le (Fin 0) offset = true) /\
  (truthy parsedPage = false -> parsedLimit = PInf -> offset = NaN).
Proof.
  cbv zeta. unfold Paging.reportsPaging. cbn [fst snd].
  assert (Hfinite : forall (x : num) (d : R), 1 <= d ->
            isFinite x = true ->
            exists v, max (Paging.orDefault x (Fin d)) (Fin 1) = Fin v
                      /\ 1 <= v).
  { intros x d Hd Hx. destruct x as [| | |a]; try discriminate Hx.
    unfold Paging.orDefault. cbn [truthy].
    destruct (negb (Reqb a 0)); cbn [max lt]; unfold Rltb;
      clamp_split; eexists; (split; [reflexivity | lra]). }
  split; [apply max_with_one, orDefault_not_NaN|].
  split; [apply max_with_one, orDefault_not_NaN|].
  split; [|split; [|split; [|split]]].
  - intros H. unfold Paging.orDefault. rewrite H. cbn [max lt].
    rewrite Rltb_false by lra. reflexivity.
  - intros H. unfold Paging.orDefault. rewrite H. cbn [max lt].
    rewrite Rltb_false by lra. reflexivity.
  - intros Hp. destruct (Hfinite parsedPage 1 ltac:(lra) Hp) as (p & Ep & _).
    rewrite Ep. reflexivity.
  - intros Hl.
    destruct (Hfinite parsedLimit 10 ltac:(lra) Hl) as (l & El & Hl1).
    rewrite El. split; [reflexivity|].
    pose proof (max_with_one (Paging.orDefault parsedPage (Fin 1))
                  (orDefault_not_NaN parsedPage 1)) as Hpage.
    destruct (max (Paging.orDefault parsedPage (Fin 1)) (Fin 1))
      as [| | |p]; cbn [le] in Hpage; try discriminate Hpage.
    + cbn [sub mul]. unfold scaleInf. rewrite Rltb_true by lra. reflexivity.
    + apply Rleb_spec in Hpage. cbn [sub mul le]. apply Rleb_true. nra.
  - intros Hp ->. unfold Paging.orDefault. rewrite Hp. cbn [truthy max lt].
    rewrite Rltb_false by lra. cbn [sub mul]. unfold scaleInf.
    replace (1 - 1) with 0 by ring.
    rewrite !Rltb_false by lra. reflexivity.
Qed.

(** X25.  With a limit of at least 1 the number of pages announced covers
    the records exactly: for [total] records and [limit] per page it is
    the whole number [n] with [(n - 1) * limit < total <= n * limit], and
    0 when there are no records. *)
Theorem pages_cover_all_records (total limit : Z) :
  (0 <= total)%Z -> (1 <= limit)%Z ->
  exists n,
    Paging.totalPages (Fin (IZR total)) (Fin (IZR limit)) = Fin (IZR n) /\
    ((n - 1) * limit < total <= n * limit)%Z /\
    (total = 0%Z -> n = 0%Z).
Proof.
  intros Ht Hk. unfold Paging.totalPages.
  assert (HkR : 1 <= IZR limit) by (apply IZR_le in Hk; exact Hk).
  rewrite div_fin by lra. cbn [JsMath.ceil].
  set (q := IZR total / IZR limit).
  exists (- Int_part (- q))%Z. split; [reflexivity|].
  destruct (base_Int_part (- q)) as [Hlo Hhi].
  set (i := Int_part (- q)) in *.
  assert (Hq : q * IZR limit = IZR total) by (unfold q; field; lra).
  assert (H1 : IZR ((- i - 1) * limit) < IZR total).
  { rewrite mult_IZR, minus_IZR, opp_IZR. nra. }
  assert (H2 : IZR total <= IZR (- i * limit)).
  { rewrite mult_IZR, opp_IZR. nra. }
  apply lt_IZR in H1. apply le_IZR in H2.
  split; [split; assumption|].
  intros ->. nia.
Qed.

Lemma pages_cover_all_records_witness :
  (0 <= 23)%Z /\ (1 <= 10)%Z /\
  exists n,
    Paging.totalPages (Fin (IZR 23)) (Fin (IZR 10)) = Fin (IZR n) /\
    ((n - 1) * 10 < 23 <= n * 10)%Z.
Proof.
  split; [lia|]. split; [lia|].
  destruct (pages_cover_all_records 23 10 ltac:(lia) ltac:(lia))
    as (n & Hn & Hb & _).
  exists n. split; assumption.
Defined.

(** X26.  The sms-log route bounds its limit from above only: the limit
    never exceeds 100 and is never [NaN], but a negative value parsed from
    the request is kept as it is, and from page 2 on the offset is then
    negative. *)
Theorem smslog_limit_bounded_above_only (parsedPage parsedLimit : num) :
  let page := fst (fst (Paging.smsLogPaging parsedPage parsedLimit)) in
  let limit := snd (fst (Paging.smsLogPaging parsedPage parsedLimit)) in
  let offset := snd (Paging.smsLogPaging parsedPage parsedLimit) in
  le limit (Fin 100) = true /\
  le (Fin 1) page = true /\
  (forall l, parsedLimit = Fin l -> l < 0 -> limit = Fin l) /\
  (forall p l, parsedPage = Fin p -> 2 <= p -> parsedLimit = Fin l -> l < 0 ->
     exists o, offset = Fin o /\ o < 0).
Proof.
  cbv zeta. unfold Paging.smsLogPaging. cbn [fst snd].
  split; [|split; [|split]].
  - unfold Paging.orDefault.
    destruct parsedLimit as [| | |b]; cbn [truthy min lt le].
    + rewrite Rltb_false by lra. cbn [le]. apply Rleb_true. lra.
    + apply Rleb_true. lra.
    + reflexivity.
    + destruct (negb (Reqb b 0)); cbn [min lt]; unfold Rltb;
        clamp_split; cbn [le]; apply Rleb_true; lra.
  - apply max_with_one, orDefault_not_NaN.
  - intros l -> Hl. unfold Paging.orDefault. cbn [truthy].
    rewrite Reqb_false by lra. cbn [negb min lt].
    rewrite Rltb_false by lra. reflexivity.
  - intros p l -> Hp -> Hl. unfold Paging.orDefault. cbn [truthy].
    rewrite (Reqb_false p 0), (Reqb_false l 0) by lra.
    cbn [negb min max lt]. rewrite (Rltb_false p 1), (Rltb_false 100 l) by lra.
    cbn [sub mul]. eexists. split; [reflexivity|]. nra.
Qed.

(** X27.  For an offline period of a whole, non-negative number of
    minutes the duration shown splits it exactly: [60 * hrs + mins] is the
    number of minutes, with [mins] from 0 to 59; a period of 180 minutes
    or more shows at least 3 hours. *)
Theorem duration_splits_minutes (m : Z) :
  (0 <= m)%Z ->
  let hrs := fst (Paging.duration m) in
  let mins := snd (Paging.duration m) in
  (60 * hrs + mins = m)%Z /\ (0 <= mins < 60)%Z /\ (0 <= hrs)%Z /\
  ((180 <= m)%Z -> (3 <= hrs)%Z).
Proof.
  intros Hm. cbv zeta. unfold Paging.duration. cbn [fst snd].
  rewrite Z.rem_mod_nonneg by lia.
  pose proof (Z.div_mod m 60 ltac:(lia)) as Hdm.
  pose proof (Z.mod_pos_bound m 60 ltac:(lia)) as Hb.
  repeat split; try lia.
Qed.

Lemma duration_splits_minutes_witness :
  (0 <= 200)%Z /\
  (60 * fst (Paging.duration 200) + snd (Paging.duration 200) = 200)%Z /\
  (0 <= snd (Paging.duration 200) < 60)%Z.
Proof.
  split; [lia|].
  destruct (duration_splits_minutes 200 ltac:(lia)) as (Hsum & Hmins & _).
  split; assumption.
Defined.

(* ----------------------------------------------------------------- *)
(** ** The statements planned by routes/tankUpdate.js *)

Section TankUpdateFacts.

Import TankUpdate.

Variable V : Type.
Variable falsy : V -> bool.

Lemma collect_from (fieldMap : list (string * string)) (req : Request V)
    (updates : list string) (params : list V) :
  fold_left
    (fun acc entry =>
       match readField V req (fst entry) with
       | Given value =>
           ((fst acc ++ [(snd entry ++ " = ?")%string])%list,
            (snd acc ++ [value])%list)
       | Undefined => acc
       end)
    fieldMap (updates, params)
  = ((updates ++ map (fun cv => (fst cv ++ " = ?")%string)
                   (supplied V fieldMap req))%list,
     (params ++ map snd (supplied V fieldMap req))%list).
Proof.
  revert updates params.
  induction fieldMap as [|entry rest IH]; intros updates params.
  - cbn. rewrite !app_nil_r. reflexivity.
  - cbn [fold_left supplied flat_map].
    destruct (readField V req (fst entry)) as [|value].
    + cbn [app]. apply IH.
    + rewrite IH. cbn [fst snd app map]. rewrite <- !app_assoc. reflexivity.
Qed.

Lemma collect_supplied (fieldMap : list (string * string)) (req : Request V) :
  collect V fieldMap req
  = (map (fun cv => (fst cv ++ " = ?")%string) (supplied V fieldMap req),
     map snd (supplied V fieldMap req)).
Proof. unfold collect. rewrite collect_from. reflexivity. Qed.

Lemma supplied_columns (fieldMap : list (string * string)) (req : Request V)
    (column : string) (value : V) :
  In (column, value) (supplied V fieldMap req) ->
  exists input, In (input, column) fieldMap /\
                readField V req input = Given value.
Proof.
  unfold supplied. intros H. apply in_flat_map in H.
  destruct H as ([input col] & Hin & Hval). cbn [fst snd] in Hval.
  destruct (readField V req input) as [|v] eqn:E; [contradiction|].
  destruct Hval as [Heq|[]]. injection Heq as <- <-.
  exists input. split; assumption.
Qed.

End TankUpdateFacts.

(** X28.  [readField] prefers the body: a field the body owns is read
    from the body, whatever the query holds.  The loop over a field map
    yields, in the order of the map, one [column = ?] update and one
    parameter for each field supplied with a defined value and nothing for
    the others, so updates and parameters have the same length and every
    column updated is one of the map, read from its own input. *)
Theorem collect_follows_supplied_fields
    (V : Type) (fieldMap : list (string * string))
    (req : TankUpdate.Request V) :
  let updates := fst (TankUpdate.collect V fieldMap req) in
  let params := snd (TankUpdate.collect V fieldMap req) in
  updates = map (fun cv => (fst cv ++ " = ?")%string)
              (TankUpdate.supplied V fieldMap req) /\
  params = map snd (TankUpdate.supplied V fieldMap req) /\
  List.length updates = List.length params /\
  (List.length updates <= List.length fieldMap)%nat /\
  (forall column value,
     In (column, value) (TankUpdate.supplied V fieldMap req) ->
     exists input, In (input, column) fieldMap /\
                   TankUpdate.readField V req input = TankUpdate.Given value) /\
  (forall b name,
     TankUpdate.body req = Some b ->
     TankUpdate.hasOwnProperty V b name = true ->
     TankUpdate.readField V req name = TankUpdate.property V b name).
Proof.
  cbv zeta. rewrite collect_supplied. cbn [fst snd].
  split; [reflexivity|]. split; [reflexivity|].
  split; [rewrite !length_map; reflexivity|]. split; [|split].
  - rewrite length_map. unfold TankUpdate.supplied.
    induction fieldMap as [|entry rest IH]; [cbn; lia|].
    cbn [flat_map]. rewrite length_app.
    destruct (TankUpdate.readField V req (fst entry)); cbn [List.length]; lia.
  - apply supplied_columns.
  - intros b name Hb Hown. unfold TankUpdate.readField.
    rewrite Hb, Hown. reflexivity.
Qed.

(** X29.  Given a [tank_no] that is not falsy, [handleTankUpdate] answers
    NO_FIELDS_TO_UPDATE exactly when the request supplies none of the
    twelve known fields, whatever else it carries.  Otherwise each
    statement that has an update gets its parameters followed by
    [tank_no], one parameter more than it has updates, and a statement
    without update gets no parameter. *)
Theorem tank_update_plan
    (V : Type) (falsy : V -> bool) (req : TankUpdate.Request V) (tank_no : V) :
  TankUpdate.readField V req "tank_no" = TankUpdate.Given tank_no ->
  falsy tank_no = false ->
  let master := TankUpdate.supplied V TankUpdate.masterFieldMap req in
  let spec := TankUpdate.supplied V TankUpdate.specFieldMap req in
  let params (fields : list (string * V)) :=
    match fields with
    | [] => []
    | _ => (map snd fields ++ [tank_no])%list
    end in
  (TankUpdate.handleTankUpdate V falsy req
     = TankUpdate.BadRequest "NO_FIELDS_TO_UPDATE"
   <-> master = [] /\ spec = []) /\
  (master <> [] \/ spec <> [] ->
   TankUpdate.handleTankUpdate V falsy req
   = TankUpdate.Statements
       (map (fun cv => (fst cv ++ " = ?")%string) master) (params master)
       (map (fun cv => (fst cv ++ " = ?")%string) spec) (params spec)) /\
  (master <> [] ->
   List.length (params master) = S (List.length master)) /\
  (spec <> [] -> List.length (params spec) = S (List.length spec)).
Proof.
  intros Ht Hf. cbv zeta. unfold TankUpdate.handleTankUpdate.
  rewrite Ht, Hf, !collect_supplied.
  set (master := TankUpdate.supplied V TankUpdate.masterFieldMap req).
  set (spec := TankUpdate.supplied V TankUpdate.specFieldMap req).
  rewrite !length_map.
  split; [|split; [|split]].
  - destruct master as [|m ms], spec as [|s ss]; cbn;
      split; intros H; try discriminate H; try (split; reflexivity);
      try reflexivity; destruct H as [H1 H2]; discriminate.
  - intros Hne.
    destruct master as [|m ms], spec as [|s ss]; cbn; try reflexivity.
    destruct Hne as [H|H]; contradiction H; reflexivity.
  - intros Hne. destruct master as [|m ms]; [contradiction Hne; reflexivity|].
    rewrite length_app, length_map. cbn. lia.
  - intros Hne. destruct spec as [|s ss]; [contradiction Hne; reflexivity|].
    rewrite length_app, length_map. cbn. lia.
Qed.

Lemma tank_update_plan_witness :
  TankUpdate.readField string TankUpdate.sampleRequest "tank_no"
    = TankUpdate.Given "BS-7A" /\
  String.eqb "BS-7A" "" = false /\
  TankUpdate.handleTankUpdate string (fun v => String.eqb v "")
    TankUpdate.sampleRequest
  = TankUpdate.Statements
      ["sim = ?"] ["4274"; "BS-7A"]
      ["upper_safe_limit_pct = ?"] ["80"; "BS-7A"].
Proof.
  split; [reflexivity|]. split; [reflexivity|].
  destruct (tank_update_plan string (fun v => String.eqb v "")
              TankUpdate.sampleRequest "BS-7A" eq_refl eq_refl)
    as (_ & Hplan & _).
  rewrite Hplan; [reflexivity|]. left. discriminate.
Defined.
